(** * Shop API: a shallow embedding of [main.py] and its specification

    The program is a FastAPI façade over a hosted relational store.  The
    handlers build requests with the store client's query builder, run
    them, reshape the returned rows ([format_product_data]) and wrap the
    payload in a fixed envelope ([create_standard_response]).

    The embedding follows the source:
    - JSON data (rows, payloads) is the type [value]; a Python [dict] is a
      [gmap string value];
    - a Python [str] is a [string] holding its UTF-8 bytes;
    - the store is a pair of tables (lists of rows, in table order) and a
      log of the requests that were executed;
    - a handler is a computation in a state-and-exception monad [M]: it
      threads the store and either returns a response or raises.

    What lies outside the repository is kept to what the handlers rely
    on.  The store answers every request (transport failures are not
    modelled); it enforces no constraint of its own; a request without
    [order] returns rows in table order, where a store is free to choose;
    a column holds values of one JSON type, and filters compare values of
    that type.  The interpreter is CPython 3.11, whose Unicode database
    says which characters are digits and whitespace; its bound on the
    length of the text of an integer ([sys.set_int_max_str_digits]) is a
    setting, and is taken to be lifted.  Numbers are integers: JSON
    numbers with a fractional part are not part of [value]. *)

From stdpp Require Import gmap strings list fin_maps pretty.
From Stdlib Require Import ZArith Ascii String.

#[local] Open Scope string_scope.
#[local] Open Scope Z_scope.

(** ** JSON values *)

#[warnings="-register-all"]
Inductive value : Type :=
  | VNull
  | VBool (b : bool)
  | VInt (z : Z)
  | VStr (s : string)
  | VList (l : list value)
  | VObj (o : gmap string value).

(** A row of a table, and any other Python [dict] with string keys. *)
Abbreviation row := (gmap string value).

(** ** Python exceptions *)

Inductive exn : Type :=
  | HTTPException (status_code : Z) (detail : string)
  | KeyError (k : string)
  | TypeError
  | ValueError
  | AttributeError
  | IndexError.

Inductive result (A : Type) : Type :=
  | Ok (a : A)
  | Raise (e : exn).
Arguments Ok {A} a.
Arguments Raise {A} e.

Definition rbind {A B} (r : result A) (k : A → result B) : result B :=
  match r with
  | Ok a => k a
  | Raise e => Raise e
  end.

(** ** Python built-ins used by the handlers *)

Module Py.

(** Truth value of an object ([if x:], [not x], [x or y]). *)
Definition truthy (v : value) : bool :=
  match v with
  | VNull => false
  | VBool b => b
  | VInt z => negb (z =? 0)
  | VStr s => negb (String.eqb s "")
  | VList l => match l with [] => false | _ => true end
  | VObj o => negb (bool_decide (o = ∅))
  end.

(** [a or b]. *)
Definition or (a b : value) : value := if truthy a then a else b.

(** [a or b] on two [str]. *)
Definition str_or (a b : string) : string :=
  if truthy (VStr a) then a else b.

(** Truth value of an [Optional[int]]. *)
Definition truthy_opt (o : option Z) : bool :=
  match o with
  | Some z => truthy (VInt z)
  | None => truthy VNull
  end.

(** [d[k]]: raises [KeyError] on a missing key. *)
Definition getitem (d : row) (k : string) : result value :=
  match d !! k with
  | Some v => Ok v
  | None => Raise (KeyError k)
  end.

(** [d.get(k, default)]. *)
Definition get (d : row) (k : string) (default : value) : value :=
  match d !! k with
  | Some v => v
  | None => default
  end.

Definition code (c : ascii) : N := N_of_ascii c.

(** The characters [str.strip] treats as whitespace, by their UTF-8
    encodings: U+0009..U+000D, U+001C..U+0020 (one byte); U+0085, U+00A0
    (two bytes); U+1680, U+2000..U+200A, U+2028, U+2029, U+202F, U+205F,
    U+3000 (three bytes). *)
Definition ws1 (c : ascii) : bool :=
  let n := code c in
  ((9 <=? n) && (n <=? 13) || (28 <=? n) && (n <=? 32))%N.

Definition ws2 (c1 c2 : ascii) : bool :=
  ((code c1 =? 194) && ((code c2 =? 133) || (code c2 =? 160)))%N.

Definition ws3 (c1 c2 c3 : ascii) : bool :=
  let (a, b) := (code c1, code c2) in
  let c := code c3 in
  ((a =? 225) && (b =? 154) && (c =? 128)
   || (a =? 226) && (b =? 128)
      && ((128 <=? c) && (c <=? 138) || (c =? 168) || (c =? 169) || (c =? 175))
   || (a =? 226) && (b =? 129) && (c =? 159)
   || (a =? 227) && (b =? 128) && (c =? 128))%N.

(** [s.isspace() or s == ""]: every character of [s] is whitespace. *)
Fixpoint all_ws (s : string) : bool :=
  match s with
  | EmptyString => true
  | String c1 r1 =>
      if ws1 c1 then all_ws r1 else
      match r1 with
      | String c2 r2 =>
          if ws2 c1 c2 then all_ws r2 else
          match r2 with
          | String c3 r3 => if ws3 c1 c2 c3 then all_ws r3 else false
          | EmptyString => false
          end
      | EmptyString => false
      end
  end.

Fixpoint lstrip (s : string) : string :=
  match s with
  | EmptyString => EmptyString
  | String c1 r1 =>
      if ws1 c1 then lstrip r1 else
      match r1 with
      | String c2 r2 =>
          if ws2 c1 c2 then lstrip r2 else
          match r2 with
          | String c3 r3 => if ws3 c1 c2 c3 then lstrip r3 else s
          | EmptyString => s
          end
      | EmptyString => s
      end
  end.

Fixpoint rstrip (s : string) : string :=
  match s with
  | EmptyString => EmptyString
  | String c r => if all_ws s then EmptyString else String c (rstrip r)
  end.

(** [s.strip()]. *)
Definition strip (s : string) : string := rstrip (lstrip s).

(** [str(n)] for an [int]. *)
Definition str (z : Z) : string := pretty z.

Definition digit (c : ascii) : option Z :=
  let n := code c in
  if ((48 <=? n) && (n <=? 57))%N then Some (Z.of_N n - 48) else None.

(** The digit part of an integer literal: decimal digits, single
    underscores allowed between two digits.  [after_digit] tells whether
    the previous character was a digit. *)
Fixpoint digits (after_digit : bool) (acc : Z) (s : string) : option Z :=
  match s with
  | EmptyString => if after_digit then Some acc else None
  | String c r =>
      match digit c with
      | Some d => digits true (10 * acc + d) r
      | None =>
          if Ascii.eqb c "_" && after_digit then digits false acc r
          else None
      end
  end.

(** The whitespace [int] skips around the digits once the text is ASCII:
    that of C's [isspace], U+0009..U+000D and the space.  The separators
    U+001C..U+001F, which [str.strip] drops, are not part of it. *)
Definition space (c : ascii) : bool :=
  let n := code c in
  ((9 <=? n) && (n <=? 13) || (n =? 32))%N.

Fixpoint skip_spaces (s : string) : string :=
  match s with
  | EmptyString => EmptyString
  | String c r => if space c then skip_spaces r else s
  end.

Fixpoint all_spaces (s : string) : bool :=
  match s with
  | EmptyString => true
  | String c r => space c && all_spaces r
  end.

Fixpoint drop_trailing_spaces (s : string) : string :=
  match s with
  | EmptyString => EmptyString
  | String c r => if all_spaces s then EmptyString else String c (drop_trailing_spaces r)
  end.

(** The decimal digits of Unicode (category Nd), as in the database of
    CPython 3.11 (Unicode 14.0): they come in runs of ten, 0 to 9, listed
    here by the code point of their 0. *)
Definition decimal_starts : list N :=
  [48; 1632; 1776; 1984; 2406; 2534; 2662; 2790; 2918; 3046;
   3174; 3302; 3430; 3558; 3664; 3792; 3872; 4160; 4240; 6112;
   6160; 6470; 6608; 6784; 6800; 6992; 7088; 7232; 7248; 42528;
   43216; 43264; 43472; 43504; 43600; 44016; 65296; 66720; 68912; 69734;
   69872; 69942; 70096; 70384; 70736; 70864; 71248; 71360; 71472; 71904;
   72016; 72784; 73040; 73120; 92768; 92864; 93008; 120782; 120792; 120802;
   120812; 120822; 123200; 123632; 125264; 130032]%N.

(** The value of the decimal digit with code point [cp]. *)
Definition decimal (cp : N) : option N :=
  (λ first, cp - first)%N
  <$> List.find (λ first, (first <=? cp) && (cp <? first + 10))%N decimal_starts.

(** The ASCII digit that stands for the character [cp], which is not
    whitespace. *)
Definition ascii_digit (cp : N) : option ascii :=
  (λ d, ascii_of_N (48 + d)) <$> decimal cp.

(** A byte that continues a UTF-8 sequence, and the six bits it carries. *)
Definition continuation (c : ascii) : bool :=
  ((128 <=? code c) && (code c <? 192))%N.
Definition bits (c : ascii) : N := (code c - 128)%N.

(** The first step of [int] on a [str]: the text is rewritten to ASCII.
    A character below U+007F is kept as it is; any other whitespace
    character becomes a space; any other decimal digit becomes the ASCII
    digit of its value; with any other character the text is refused.
    The characters are read off their UTF-8 encodings, of two, three or
    four bytes. *)
Fixpoint to_ascii (s : string) : option string :=
  match s with
  | EmptyString => Some EmptyString
  | String c1 r1 =>
      if (code c1 <? 127)%N then String c1 <$> to_ascii r1 else
      match r1 with
      | String c2 r2 =>
          if ws2 c1 c2 then String " " <$> to_ascii r2 else
          if (code c1 <? 224)%N then
            if (192 <=? code c1)%N && continuation c2 then
              d ← ascii_digit (64 * (code c1 - 192) + bits c2);
              String d <$> to_ascii r2
            else None
          else
          match r2 with
          | String c3 r3 =>
              if ws3 c1 c2 c3 then String " " <$> to_ascii r3 else
              if (code c1 <? 240)%N then
                if continuation c2 && continuation c3 then
                  d ← ascii_digit (4096 * (code c1 - 224) + 64 * bits c2 + bits c3);
                  String d <$> to_ascii r3
                else None
              else
              match r3 with
              | String c4 r4 =>
                  if continuation c2 && continuation c3 && continuation c4 then
                    d ← ascii_digit (262144 * (code c1 - 240) + 4096 * bits c2
                                     + 64 * bits c3 + bits c4);
                    String d <$> to_ascii r4
                  else None
              | EmptyString => None
              end
          | EmptyString => None
          end
      | EmptyString => None
      end
  end.

(** [int(s)] for a [str], base 10: the text is rewritten to ASCII, the
    whitespace around it is skipped, one sign is allowed, and the rest
    has to be digits. *)
Definition int_of_str (s : string) : option Z :=
  a ← to_ascii s;
  match drop_trailing_spaces (skip_spaces a) with
  | EmptyString => None
  | String c r =>
      if Ascii.eqb c "+" then digits false 0 r
      else if Ascii.eqb c "-" then Z.opp <$> digits false 0 r
      else digits false 0 (String c r)
  end.

(** [int(v)].  JSON numbers with a fractional part (Python [float]) are
    not part of [value]. *)
Definition int (v : value) : result Z :=
  match v with
  | VInt z => Ok z
  | VBool b => Ok (if b then 1 else 0)
  | VStr s =>
      match int_of_str s with
      | Some z => Ok z
      | None => Raise ValueError
      end
  | VNull | VList _ | VObj _ => Raise TypeError
  end.

(** Commas every three digits, on the reversed digit string; [k] counts
    the digits emitted since the last comma. *)
Fixpoint group_rev (k : nat) (ds : list ascii) : list ascii :=
  match ds with
  | [] => []
  | d :: r =>
      if (k =? 3)%nat then "," % char :: d :: group_rev 1 r
      else d :: group_rev (S k) r
  end.

Definition group (ds : string) : string :=
  string_of_list_ascii (rev (group_rev 0 (rev (list_ascii_of_string ds)))).

(** [f"{n:,}"] for an [int]. *)
Definition format_comma (z : Z) : string :=
  match z with
  | Zneg p => "-" +:+ group (str (Zpos p))
  | _ => group (str z)
  end.

(** [value + n] for an [int] [n]. *)
Definition add_int (v : value) (n : Z) : result Z :=
  match v with
  | VInt z => Ok (z + n)
  | VBool b => Ok ((if b then 1 else 0) + n)
  | VNull | VStr _ | VList _ | VObj _ => Raise TypeError
  end.

End Py.

(** ** The store and the client's query builder *)

Inductive table : Type :=
  | Products     (* [table("products")] *)
  | CartItems.   (* [table("cart_items")] *)

Inductive condition : Type :=
  | Eq (column : string) (v : value)     (* [.eq(column, v)] *)
  | Gt (column : string) (n : Z)         (* [.gt(column, n)] *)
  | Or_ (conditions : string).           (* [.or_(conditions)] *)

Inductive columns : Type :=
  | All                                   (* [select("*")] *)
  | Columns (cs : list string)            (* [select("c1, c2")] *)
  | AllWithProducts.                      (* [select("*, products:product_id (*)")] *)

Inductive verb : Type :=
  | Select (c : columns)
  | Update (patch : row)
  | Insert (r : row)
  | Delete.

Record request : Type := {
  req_table : table;
  req_verb : verb;
  req_filters : list condition;
  req_order : option (string * bool);     (* column, [desc] *)
  req_limit : option nat
}.

Module Query.

Definition start (t : table) (v : verb) : request :=
  {| req_table := t; req_verb := v; req_filters := [];
     req_order := None; req_limit := None |}.

Definition select (c : columns) (t : table) : request := start t (Select c).
Definition update (patch : row) (t : table) : request := start t (Update patch).
Definition insert (r : row) (t : table) : request := start t (Insert r).
Definition delete (t : table) : request := start t Delete.

Definition add_filter (f : condition) (q : request) : request :=
  {| req_table := req_table q; req_verb := req_verb q;
     req_filters := req_filters q ++ [f];
     req_order := req_order q; req_limit := req_limit q |}.

Definition eq (column : string) (v : value) : request → request :=
  add_filter (Eq column v).
Definition gt (column : string) (n : Z) : request → request :=
  add_filter (Gt column n).
Definition or_ (conditions : string) : request → request :=
  add_filter (Or_ conditions).

Definition order (column : string) (desc : bool) (q : request) : request :=
  {| req_table := req_table q; req_verb := req_verb q;
     req_filters := req_filters q;
     req_order := Some (column, desc); req_limit := req_limit q |}.

Definition limit (n : nat) (q : request) : request :=
  {| req_table := req_table q; req_verb := req_verb q;
     req_filters := req_filters q;
     req_order := req_order q; req_limit := Some n |}.

End Query.

(** Method chaining: [t |> select c |> eq k v] reads as the source does. *)
Notation "x |> f" := (f x) (at level 45, left associativity, only parsing).

Record tables : Type := {
  products : list row;
  cart_items : list row
}.

(** The store: its tables and the requests executed so far. *)
Record store : Type := {
  db : tables;
  log : list request
}.

(** What a call takes from outside: the clock as the call reads it, the
    columns the store fills in on insertion ([id], [created_at],
    [updated_at]), the store's reading of an [or_] condition string, and
    the interpreter's text for [str] of a container and of an exception. *)
Record Env : Type := {
  now : string;
  generated : table → list row → row;
  or_matches : string → row → bool;
  repr : value → string;
  exc_str : exn → string
}.

Module Sql.

(** The value of a column; an absent column reads as NULL. *)
Definition column (c : string) (r : row) : value := default VNull (r !! c).

(** [a = b] on column values of one type; NULL equals nothing. *)
Definition eqb (a b : value) : bool :=
  match a, b with
  | VBool x, VBool y => Bool.eqb x y
  | VInt x, VInt y => (x =? y)
  | VStr x, VStr y => String.eqb x y
  | _, _ => false
  end.

(** [a < b] in the order of ORDER BY: NULL is above every value, text
    is compared byte by byte. *)
Definition ltb (a b : value) : bool :=
  match a, b with
  | VNull, _ => false
  | _, VNull => true
  | VBool x, VBool y => negb x && y
  | VInt x, VInt y => (x <? y)
  | VStr x, VStr y => String.ltb x y
  | _, _ => false
  end.

(** [x] goes in front of the first row it does not come strictly after,
    which keeps rows with equal keys in table order. *)
Fixpoint place (after : row → row → bool) (x : row) (l : list row) : list row :=
  match l with
  | [] => [x]
  | y :: l' => if after x y then y :: place after x l' else x :: l
  end.

Definition order_by (c : string) (desc : bool) (l : list row) : list row :=
  let after x y :=
    if desc then ltb (column c x) (column c y)
    else ltb (column c y) (column c x) in
  foldr (place after) [] l.

End Sql.

Section Program.

Variable env : Env.

Definition rows_of (d : tables) (t : table) : list row :=
  match t with
  | Products => products d
  | CartItems => cart_items d
  end.

Definition set_rows (d : tables) (t : table) (l : list row) : tables :=
  match t with
  | Products => {| products := l; cart_items := cart_items d |}
  | CartItems => {| products := products d; cart_items := l |}
  end.

Definition matches (f : condition) (r : row) : bool :=
  match f with
  | Eq c v => Sql.eqb (Sql.column c r) v
  | Gt c n =>
      match Sql.column c r with
      | VInt z => (n <? z)
      | _ => false
      end
  | Or_ conditions => or_matches env conditions r
  end.

Definition selected (fs : list condition) (r : row) : bool :=
  forallb (λ f, matches f r) fs.

(** The embedded relation ["products:product_id (*)"]: the product the
    row refers to, or NULL. *)
Definition embed_product (d : tables) (r : row) : value :=
  match find (λ p, Sql.eqb (Sql.column "id" p) (Sql.column "product_id" r))
             (products d) with
  | Some p => VObj p
  | None => VNull
  end.

Definition project (d : tables) (c : columns) (r : row) : row :=
  match c with
  | All => r
  | Columns cs => filter (λ kv, kv.1 ∈ cs) r
  | AllWithProducts => <["products" := embed_product d r]> r
  end.

(** The effect of a request on the tables, and the rows it returns. *)
Definition run (d : tables) (q : request) : tables * list row :=
  let t := req_table q in
  let rows := rows_of d t in
  let sel := selected (req_filters q) in
  match req_verb q with
  | Select c =>
      let found := List.filter sel rows in
      let sorted :=
        match req_order q with
        | Some (col, desc) => Sql.order_by col desc found
        | None => found
        end in
      let page :=
        match req_limit q with
        | Some n => take n sorted
        | None => sorted
        end in
      (d, project d c <$> page)
  | Update patch =>
      let rows' := (λ r, if sel r then patch ∪ r else r) <$> rows in
      (set_rows d t rows', (λ r, patch ∪ r) <$> List.filter sel rows)
  | Insert r =>
      let r' := r ∪ generated env t rows in
      (set_rows d t (rows ++ [r']), [r'])
  | Delete =>
      (set_rows d t (List.filter (λ r, negb (sel r)) rows), List.filter sel rows)
  end.

(** *** The handler monad: the store is threaded, exceptions stop. *)

Definition M (A : Type) : Type := store → store * result A.

Definition ret {A} (a : A) : M A := λ s, (s, Ok a).
Definition raise {A} (e : exn) : M A := λ s, (s, Raise e).
Definition bind {A B} (m : M A) (k : A → M B) : M B :=
  λ s, match m s with
       | (s', Ok a) => k a s'
       | (s', Raise e) => (s', Raise e)
       end.
Definition lift {A} (r : result A) : M A := λ s, (s, r).

(** [q.execute()]: one call to the store. *)
Definition execute (q : request) : M (list row) :=
  λ s, let (d', data) := run (db s) q in
       ({| db := d'; log := log s ++ [q] |}, Ok data).

(** [except HTTPException: raise] followed by
    [except Exception as e: raise HTTPException(500, str(e))]. *)
Definition reraise_http {A} (m : M A) : M A :=
  λ s, match m s with
       | (s', Raise (HTTPException c d)) => (s', Raise (HTTPException c d))
       | (s', Raise e) => (s', Raise (HTTPException 500 (exc_str env e)))
       | r => r
       end.

(** [except Exception as e: raise HTTPException(500, str(e))] alone. *)
Definition reraise_500 {A} (m : M A) : M A :=
  λ s, match m s with
       | (s', Raise e) => (s', Raise (HTTPException 500 (exc_str env e)))
       | r => r
       end.

Notation "'let*' x ':=' m 'in' k" := (bind m (λ x, k))
  (at level 10, x pattern, m at level 100, k at level 200, only parsing).
Notation "'let+' x ':=' r 'in' k" := (rbind r (λ x, k))
  (at level 10, x pattern, r at level 100, k at level 200, only parsing).

(** ** Utility functions *)

(** A replacement field [{v}] of an f-string. *)
Definition fstr (v : value) : string :=
  match v with
  | VNull => "None"
  | VBool true => "True"
  | VBool false => "False"
  | VInt z => Py.str z
  | VStr s => s
  | VList _ | VObj _ => repr env v
  end.

Definition api_urls (product_id : value) : row :=
  list_to_map [
    ("get", VStr ("http://localhost:8001/api/get/" +:+ fstr product_id));
    ("favorite", VStr ("http://localhost:8001/api/favorite/" +:+ fstr product_id));
    ("cart_add", VStr ("http://localhost:8001/api/cart-add/" +:+ fstr product_id));
    ("cart_remove", VStr ("http://localhost:8001/api/cart-remove/" +:+ fstr product_id));
    ("cart_update", VStr ("http://localhost:8001/api/cart-update/" +:+ fstr product_id))
  ].

(** The body of the loop of [format_product_data], on one product.  Both
    arms of the [isinstance] test call [int] on the field. *)
Definition format_product (product : row) : result row :=
  let+ product_id := Py.getitem product "id" in
  let+ price_field := Py.getitem product "price" in
  let+ price := Py.int price_field in
  let product := <["price" := VStr (Py.format_comma price +:+ "원")]> product in
  let+ discount_field := Py.getitem product "discount" in
  let+ discount := Py.int discount_field in
  let product := <["discount" := VStr (Py.str discount +:+ "%")]> product in
  Ok (<["api_urls" := VObj (api_urls product_id)]> product).

Fixpoint format_product_data (products : list row) : result (list row) :=
  match products with
  | [] => Ok []
  | product :: rest =>
      let+ product' := format_product product in
      let+ rest' := format_product_data rest in
      Ok (product' :: rest')
  end.

(** The response object.  [content] is the document handed to
    [json.dumps]; its serialisation to text is not modelled. *)
Record Response : Type := {
  content : value;
  media_type : string;
  headers : list (string * string)
}.

Definition create_standard_response (data : value) (message : string) : Response :=
  let response_data := VObj (list_to_map [
    ("header", VObj (list_to_map [
       ("content-type", VStr "application/json; charset=utf-8");
       ("server", VStr "FastAPI");
       ("date", VStr (now env +:+ "Z"))
     ]));
    ("body", VObj (list_to_map [
       ("code", VStr "200");
       ("message", VStr message);
       ("data", data)
     ]))
  ]) in
  {| content := response_data;
     media_type := "application/json; charset=utf-8";
     headers := [("Content-Type", "application/json; charset=utf-8")] |}.

(** Reading a response back: a field of its body. *)
Definition body_field (r : Response) (k : string) : option value :=
  match content r with
  | VObj doc =>
      match doc !! "body" with
      | Some (VObj body) => body !! k
      | _ => None
      end
  | _ => None
  end.

(** A field of the [data] object of a response. *)
Definition data_field (r : Response) (k : string) : option value :=
  match body_field r "data" with
  | Some (VObj data) => data !! k
  | _ => None
  end.

(** ** The unified product endpoint, [GET /api/{action}/{product_id}] *)

(** The branch on [action]: the business logic, returning [message]. *)
Definition perform_action (action : string) (product_id user_id quantity : Z)
  : M string :=
  if String.eqb action "favorite" then
    let* current := execute (Products |> Query.select (Columns ["is_favorite"; "likes"])
                               |> Query.eq "id" (VInt product_id)) in
    match current with
    | [] => raise (HTTPException 404 "상품을 찾을 수 없습니다")
    | current0 :: _ =>
        let* current_favorite := lift (Py.getitem current0 "is_favorite") in
        let* likes_field := lift (Py.getitem current0 "likes") in
        let* current_likes := lift (Py.int (Py.or likes_field (VStr "0"))) in
        let new_favorite := negb (Py.truthy current_favorite) in
        let new_likes := current_likes + (if new_favorite then 1 else -1) in
        let new_likes := Z.max 0 new_likes in
        let* _ := execute (Products
                     |> Query.update (list_to_map [
                          ("is_favorite", VBool new_favorite);
                          ("likes", VStr (Py.str new_likes))])
                     |> Query.eq "id" (VInt product_id)) in
        ret (if new_favorite then "즐겨찾기가 토글되었습니다"
             else "즐겨찾기가 해제되었습니다")
    end
  else if String.eqb action "cart-add" then
    let* existing := execute (CartItems |> Query.select All
                                |> Query.eq "user_id" (VInt user_id)
                                |> Query.eq "product_id" (VInt product_id)) in
    match existing with
    | existing0 :: _ =>
        let* current_qty := lift (Py.getitem existing0 "quantity") in
        let* new_qty := lift (Py.add_int current_qty quantity) in
        let* _ := execute (CartItems
                     |> Query.update (list_to_map [("quantity", VInt new_qty)])
                     |> Query.eq "user_id" (VInt user_id)
                     |> Query.eq "product_id" (VInt product_id)) in
        ret ("장바구니 수량이 " +:+ Py.str new_qty +:+ "개로 업데이트되었습니다")
    | [] =>
        let* _ := execute (CartItems
                     |> Query.insert (list_to_map [
                          ("user_id", VInt user_id);
                          ("product_id", VInt product_id);
                          ("quantity", VInt quantity);
                          ("selected_options", VStr "")])) in
        ret "장바구니에 추가되었습니다"
    end
  else if String.eqb action "cart-remove" then
    let* _ := execute (CartItems |> Query.delete
                         |> Query.eq "user_id" (VInt user_id)
                         |> Query.eq "product_id" (VInt product_id)) in
    ret "장바구니에서 삭제되었습니다"
  else if String.eqb action "cart-update" then
    let* _ := execute (CartItems
                 |> Query.update (list_to_map [("quantity", VInt quantity)])
                 |> Query.eq "user_id" (VInt user_id)
                 |> Query.eq "product_id" (VInt product_id)) in
    ret ("수량이 " +:+ Py.str quantity +:+ "개로 변경되었습니다")
  else if String.eqb action "get" then
    ret "상품 정보를 조회했습니다"
  else
    raise (HTTPException 400 ("지원하지 않는 액션: " +:+ action)).

(** The cart state read for the response: [(in_cart, cart_quantity)]. *)
Definition cart_state (product_id user_id : Z) : M (bool * value) :=
  let* cart_response := execute (CartItems |> Query.select All
                                   |> Query.eq "user_id" (VInt user_id)
                                   |> Query.eq "product_id" (VInt product_id)
                                   |> Query.gt "quantity" 0) in
  let in_cart := bool_decide (0 < List.length cart_response)%nat in
  match cart_response with
  | item :: _ =>
      let* cart_quantity := lift (Py.getitem item "quantity") in
      ret (in_cart, cart_quantity)
  | [] => ret (in_cart, VInt 0)
  end.

Definition unified_product_api (action : string) (product_id user_id quantity : Z)
  : M Response :=
  reraise_http (
    let* message := perform_action action product_id user_id quantity in
    let* product_response := execute (Products |> Query.select All
                                        |> Query.eq "id" (VInt product_id)) in
    match product_response with
    | [] => raise (HTTPException 404 "상품을 찾을 수 없습니다")
    | product :: _ =>
        let* formatted_products := lift (format_product_data [product]) in
        let* (in_cart, cart_quantity) := cart_state product_id user_id in
        match formatted_products with
        | [] => raise IndexError       (* [formatted_products[0]], never reached *)
        | formatted0 :: _ =>
            let product := formatted0 in   (* one object, formatted in place *)
            let* likes := lift (Py.int (Py.get product "likes" (VInt 0))) in
            let response_data := VObj (list_to_map [
              ("product", VObj formatted0);
              ("is_favorite", Py.get product "is_favorite" (VBool false));
              ("in_cart", VBool in_cart);
              ("cart_quantity", cart_quantity);
              ("likes", VInt likes)]) in
            ret (create_standard_response response_data message)
        end
    end).

(** ** [GET /cart-items] *)

Definition cart_items_query (user_id : option Z) : request :=
  let query := CartItems |> Query.select AllWithProducts
                 |> Query.gt "quantity" 0 in
  let query :=
    match user_id with
    | Some u => if Py.truthy_opt user_id then query |> Query.eq "user_id" (VInt u)
                else query
    | None => query
    end in
  query |> Query.order "created_at" true.

(** The body of the loop over [response.data]: the entry appended for
    [item], if any. *)
Definition cart_entry (item : row) : result (option row) :=
  if Py.truthy (Py.get item "products" VNull) then
    let+ products_field := Py.getitem item "products" in
    let+ product :=
      match products_field with
      | VObj p => Ok p                       (* [.copy()] *)
      | VList _ => Raise TypeError
      | _ => Raise AttributeError
      end in
    let+ formatted_products := format_product_data [product] in
    let+ cart_item_id := Py.getitem item "id" in
    let+ quantity := Py.getitem item "quantity" in
    let+ user_id := Py.getitem item "user_id" in
    match formatted_products with
    | product :: _ =>
        Ok (Some (list_to_map [
          ("cart_item_id", cart_item_id);
          ("quantity", quantity);
          ("user_id", user_id);
          ("product", VObj product)]))
    | [] => Raise IndexError
    end
  else Ok None.

Fixpoint cart_entries (data : list row) : result (list row) :=
  match data with
  | [] => Ok []
  | item :: rest =>
      let+ entry := cart_entry item in
      let+ rest' := cart_entries rest in
      Ok (match entry with Some e => e :: rest' | None => rest' end)
  end.

Definition get_cart_items (user_id : option Z) : M Response :=
  reraise_500 (
    let* response := execute (cart_items_query user_id) in
    let* cart_items := lift (cart_entries response) in
    ret (create_standard_response (VList (VObj <$> cart_items)) "Success")).

(** ** [GET /products-search] *)

Definition search_products (q : string) : M Response :=
  reraise_500 (
    let q := Py.strip (Py.str_or q "") in
    if negb (Py.truthy (VStr q)) then
      ret (create_standard_response (VList []) "검색어가 비어있습니다")
    else
      let* response := execute (Products |> Query.select All
                         |> Query.or_ ("product_name.ilike.%" +:+ q
                                       +:+ "%,brand_name.ilike.%" +:+ q +:+ "%")
                         |> Query.order "created_at" true) in
      let* formatted_products := lift (format_product_data response) in
      ret (create_standard_response (VList (VObj <$> formatted_products)) "Success")).

(** ** [GET /products-ranking] *)

Definition get_products_ranking : M Response :=
  reraise_500 (
    let* response := execute (Products |> Query.select All
                                |> Query.order "likes" true
                                |> Query.limit 20) in
    let* formatted_products := lift (format_product_data response) in
    ret (create_standard_response (VList (VObj <$> formatted_products)) "Success")).

End Program.

(** ** The other endpoints *)

(** [l[:k]]: the first [k] elements, or all but the last [-k] when [k] is
    negative. *)
Definition slice_to {A} (k : Z) (l : list A) : list A :=
  if 0 <=? k then take (Z.to_nat k) l
  else take (List.length l - Z.to_nat (- k)) l.

(** The rows a request with [.range(first, last)] returns, of the rows it
    would return without: those at positions [first] to [last], both
    included.  What the store answers to a negative bound is not
    modelled. *)
Definition in_range {A} (first last : Z) (l : list A) : list A :=
  take (Z.to_nat (last - first + 1)) (drop (Z.to_nat first) l).

(** The list [popular_terms] of [get_popular_search_terms]. *)
Definition popular_terms : list row :=
  (λ '(term, count, trend),
     list_to_map [("term", VStr term); ("count", VInt count); ("trend", VStr trend)])
  <$> [("나이키", 156, "up"); ("아디다스", 134, "up"); ("반팔티", 98, "down");
       ("청바지", 87, "up"); ("운동화", 76, "up"); ("후드티", 65, "down");
       ("가방", 54, "up"); ("시계", 43, "up"); ("신발", 38, "down");
       ("액세서리", 32, "up")].

Section Endpoints.

Variable env : Env.

Notation "'let*' x ':=' m 'in' k" := (bind m (λ x, k))
  (at level 10, x pattern, m at level 100, k at level 200, only parsing).
Notation "'let+' x ':=' r 'in' k" := (rbind r (λ x, k))
  (at level 10, x pattern, r at level 100, k at level 200, only parsing).

(** [q.range(first, last).execute()]: one call to the store, logged as
    the request it pages. *)
Definition execute_range (q : request) (first last : Z) : M (list row) :=
  λ s, let (d', data) := run env (db s) q in
       ({| db := d'; log := log s ++ [q] |}, Ok (in_range first last data)).

(** [q.limit(n)] for an [int] [n].  What the store answers to a negative
    [n] is not modelled; it is read as 0 here. *)
Definition limit_int (n : Z) (q : request) : request :=
  q |> Query.limit (Z.to_nat n).

(** ** [GET /products] *)

Definition products_query (category : option string) : request :=
  let query := Products |> Query.select All in
  let query :=
    match category with
    | Some c =>
        if Py.truthy (VStr c) && negb (String.eqb c "전체")
        then query |> Query.eq "category" (VStr c)
        else query
    | None => query
    end in
  query |> Query.order "created_at" true.

Definition get_products (offset limit : Z) (category : option string) : M Response :=
  reraise_500 env (
    let* response := execute_range (products_query category)
                       offset (offset + limit - 1) in
    let* formatted_products := lift (format_product_data env response) in
    ret (create_standard_response env (VList (VObj <$> formatted_products)) "Success")).

(** ** [GET /products/all] *)

Definition get_all_products : M Response :=
  reraise_500 env (
    let* response := execute env (Products |> Query.select All
                                    |> Query.order "created_at" true) in
    let* formatted_products := lift (format_product_data env response) in
    ret (create_standard_response env (VList (VObj <$> formatted_products)) "Success")).

(** ** [GET /products/{product_id}] *)

Definition get_product (product_id : Z) : M Response :=
  reraise_http env (
    let* response := execute env (Products |> Query.select All
                                    |> Query.eq "id" (VInt product_id)) in
    match response with
    | [] => raise (HTTPException 404 "상품을 찾을 수 없습니다")
    | product :: _ =>
        let* formatted_products := lift (format_product_data env [product]) in
        (* [product] is the object that was formatted in place *)
        let product := hd product formatted_products in
        (* the log line reads both names *)
        let* _ := lift (Py.getitem product "brand_name") in
        let* _ := lift (Py.getitem product "product_name") in
        match formatted_products with
        | [] => raise IndexError
        | formatted0 :: _ =>
            ret (create_standard_response env (VObj formatted0) "Success")
        end
    end).

(** ** [GET /user/cart-and-favorites] *)

(** The body of the loop over [cart_response.data]. *)
Definition user_cart_entry (item : row) : result (option row) :=
  if Py.truthy (Py.get item "products" VNull) then
    let+ products_field := Py.getitem item "products" in
    let+ product :=
      match products_field with
      | VObj p => Ok p                       (* [.copy()] *)
      | VList _ => Raise TypeError
      | _ => Raise AttributeError
      end in
    let+ formatted_products := format_product_data env [product] in
    let+ cart_item_id := Py.getitem item "id" in
    let+ quantity := Py.getitem item "quantity" in
    match formatted_products with
    | product :: _ =>
        Ok (Some (list_to_map [
          ("cart_item_id", cart_item_id);
          ("quantity", quantity);
          ("product", VObj product)]))
    | [] => Raise IndexError
    end
  else Ok None.

Fixpoint user_cart_entries (data : list row) : result (list row) :=
  match data with
  | [] => Ok []
  | item :: rest =>
      let+ entry := user_cart_entry item in
      let+ rest' := user_cart_entries rest in
      Ok (match entry with Some e => e :: rest' | None => rest' end)
  end.

Definition get_user_cart_and_favorites (user_id : Z) : M Response :=
  reraise_500 env (
    let* cart_response := execute env (CartItems |> Query.select AllWithProducts
                                         |> Query.eq "user_id" (VInt user_id)
                                         |> Query.gt "quantity" 0) in
    let* favorites_response := execute env (Products |> Query.select All
                                              |> Query.eq "is_favorite" (VBool true)) in
    let* cart_items := lift (user_cart_entries cart_response) in
    let* favorites := lift (format_product_data env favorites_response) in
    let response_data := VObj (list_to_map [
      ("user_id", VInt user_id);
      ("cart_items", VList (VObj <$> cart_items));
      ("favorites", VList (VObj <$> favorites));
      ("cart_count", VInt (Z.of_nat (List.length cart_items)));
      ("favorites_count", VInt (Z.of_nat (List.length favorites)))]) in
    ret (create_standard_response env response_data "Success")).

(** ** [GET /products-favorites] *)

Definition get_favorite_products : M Response :=
  reraise_500 env (
    let* response := execute env (Products |> Query.select All
                                    |> Query.eq "is_favorite" (VBool true)
                                    |> Query.order "created_at" true) in
    let* formatted_products := lift (format_product_data env response) in
    ret (create_standard_response env (VList (VObj <$> formatted_products)) "Success")).

(** ** [GET /products-recent-views] *)

(** The body of the loop over [response.data]: the product appended for
    [item], if any. *)
Definition viewed_product (item : row) : result (option row) :=
  match item !! "products" with
  | Some products_field =>
      if Py.truthy products_field then
        let+ product :=
          match products_field with
          | VObj p => Ok p                     (* [.copy()] *)
          | VList _ => Raise TypeError
          | _ => Raise AttributeError
          end in
        let+ formatted_products := format_product_data env [product] in
        match formatted_products with
        | product :: _ => Ok (Some product)
        | [] => Raise IndexError
        end
      else Ok None
  | None => Ok None
  end.

Fixpoint viewed_products (data : list row) : result (list row) :=
  match data with
  | [] => Ok []
  | item :: rest =>
      let+ entry := viewed_product item in
      let+ rest' := viewed_products rest in
      Ok (match entry with Some e => e :: rest' | None => rest' end)
  end.

Definition get_recent_viewed_products (user_id limit : Z) : M Response :=
  reraise_500 env (
    let* response := execute env (CartItems |> Query.select AllWithProducts
                                    |> Query.eq "user_id" (VInt user_id)
                                    |> Query.eq "quantity" (VInt 0)
                                    |> Query.order "updated_at" true
                                    |> limit_int limit) in
    let* products := lift (viewed_products response) in
    let* products :=
      if negb (Py.truthy (VList (VObj <$> products))) then
        let* all_products_response :=
          execute env (Products |> Query.select All
                         |> Query.order "created_at" true
                         |> limit_int limit) in
        lift (format_product_data env all_products_response)
      else ret products in
    ret (create_standard_response env (VList (VObj <$> products)) "Success")).

(** ** [GET /popular-search-terms] *)

Definition get_popular_search_terms (limit : Z) : M Response :=
  reraise_500 env (
    let result := slice_to limit popular_terms in
    ret (create_standard_response env (VList (VObj <$> result)) "Success")).

End Endpoints.

(** ** Vocabulary of the statements *)

(** The product rows a request for [id = product_id] selects. *)
Definition has_id (product_id : Z) (r : row) : bool :=
  Sql.eqb (Sql.column "id" r) (VInt product_id).

(** The cart rows a request for [(user_id, product_id)] selects. *)
Definition is_cart_row (user_id product_id : Z) (r : row) : bool :=
  Sql.eqb (Sql.column "user_id" r) (VInt user_id)
  && Sql.eqb (Sql.column "product_id" r) (VInt product_id).

(** A cart row that counts as being in the cart: [quantity > 0]. *)
Definition in_cart_row (r : row) : bool :=
  match Sql.column "quantity" r with
  | VInt z => (0 <? z)
  | _ => false
  end.

(** A product row the unified endpoint can put in its response: the
    formatting succeeds and [likes] reads as an integer. *)
Definition presentable (env : Env) (p : row) : Prop :=
  ∃ p' likes, format_product env p = Ok p'
              ∧ Py.int (Py.get p' "likes" (VInt 0)) = Ok likes.

(** The five keys of [api_urls], with the path segment of each. *)
Definition api_actions : list (string * string) :=
  [("get", "get"); ("favorite", "favorite"); ("cart_add", "cart-add");
   ("cart_remove", "cart-remove"); ("cart_update", "cart-update")].

(** A sample environment and sample stores, for the closed statements. *)
Module Sample.

Definition env : Env :=
  {| now := "2024-01-01T00:00:00";
     generated := λ _ rows,
       list_to_map [("id", VInt (Z.of_nat (List.length rows) + 1));
                    ("created_at", VStr "2024-01-01T00:00:00+00:00");
                    ("updated_at", VStr "2024-01-01T00:00:00+00:00")];
     or_matches := λ _ _, false;
     repr := λ _, "";
     exc_str := λ _, "" |}.

Definition product (id : Z) (likes : string) : row :=
  list_to_map [("id", VInt id); ("brand_name", VStr "brand");
               ("product_name", VStr "name"); ("price", VInt 15000);
               ("discount", VInt 10); ("likes", VStr likes);
               ("is_favorite", VBool false)].

Definition cart_row (id user_id product_id quantity : Z) : row :=
  list_to_map [("id", VInt id); ("user_id", VInt user_id);
               ("product_id", VInt product_id); ("quantity", VInt quantity);
               ("selected_options", VStr "");
               ("created_at", VStr "2024-01-01T00:00:00+00:00")].

(** Two products, with 9 and 10 likes; an empty cart. *)
Definition shop : store :=
  {| db := {| products := [product 3 "9"; product 4 "10"]; cart_items := [] |};
     log := [] |}.

(** Two products with 9 likes each. *)
Definition shop_even : store :=
  {| db := {| products := [product 3 "9"; product 4 "9"]; cart_items := [] |};
     log := [] |}.

(** The same shop, where user 7 has viewed product 3 (a row with
    quantity 0) and holds two of product 4. *)
Definition shop_with_cart : store :=
  {| db := {| products := [product 3 "9"; product 4 "10"];
              cart_items := [cart_row 1 7 3 0; cart_row 2 7 4 2] |};
     log := [] |}.



End Sample.

(** The characters [str] writes: a digit or the minus sign. *)
Definition plain (c : ascii) : bool :=
  match Py.digit c with
  | Some _ => true
  | None => Ascii.eqb c "-"
  end.

Fixpoint all_chars (P : ascii → bool) (s : string) : bool :=
  match s with
  | EmptyString => true
  | String c r => P c && all_chars P r
  end.

(** What the clauses after [try] of the unified endpoint make of an
    exception: an [HTTPException] passes, anything else becomes a 500. *)
Definition as_http (env : Env) (e : exn) : exn :=
  match e with
  | HTTPException c d => HTTPException c d
  | _ => HTTPException 500 (exc_str env e)
  end.

(** A computation that leaves an observation [f] of the store as it is,
    however it ends. *)
Definition preserves {X A} (f : store → X) (m : M A) : Prop :=
  ∀ s, f (m s).1 = f s.

(** The requests that write: everything but a [select]. *)
Definition is_write (q : request) : bool :=
  match req_verb q with
  | Select _ => false
  | Update _ | Insert _ | Delete => true
  end.

(** The writes a store has received. *)
Definition writes (s : store) : list request := List.filter is_write (log s).

(** The actions the unified endpoint knows. *)
Definition known_action (action : string) : bool :=
  existsb (String.eqb action)
          ["favorite"; "cart-add"; "cart-remove"; "cart-update"; "get"].

(** An exception of the interpreter, as opposed to an [HTTPException]. *)
Definition python_error (e : exn) : Prop :=
  match e with
  | HTTPException _ _ => False
  | _ => True
  end.

(** A favorite toggle's update of a row: the flag and the like count. *)
Definition toggled (fav : bool) (likes : Z) (r : row) : row :=
  <["is_favorite" := VBool fav]> (<["likes" := VStr (Py.str likes)]> r).

(** What the unified endpoint reports of the cart, given the cart rows:
    [(in_cart, cart_quantity)], read off the first row of the pair with
    [quantity > 0]. *)
Definition cart_report (user_id product_id : Z) (rows : list row) : bool * value :=
  match find (λ r, is_cart_row user_id product_id r && in_cart_row r) rows with
  | Some r => (true, Sql.column "quantity" r)
  | None => (false, VInt 0)
  end.

(** The [data] object of the unified endpoint's response. *)
Definition consolidated (product' : row) (report : bool * value) (likes : Z) : value :=
  VObj (list_to_map [
    ("product", VObj product');
    ("is_favorite", Py.get product' "is_favorite" (VBool false));
    ("in_cart", VBool report.1);
    ("cart_quantity", report.2);
    ("likes", VInt likes)]).

(** The exceptions a handler body may raise on its own: those of the
    interpreter, and the 404 of a missing product. *)
Definition missing_or_python (e : exn) : Prop :=
  match e with
  | HTTPException c _ => c = 404
  | _ => True
  end.

(** A computation that raises only exceptions satisfying [P]. *)
Definition raises_only {A} (P : exn → Prop) (m : M A) : Prop :=
  ∀ s e, (m s).2 = Raise e → P e.

(** A computation that sends the store at most [n] writes. *)
Definition writes_at_most {A} (n : nat) (m : M A) : Prop :=
  ∀ s, (List.length (writes s) ≤ List.length (writes (m s).1)
        ≤ List.length (writes s) + n)%nat.

(** A string without its commas. *)
Fixpoint without_commas (s : string) : string :=
  match s with
  | EmptyString => EmptyString
  | String c r => if Ascii.eqb c "," then without_commas r
                  else String c (without_commas r)
  end.

(** A computation that changes no table and sends no write. *)
Definition reads_only {A} (m : M A) : Prop :=
  preserves db m ∧ preserves writes m.

(** The answer of a listing endpoint for the rows the store returned: the
    rows formatted, in the envelope, or a 500 when one does not format. *)
Definition listing (env : Env) (rows : list row) : result Response :=
  match format_product_data env rows with
  | Ok formatted =>
      Ok (create_standard_response env (VList (VObj <$> formatted)) "Success")
  | Raise e => Raise (HTTPException 500 (exc_str env e))
  end.

(** The product rows flagged as favorites. *)
Definition is_favorite_row (r : row) : bool :=
  Sql.eqb (Sql.column "is_favorite" r) (VBool true).

(** A sample product as the formatting returns it. *)
Definition formatted_sample (id : Z) (likes : string) : row :=
  match format_product Sample.env (Sample.product id likes) with
  | Ok p' => p'
  | Raise _ => ∅
  end.



(** The cart rows of a user. *)
Definition is_user_row (user_id : Z) (r : row) : bool :=
  Sql.eqb (Sql.column "user_id" r) (VInt user_id).

(** The cart rows that record a view: [quantity = 0]. *)
Definition is_view_row (r : row) : bool :=
  Sql.eqb (Sql.column "quantity" r) (VInt 0).

(** The environment of a call made when the clock reads [t].  Every call
    reads the clock anew: of two calls in a row, the second runs in
    [at_time t env] for the time [t] it is made at. *)
Definition at_time (t : string) (env : Env) : Env :=
  {| now := t; generated := generated env; or_matches := or_matches env;
     repr := repr env; exc_str := exc_str env |}.

(** The cart row refers to a product of the shop: the embedded relation
    is an object, not NULL. *)
Definition has_product (d : tables) (r : row) : bool :=
  Py.truthy (embed_product d r).

(** [entry] is the entry [GET /cart-items] lists for the cart row [r]:
    the row's id, quantity and user, and its product, formatted. *)
Definition cart_entry_of (env : Env) (d : tables) (r entry : row) : Prop :=
  ∃ (id quantity user_id : value) (p p' : row),
    r !! "id" = Some id
    ∧ r !! "quantity" = Some quantity
    ∧ r !! "user_id" = Some user_id
    ∧ embed_product d r = VObj p
    ∧ format_product env p = Ok p'
    ∧ entry = list_to_map [("cart_item_id", id); ("quantity", quantity);
                           ("user_id", user_id); ("product", VObj p')].

(** Unfolds the query builder, leaving the request as a record. *)
Ltac build_request :=
  unfold Query.eq, Query.gt, Query.or_, Query.order, Query.limit, Query.select,
    Query.update, Query.insert, Query.delete, Query.add_filter, Query.start;
  cbn [req_verb req_table req_filters req_order req_limit app].

(** * Properties *)

(** ** Python built-ins on sample inputs *)

Example str_neg : Py.str (-42) = "-42".
Proof. reflexivity. Qed.
Example format_comma_15000 : Py.format_comma 15000 = "15,000".
Proof. reflexivity. Qed.
Example format_comma_small : Py.format_comma 999 = "999".
Proof. reflexivity. Qed.
Example format_comma_million : Py.format_comma (-1234567) = "-1,234,567".
Proof. reflexivity. Qed.
Example int_of_str_ok : Py.int_of_str "  +1_000 " = Some 1000.
Proof. reflexivity. Qed.
Example int_of_str_neg : Py.int_of_str "-7" = Some (-7).
Proof. reflexivity. Qed.
Example int_of_str_bad : Py.int_of_str "1__0" = None ∧ Py.int_of_str "" = None
  ∧ Py.int_of_str "12a" = None ∧ Py.int_of_str "_1" = None
  ∧ Py.int_of_str "1 2" = None ∧ Py.int_of_str "- 1" = None.
Proof. repeat split; reflexivity. Qed.
(** Digits of other scripts count: fullwidth, Arabic-Indic, mathematical
    bold (four bytes each). *)
Example int_of_str_scripts :
  Py.int_of_str "１２" = Some 12 ∧ Py.int_of_str "-٤٢" = Some (-42)
  ∧ Py.int_of_str "𝟏𝟐" = Some 12 ∧ Py.int_of_str "1２_٣" = Some 123.
Proof. repeat split; reflexivity. Qed.
(** So does the whitespace of other scripts; the separators
    U+001C..U+001F, which [strip] drops, do not. *)
Example int_of_str_spaces :
  Py.int_of_str ("　" +:+ "9" +:+ " ") = Some 9
  ∧ Py.int_of_str (String "031" "9") = None
  ∧ Py.strip (String "031" "9") = "9".
Proof. repeat split; reflexivity. Qed.
(** A digit is not a number of another kind. *)
Example int_of_str_other_numbers :
  Py.int_of_str "²" = None ∧ Py.int_of_str "①" = None ∧ Py.int_of_str "一" = None.
Proof. repeat split; reflexivity. Qed.
Example strip_unicode : Py.strip (" " +:+ "　" +:+ "a b" +:+ " " +:+ "	") = "a b".
Proof. reflexivity. Qed.

(** ** Strings *)

Lemma str_or_empty (s : string) : Py.str_or s "" = s.
Proof. unfold Py.str_or. destruct s; reflexivity. Qed.

Lemma lstrip_all_ws (s : string) : Py.all_ws s = true → Py.lstrip s = "".
Proof.
  induction s as [s IH] using (induction_ltof1 _ String.length).
  unfold ltof in IH.
  destruct s as [|c1 r1]; [reflexivity|]. simpl.
  destruct (Py.ws1 c1); [intros; apply IH; [simpl; lia | assumption]|].
  destruct r1 as [|c2 r2]; [discriminate|].
  destruct (Py.ws2 c1 c2); [intros; apply IH; [simpl; lia | assumption]|].
  destruct r2 as [|c3 r3]; [discriminate|].
  destruct (Py.ws3 c1 c2 c3); [intros; apply IH; [simpl; lia | assumption]|].
  discriminate.
Qed.

Lemma strip_all_ws (s : string) : Py.all_ws s = true → Py.strip s = "".
Proof. intros H. unfold Py.strip. rewrite lstrip_all_ws by assumption. reflexivity. Qed.

Lemma all_ws_lstrip (s : string) : Py.all_ws (Py.lstrip s) = Py.all_ws s.
Proof.
  induction s as [s IH] using (induction_ltof1 _ String.length).
  unfold ltof in IH.
  destruct s as [|c1 r1]; [reflexivity|]. cbn [Py.lstrip Py.all_ws].
  destruct (Py.ws1 c1) eqn:H1; [apply IH; simpl; lia|].
  destruct r1 as [|c2 r2]; [cbn [Py.all_ws]; by rewrite H1|].
  destruct (Py.ws2 c1 c2) eqn:H2; [apply IH; simpl; lia|].
  destruct r2 as [|c3 r3]; [cbn [Py.all_ws]; by rewrite H1, H2|].
  destruct (Py.ws3 c1 c2 c3) eqn:H3; [apply IH; simpl; lia|].
  cbn [Py.all_ws]. by rewrite H1, H2, H3.
Qed.

Lemma rstrip_empty (s : string) : Py.rstrip s = "" → Py.all_ws s = true.
Proof.
  destruct s as [|c r]; [reflexivity|]. cbn [Py.rstrip].
  by destruct (Py.all_ws (String c r)).
Qed.

(** [strip] leaves nothing exactly of the strings made of whitespace. *)
Lemma strip_empty_iff (s : string) : Py.strip s = "" ↔ Py.all_ws s = true.
Proof.
  split; [|apply strip_all_ws].
  unfold Py.strip. intros H%rstrip_empty. by rewrite all_ws_lstrip in H.
Qed.

(** ** [str] and [int] on integers *)

Lemma digit_pretty_N_char (d : N) :
  (d < 10)%N → Py.digit (pretty_N_char d) = Some (Z.of_N d).
Proof.
  intros Hd.
  assert (d = 0 ∨ d = 1 ∨ d = 2 ∨ d = 3 ∨ d = 4 ∨ d = 5 ∨ d = 6 ∨ d = 7
          ∨ d = 8 ∨ d = 9)%N as Hcases by lia.
  repeat (destruct Hcases as [->|Hcases]; [reflexivity|]). by subst.
Qed.

Lemma digits_pretty_N_go (x : N) (s : string) :
  (0 < x)%N →
  Py.digits false 0 (pretty_N_go x s) = Py.digits true (Z.of_N x) s.
Proof.
  revert s. induction (N.lt_wf_0 x) as [x _ IH]; intros s Hx.
  rewrite pretty_N_go_step by assumption.
  assert (x `mod` 10 < 10)%N as Hmod by (apply N.mod_lt; lia).
  pose proof (N.div_mod x 10 ltac:(lia)) as Hdiv.
  destruct (decide (x `div` 10 = 0)%N) as [Hz|Hnz].
  - rewrite Hz, pretty_N_go_0. cbn [Py.digits].
    rewrite digit_pretty_N_char by assumption. f_equal. lia.
  - rewrite IH; [|apply N.div_lt; lia|lia]. cbn [Py.digits].
    rewrite digit_pretty_N_char by assumption. f_equal. lia.
Qed.

Lemma pretty_N_go_plain (x : N) (s : string) :
  all_chars plain s = true → all_chars plain (pretty_N_go x s) = true.
Proof.
  revert s. induction (N.lt_wf_0 x) as [x _ IH]; intros s Hs.
  destruct (decide (x = 0)%N) as [->|Hx]; [by rewrite pretty_N_go_0|].
  rewrite pretty_N_go_step by lia. apply IH; [apply N.div_lt; lia|].
  cbn [all_chars]. rewrite Hs, andb_true_r. unfold plain.
  rewrite digit_pretty_N_char; [reflexivity|apply N.mod_lt; lia].
Qed.

Lemma pretty_N_go_digits_only (x : N) (s : string) :
  all_chars (λ c, bool_decide (is_Some (Py.digit c))) s = true →
  all_chars (λ c, bool_decide (is_Some (Py.digit c))) (pretty_N_go x s) = true.
Proof.
  revert s. induction (N.lt_wf_0 x) as [x _ IH]; intros s Hs.
  destruct (decide (x = 0)%N) as [->|Hx]; [by rewrite pretty_N_go_0|].
  rewrite pretty_N_go_step by lia. apply IH; [apply N.div_lt; lia|].
  cbn [all_chars]. rewrite Hs, andb_true_r.
  rewrite digit_pretty_N_char; [by apply bool_decide_eq_true|apply N.mod_lt; lia].
Qed.

Lemma digit_not_sign (c : ascii) :
  is_Some (Py.digit c) → Ascii.eqb c "+" = false ∧ Ascii.eqb c "-" = false.
Proof.
  destruct c as [[] [] [] [] [] [] [] []]; intros [d Hd]; try discriminate Hd;
    split; reflexivity.
Qed.

Lemma plain_ascii (c : ascii) :
  plain c = true → (Py.code c <? 127)%N = true ∧ Py.space c = false.
Proof.
  destruct c as [[] [] [] [] [] [] [] []]; intros H; try discriminate H;
    split; reflexivity.
Qed.

Lemma to_ascii_plain (s : string) :
  all_chars plain s = true → Py.to_ascii s = Some s.
Proof.
  induction s as [|c r IH]; [reflexivity|].
  cbn [all_chars]. intros [[Hc _]%plain_ascii Hr]%andb_true_iff.
  cbn [Py.to_ascii]. by rewrite Hc, IH.
Qed.

Lemma all_spaces_plain (c : ascii) (r : string) :
  plain c = true → Py.all_spaces (String c r) = false.
Proof. intros [_ Hc]%plain_ascii. cbn [Py.all_spaces]. by rewrite Hc. Qed.

Lemma drop_trailing_spaces_plain (s : string) :
  all_chars plain s = true → Py.drop_trailing_spaces s = s.
Proof.
  induction s as [|c r IH]; [reflexivity|].
  cbn [all_chars]. intros [Hc Hr]%andb_true_iff.
  cbn [Py.drop_trailing_spaces]. rewrite all_spaces_plain by assumption.
  by rewrite IH.
Qed.

Lemma skip_spaces_plain (s : string) :
  all_chars plain s = true → Py.skip_spaces s = s.
Proof.
  destruct s as [|c r]; [reflexivity|].
  cbn [all_chars]. intros [[_ Hc]%plain_ascii _]%andb_true_iff.
  cbn [Py.skip_spaces]. by rewrite Hc.
Qed.

(** On the text of an integer, [int] has nothing to rewrite or to skip. *)
Lemma int_of_str_plain (s : string) :
  all_chars plain s = true →
  Py.int_of_str s
  = match s with
    | EmptyString => None
    | String c r =>
        if Ascii.eqb c "+" then Py.digits false 0 r
        else if Ascii.eqb c "-" then Z.opp <$> Py.digits false 0 r
        else Py.digits false 0 (String c r)
    end.
Proof.
  intros H. unfold Py.int_of_str. rewrite to_ascii_plain by assumption.
  cbn [mbind option_bind].
  by rewrite skip_spaces_plain, drop_trailing_spaces_plain.
Qed.

(** What [str] writes, [int] reads back. *)
Lemma int_of_str_str (z : Z) : Py.int_of_str (Py.str z) = Some z.
Proof.
  destruct z as [|p|p]; [reflexivity|..].
  - unfold Py.str, pretty, pretty_Z, pretty, pretty_positive, pretty, pretty_N.
    rewrite decide_False by discriminate.
    rewrite int_of_str_plain by (by apply pretty_N_go_plain).
    pose proof (digits_pretty_N_go (N.pos p) "" ltac:(lia)) as Hd.
    pose proof (pretty_N_go_digits_only (N.pos p) "" eq_refl) as Hall.
    destruct (pretty_N_go (N.pos p) "") as [|c r]; [discriminate Hd|].
    cbn [all_chars] in Hall. apply andb_true_iff in Hall as [Hc _].
    apply bool_decide_eq_true in Hc. apply digit_not_sign in Hc as [-> ->].
    rewrite Hd. reflexivity.
  - unfold Py.str, pretty, pretty_Z, pretty, pretty_positive, pretty, pretty_N.
    rewrite decide_False by discriminate.
    change ("-" +:+ pretty_N_go (N.pos p) "")
      with (String "-" (pretty_N_go (N.pos p) "")).
    rewrite int_of_str_plain
      by (cbn [all_chars]; by rewrite pretty_N_go_plain).
    cbn [Ascii.eqb Bool.eqb].
    rewrite digits_pretty_N_go by lia. reflexivity.
Qed.



(** ** Lists and rows *)

Lemma filter_find_Some {A} (f : A → bool) (l : list A) (x : A) :
  find f l = Some x → ∃ rest, List.filter f l = x :: rest.
Proof.
  induction l as [|y l IH]; [discriminate|]. simpl.
  destruct (f y); [intros [= ->]; eauto|assumption].
Qed.

Lemma filter_find_None {A} (f : A → bool) (l : list A) :
  find f l = None → List.filter f l = [].
Proof.
  induction l as [|y l IH]; [reflexivity|]. simpl.
  destruct (f y); [discriminate|assumption].
Qed.

Lemma filter_cons_holds {A} (f : A → bool) (l : list A) (x : A) (rest : list A) :
  List.filter f l = x :: rest → f x = true ∧ In x l.
Proof.
  intros H. apply and_comm, (List.filter_In f x l). rewrite H. by left.
Qed.

Lemma filter_filter_same {A} (f : A → bool) (l : list A) :
  List.filter f (List.filter f l) = List.filter f l.
Proof.
  induction l as [|x l IH]; [reflexivity|]. cbn [List.filter].
  destruct (f x) eqn:Hx; [|assumption]. cbn [List.filter]. by rewrite Hx, IH.
Qed.

Lemma find_filter_negb {A} (f : A → bool) (l : list A) :
  find f (List.filter (λ x, negb (f x)) l) = None.
Proof.
  induction l as [|x l IH]; [reflexivity|]. cbn [List.filter].
  destruct (f x) eqn:Hx; cbn [negb find]; [assumption|]. by rewrite Hx.
Qed.


Lemma fmap_find_None {A} (f : A → bool) (g : A → A) (l : list A) :
  find f l = None → (λ x, if f x then g x else x) <$> l = l.
Proof.
  induction l as [|x l IH]; [reflexivity|]. cbn [find fmap list_fmap].
  destruct (f x); [discriminate|]. intros H. by rewrite IH.
Qed.

Lemma find_app_None {A} (f : A → bool) (l : list A) (x : A) :
  find f l = None → f x = true → find f (l ++ [x]) = Some x.
Proof.
  induction l as [|y l IH]; cbn [find app].
  - by intros _ ->.
  - destruct (f y); [discriminate|assumption].
Qed.

Lemma existsb_filter {A} (f : A → bool) (l : list A) :
  existsb f l = bool_decide (0 < List.length (List.filter f l))%nat.
Proof.
  induction l as [|x l IH]; [reflexivity|]. cbn [existsb List.filter].
  destruct (f x); [|assumption].
  cbn [List.length orb]. symmetry. apply bool_decide_eq_true. lia.
Qed.

Lemma existsb_cart_row_None (user_id product_id : Z) (l : list row) :
  find (is_cart_row user_id product_id) l = None →
  existsb (λ r, is_cart_row user_id product_id r && in_cart_row r) l = false.
Proof.
  intros Hfind. apply not_true_is_false. rewrite existsb_exists.
  intros (r & Hin & [Hrow _]%andb_true_iff).
  by rewrite (find_none _ _ Hfind r Hin) in Hrow.
Qed.


Lemma patch1 (k : string) (v : value) (r : row) :
  list_to_map [(k, v)] ∪ r = <[k := v]> r.
Proof.
  simpl. by rewrite <- insert_union_l, (left_id_L ∅ (∪)).
Qed.

Lemma project_columns_lookup (d : tables) (cs : list string) (r : row) (k : string) :
  k ∈ cs → project d (Columns cs) r !! k = r !! k.
Proof.
  intros Hk. unfold project. rewrite map_lookup_filter.
  destruct (r !! k) as [v|]; [|reflexivity]. simpl.
  rewrite option_guard_True by assumption. reflexivity.
Qed.

Lemma tables_eta (d : tables) :
  {| products := products d; cart_items := cart_items d |} = d.
Proof. by destruct d. Qed.

Lemma in_cart_row_quantity (r : row) :
  in_cart_row r = true → ∃ z, r !! "quantity" = Some (VInt z) ∧ 0 < z.
Proof.
  unfold in_cart_row, Sql.column.
  destruct (r !! "quantity") as [[]|]; try discriminate. cbn [default].
  intros H%Z.ltb_lt. eauto.
Qed.

Lemma is_cart_row_new (user_id product_id quantity : Z) (defaults : row) :
  is_cart_row user_id product_id
    (list_to_map [("user_id", VInt user_id); ("product_id", VInt product_id);
                  ("quantity", VInt quantity); ("selected_options", VStr "")]
     ∪ defaults) = true.
Proof.
  unfold is_cart_row, Sql.column.
  rewrite (lookup_union_Some_l _ _ "user_id" (VInt user_id)) by reflexivity.
  rewrite (lookup_union_Some_l _ _ "product_id" (VInt product_id)) by reflexivity.
  simpl. by rewrite !Z.eqb_refl.
Qed.

Lemma is_cart_row_set_quantity (user_id product_id : Z) (v : value) (r : row) :
  is_cart_row user_id product_id (<["quantity" := v]> r)
  = is_cart_row user_id product_id r.
Proof. unfold is_cart_row, Sql.column. by rewrite !lookup_insert_ne. Qed.

(** ** Reasoning about handlers *)

Section Handlers.

Variable env : Env.

Lemma bind_ok {A B} (m : M A) (k : A → M B) (s s' : store) (a : A) :
  m s = (s', Ok a) → bind m k s = k a s'.
Proof. unfold bind. by intros ->. Qed.

Lemma bind_raise {A B} (m : M A) (k : A → M B) (s s' : store) (e : exn) :
  m s = (s', Raise e) → bind m k s = (s', Raise e).
Proof. unfold bind. by intros ->. Qed.

Lemma bind_execute {A} (q : request) (k : list row → M A) (s : store) :
  bind (execute env q) k s
  = k (run env (db s) q).2 {| db := (run env (db s) q).1; log := log s ++ [q] |}.
Proof. unfold bind, execute. destruct (run env (db s) q). reflexivity. Qed.

Lemma bind_lift_ok {A B} (r : result A) (a : A) (k : A → M B) (s : store) :
  r = Ok a → bind (lift r) k s = k a s.
Proof. intros ->. reflexivity. Qed.

Lemma bind_lift_raise {A B} (r : result A) (e : exn) (k : A → M B) (s : store) :
  r = Raise e → bind (lift r) k s = (s, Raise e).
Proof. intros ->. reflexivity. Qed.

Lemma reraise_http_store {A} (m : M A) (s : store) :
  (reraise_http env m s).1 = (m s).1.
Proof. unfold reraise_http. destruct (m s) as [s' [a|[]]]; reflexivity. Qed.

Lemma reraise_500_store {A} (m : M A) (s : store) :
  (reraise_500 env m s).1 = (m s).1.
Proof. unfold reraise_500. destruct (m s) as [s' [a|e]]; reflexivity. Qed.

(** How the clauses after [try] of the unified endpoint map an exception. *)
Lemma reraise_http_raise {A} (m : M A) (s s' : store) (e : exn) :
  m s = (s', Raise e) → reraise_http env m s = (s', Raise (as_http env e)).
Proof. unfold reraise_http. intros ->. by destruct e. Qed.

Lemma reraise_http_ok {A} (m : M A) (s s' : store) (a : A) :
  m s = (s', Ok a) → reraise_http env m s = (s', Ok a).
Proof. unfold reraise_http. by intros ->. Qed.

Lemma reraise_http_result {A} (m : M A) (s : store) :
  (reraise_http env m s).2
  = match (m s).2 with
    | Ok a => Ok a
    | Raise e => Raise (as_http env e)
    end.
Proof. unfold reraise_http. by destruct (m s) as [s' [a|[]]]. Qed.

Lemma selected_id (product_id : Z) (r : row) :
  selected env [Eq "id" (VInt product_id)] r = has_id product_id r.
Proof. unfold selected, has_id. simpl. apply andb_true_r. Qed.

Lemma selected_cart_row (user_id product_id : Z) (r : row) :
  selected env [Eq "user_id" (VInt user_id); Eq "product_id" (VInt product_id)] r
  = is_cart_row user_id product_id r.
Proof. unfold selected, is_cart_row. simpl. by rewrite andb_true_r. Qed.

Lemma selected_in_cart (user_id product_id : Z) (r : row) :
  selected env [Eq "user_id" (VInt user_id); Eq "product_id" (VInt product_id);
                Gt "quantity" 0] r
  = is_cart_row user_id product_id r && in_cart_row r.
Proof.
  unfold selected, is_cart_row, in_cart_row. simpl.
  rewrite andb_true_r, andb_assoc. reflexivity.
Qed.

Lemma selected_gt_quantity (r : row) :
  selected env [Gt "quantity" 0] r = in_cart_row r.
Proof.
  unfold selected, in_cart_row. simpl.
  destruct (Sql.column "quantity" r); try reflexivity. apply andb_true_r.
Qed.

Lemma filter_no_condition (l : list row) :
  List.filter (selected env []) l = l.
Proof.
  induction l as [|x l IH]; [reflexivity|]. cbn [List.filter selected forallb].
  by rewrite IH.
Qed.

Lemma format_product_data_one (product : row) :
  format_product_data env [product]
  = match format_product env product with
    | Ok product' => Ok [product']
    | Raise e => Raise e
    end.
Proof. cbn [format_product_data]. by destruct (format_product env product). Qed.

(** The cart state read for the response. *)
Lemma cart_state_spec (product_id user_id : Z) (s : store) :
  ∃ n : Z,
    (cart_state env product_id user_id s).2
    = Ok (existsb (λ r, is_cart_row user_id product_id r && in_cart_row r)
                  (cart_items (db s)), VInt n)
    ∧ (existsb (λ r, is_cart_row user_id product_id r && in_cart_row r)
               (cart_items (db s)) = true ↔ 0 < n)
    ∧ (existsb (λ r, is_cart_row user_id product_id r && in_cart_row r)
               (cart_items (db s)) = false → n = 0).
Proof.
  unfold cart_state. rewrite bind_execute.
  unfold run. build_request. cbn [rows_of fst snd].
  rewrite (List.filter_ext _ _ (selected_in_cart user_id product_id)).
  rewrite existsb_filter, length_fmap.
  destruct (List.filter _ (cart_items (db s))) as [|item rest] eqn:Hrows;
    cbn [fmap list_fmap List.length project].
  - exists 0. split; [reflexivity|]. split; [|reflexivity].
    split; [discriminate|lia].
  - apply filter_cons_holds in Hrows as [[_ Hin]%andb_true_iff _].
    apply in_cart_row_quantity in Hin as (z & Hz & Hpos).
    exists z.
    rewrite (bind_lift_ok _ (VInt z)) by (unfold Py.getitem; by rewrite Hz).
    split; [reflexivity|]. split; [|discriminate].
    split; [intros _; assumption|intros _; apply bool_decide_eq_true; lia].
Qed.

(** *** What a handler leaves alone

    An observation of the store that no [select] changes is changed by
    nothing the unified endpoint does after its action. *)

Section Frame.

Context {X : Type} (f : store → X).

Hypothesis f_select :
  ∀ q c s, req_verb q = Select c → f (execute env q s).1 = f s.

Lemma preserves_ret {A} (a : A) : preserves f (ret a).
Proof. intros s. reflexivity. Qed.

Lemma preserves_raise {A} (e : exn) : preserves f (@raise A e).
Proof. intros s. reflexivity. Qed.

Lemma preserves_lift {A} (r : result A) : preserves f (lift r).
Proof. intros s. reflexivity. Qed.

Lemma preserves_bind {A B} (m : M A) (k : A → M B) :
  preserves f m → (∀ a, preserves f (k a)) → preserves f (bind m k).
Proof.
  intros Hm Hk s. unfold bind. specialize (Hm s).
  destruct (m s) as [s' [a|e]]; simpl in *; [|assumption].
  rewrite Hk. assumption.
Qed.

Lemma preserves_select (q : request) (c : columns) :
  req_verb q = Select c → preserves f (execute env q).
Proof. intros Hq s. by eapply f_select. Qed.

Lemma bind_frame {A B} (m : M A) (k : A → M B) (s : store) :
  (∀ a, preserves f (k a)) → f (bind m k s).1 = f (m s).1.
Proof.
  intros Hk. unfold bind. destruct (m s) as [s' [a|e]]; [apply Hk|reflexivity].
Qed.

Lemma preserves_cart_state (product_id user_id : Z) :
  preserves f (cart_state env product_id user_id).
Proof.
  unfold cart_state. apply preserves_bind.
  - by eapply preserves_select.
  - intros [|item rest]; [apply preserves_ret|].
    apply preserves_bind; [apply preserves_lift|intros; apply preserves_ret].
Qed.

Lemma unified_product_api_frame (action : string) (product_id user_id quantity : Z)
    (s : store) :
  f (unified_product_api env action product_id user_id quantity s).1
  = f (perform_action env action product_id user_id quantity s).1.
Proof.
  unfold unified_product_api. rewrite reraise_http_store.
  apply bind_frame. intros message.
  apply preserves_bind; [by eapply preserves_select|].
  intros [|product rest]; [apply preserves_raise|].
  apply preserves_bind; [apply preserves_lift|]. intros formatted.
  apply preserves_bind; [apply preserves_cart_state|]. intros [in_cart cart_quantity].
  destruct formatted; [apply preserves_raise|].
  apply preserves_bind; [apply preserves_lift|intros; apply preserves_ret].
Qed.

End Frame.

Lemma db_select (q : request) (c : columns) (s : store) :
  req_verb q = Select c → db (execute env q s).1 = db s.
Proof. intros Hq. unfold execute, run. rewrite Hq. reflexivity. Qed.

Lemma writes_select (q : request) (c : columns) (s : store) :
  req_verb q = Select c → writes (execute env q s).1 = writes s.
Proof.
  intros Hq. unfold execute, run, writes. rewrite Hq. cbn [fst log].
  rewrite List.filter_app. cbn [List.filter]. unfold is_write at 2. rewrite Hq.
  apply app_nil_r.
Qed.

(** After its action, the unified endpoint only reads. *)
Lemma unified_product_api_db (action : string) (product_id user_id quantity : Z)
    (s : store) :
  db (unified_product_api env action product_id user_id quantity s).1
  = db (perform_action env action product_id user_id quantity s).1.
Proof. apply unified_product_api_frame, db_select. Qed.

Lemma unified_product_api_writes (action : string) (product_id user_id quantity : Z)
    (s : store) :
  writes (unified_product_api env action product_id user_id quantity s).1
  = writes (perform_action env action product_id user_id quantity s).1.
Proof. apply unified_product_api_frame, writes_select. Qed.

(** The response of the unified endpoint, case by case. *)
Lemma unified_product_api_cases (action : string) (product_id user_id quantity : Z)
    (st s1 : store) (r : result string) :
  perform_action env action product_id user_id quantity st = (s1, r) →
  let response := (unified_product_api env action product_id user_id quantity st).2 in
  let in_cart := existsb (λ r, is_cart_row user_id product_id r && in_cart_row r)
                         (cart_items (db s1)) in
  match r with
  | Raise e => response = Raise (as_http env e)
  | Ok message =>
      match find (has_id product_id) (products (db s1)) with
      | None => response = Raise (HTTPException 404 "상품을 찾을 수 없습니다")
      | Some product =>
          match format_product env product with
          | Raise e => response = Raise (as_http env e)
          | Ok product' =>
              match Py.int (Py.get product' "likes" (VInt 0)) with
              | Raise e => response = Raise (as_http env e)
              | Ok likes =>
                  ∃ n : Z,
                    response
                    = Ok (create_standard_response env
                            (VObj (list_to_map [
                               ("product", VObj product');
                               ("is_favorite", Py.get product' "is_favorite" (VBool false));
                               ("in_cart", VBool in_cart);
                               ("cart_quantity", VInt n);
                               ("likes", VInt likes)]))
                            message)
                    ∧ (in_cart = true ↔ 0 < n)
                    ∧ (in_cart = false → n = 0)
              end
          end
      end
  end.
Proof.
  intros Hact response in_cart. subst response.
  unfold unified_product_api. rewrite reraise_http_result.
  destruct r as [message|e]; [|by rewrite (bind_raise _ _ _ _ _ Hact)].
  rewrite (bind_ok _ _ _ _ _ Hact), bind_execute.
  unfold run. build_request. cbn [rows_of fst snd].
  rewrite (List.filter_ext _ _ (selected_id product_id)).
  destruct (find (has_id product_id) (products (db s1))) as [product|] eqn:Hfind.
  - destruct (filter_find_Some _ _ _ Hfind) as [rest ->].
    cbn [fmap list_fmap project].
    rewrite format_product_data_one.
    destruct (format_product env product) as [product'|e];
      [|by rewrite (bind_lift_raise _ e)].
    rewrite (bind_lift_ok _ [product']) by reflexivity.
    match goal with |- context [bind (cart_state env product_id user_id) _ ?s] =>
      destruct (cart_state_spec product_id user_id s) as (n & Hcart & Hpos & Hzero);
      destruct (cart_state env product_id user_id s) as [s2 cart] eqn:Hstate
    end.
    cbn [snd db] in Hcart, Hpos, Hzero. subst cart.
    rewrite (bind_ok _ _ _ _ _ Hstate).
    destruct (Py.int (Py.get product' "likes" (VInt 0))) as [likes|e];
      [|by rewrite (bind_lift_raise _ e)].
    rewrite (bind_lift_ok _ likes) by reflexivity.
    exists n. split; [reflexivity|]. split; assumption.
  - rewrite (filter_find_None _ _ Hfind). reflexivity.
Qed.

End Handlers.

(** ** Exceptions of the built-ins *)

Lemma as_http_python_error (env : Env) (e : exn) :
  python_error e → as_http env e = HTTPException 500 (exc_str env e).
Proof. by destruct e. Qed.

Lemma getitem_raises (d : row) (k : string) (e : exn) :
  Py.getitem d k = Raise e → python_error e.
Proof. unfold Py.getitem. destruct (d !! k); [discriminate|]. by intros [= <-]. Qed.

Lemma int_raises (v : value) (e : exn) : Py.int v = Raise e → python_error e.
Proof.
  destruct v as [|b|z|s|l|o]; simpl; try discriminate; try (by intros [= <-]).
  destruct (Py.int_of_str s); [discriminate|]. by intros [= <-].
Qed.

Lemma add_int_raises (v : value) (n : Z) (e : exn) :
  Py.add_int v n = Raise e → python_error e.
Proof. destruct v; simpl; try discriminate; by intros [= <-]. Qed.

Lemma format_product_raises (env : Env) (p : row) (e : exn) :
  format_product env p = Raise e → python_error e.
Proof.
  unfold format_product, rbind.
  destruct (Py.getitem p "id") eqn:H1; [|intros [= <-]; by eapply getitem_raises].
  destruct (Py.getitem p "price") eqn:H2; [|intros [= <-]; by eapply getitem_raises].
  destruct (Py.int _) eqn:H3; [|intros [= <-]; by eapply int_raises].
  destruct (Py.getitem _ "discount") eqn:H4; [|intros [= <-]; by eapply getitem_raises].
  destruct (Py.int a2) eqn:H5; [|intros [= <-]; by eapply int_raises].
  discriminate.
Qed.

Lemma format_product_data_raises (env : Env) (l : list row) (e : exn) :
  format_product_data env l = Raise e → python_error e.
Proof.
  induction l as [|p l IH]; [discriminate|]. cbn [format_product_data]. unfold rbind.
  destruct (format_product env p) eqn:Hp; [|intros [= <-]; by eapply format_product_raises].
  destruct (format_product_data env l); [discriminate|].
  intros [= <-]. by apply IH.
Qed.

(** ** The envelope *)

(** C8: whatever payload and message are passed, the body of the envelope
    carries the code "200" (with that message and payload next to it). *)
Theorem create_standard_response_code_200 (env : Env) (data : value) (message : string) :
  body_field (create_standard_response env data message) "code" = Some (VStr "200")
  ∧ body_field (create_standard_response env data message) "message" = Some (VStr message)
  ∧ body_field (create_standard_response env data message) "data" = Some data.
Proof. repeat split; reflexivity. Qed.

(** ** Formatting *)

(** C7: a row with price 15000 and discount 10 is returned with the price
    "15,000원", the discount "10%" and an [api_urls] map whose keys are
    exactly get, favorite, cart_add, cart_remove and cart_update, each URL
    ending in the row's id; no other field changes. *)
Theorem format_product_data_15000_10 (env : Env) (product : row) (id : value) :
  product !! "id" = Some id →
  product !! "price" = Some (VInt 15000) →
  product !! "discount" = Some (VInt 10) →
  ∃ (product' urls : row),
    format_product_data env [product] = Ok [product']
    ∧ product' !! "price" = Some (VStr "15,000원")
    ∧ product' !! "discount" = Some (VStr "10%")
    ∧ product' !! "api_urls" = Some (VObj urls)
    ∧ dom urls = list_to_set api_actions.*1
    ∧ (∀ key action, (key, action) ∈ api_actions →
         urls !! key = Some (VStr ("http://localhost:8001/api/" +:+ action
                                   +:+ "/" +:+ fstr env id)))
    ∧ (∀ k, k ∉ ["price"; "discount"; "api_urls"] → product' !! k = product !! k).
Proof.
  intros Hid Hprice Hdiscount.
  eexists _, (api_urls env id).
  split.
  { unfold format_product_data, format_product, Py.getitem.
    rewrite Hid, Hprice. simpl.
    rewrite lookup_insert_ne by discriminate. rewrite Hdiscount. simpl.
    reflexivity. }
  split; [by rewrite lookup_insert_ne, lookup_insert_ne, lookup_insert_eq|].
  split; [by rewrite lookup_insert_ne, lookup_insert_eq|].
  split; [by rewrite lookup_insert_eq|].
  split; [unfold api_urls; by rewrite dom_list_to_map_L|].
  split.
  - intros key action Hin. unfold api_actions in Hin.
    repeat (apply elem_of_cons in Hin as [Hin|Hin];
            [injection Hin as -> ->; reflexivity|]).
    by apply elem_of_nil in Hin.
  - intros k Hk.
    rewrite !lookup_insert_ne; [reflexivity|..]; intros <-; apply Hk;
      repeat constructor.
Qed.

Lemma format_product_data_15000_10_witness :
  ∃ (product' urls : row),
    format_product_data Sample.env [Sample.product 3 "9"] = Ok [product']
    ∧ product' !! "price" = Some (VStr "15,000원")
    ∧ product' !! "discount" = Some (VStr "10%")
    ∧ product' !! "api_urls" = Some (VObj urls)
    ∧ urls !! "cart_add" = Some (VStr "http://localhost:8001/api/cart-add/3").
Proof.
  destruct (format_product_data_15000_10 Sample.env (Sample.product 3 "9") (VInt 3)
              eq_refl eq_refl eq_refl)
    as (product' & urls & Hfmt & Hprice & Hdiscount & Hurls & _ & Hurl & _).
  exists product', urls. repeat split; try assumption.
  apply (Hurl "cart_add" "cart-add"). unfold api_actions. repeat constructor.
Defined.

(** ** Search *)

(** C6: a query made of whitespace only (the empty query included) is
    answered with the empty list, and the store is left as it was: no
    request is executed, so none is logged. *)
Theorem search_products_blank (env : Env) (q : string) (st : store) :
  Py.all_ws q = true →
  search_products env q st
    = (st, Ok (create_standard_response env (VList []) "검색어가 비어있습니다"))
  ∧ log (search_products env q st).1 = log st
  ∧ ∃ resp, (search_products env q st).2 = Ok resp
            ∧ body_field resp "data" = Some (VList []).
Proof.
  intros Hws.
  assert (search_products env q st
    = (st, Ok (create_standard_response env (VList []) "검색어가 비어있습니다"))) as ->.
  { unfold search_products, reraise_500.
    rewrite str_or_empty, strip_all_ws by assumption. reflexivity. }
  split; [reflexivity|]. split; [reflexivity|].
  eexists. split; reflexivity.
Qed.

(** For contrast: any other query costs one request. *)
Lemma search_products_calls_store (env : Env) (q : string) (st : store) :
  Py.all_ws q = false →
  ∃ request, log (search_products env q st).1 = (log st ++ [request])%list
             ∧ req_table request = Products.
Proof.
  intros Hws. unfold search_products. rewrite reraise_500_store, str_or_empty.
  destruct (Py.strip q) as [|c r] eqn:Hstrip.
  { apply strip_empty_iff in Hstrip. congruence. }
  cbn [Py.truthy String.eqb negb].
  rewrite bind_execute. eexists. split.
  - unfold bind, lift. destruct (format_product_data env _); reflexivity.
  - reflexivity.
Qed.

Lemma search_products_blank_witness :
  log (search_products Sample.env "  	 " Sample.shop).1 = [].
Proof.
  apply (search_products_blank Sample.env "  	 " Sample.shop). reflexivity.
Defined.

(** ** Cart listing *)

(** For contrast: any other user id does filter. *)
Lemma cart_items_query_user (u : Z) :
  u ≠ 0 →
  req_filters (cart_items_query (Some u)) = [Gt "quantity" 0; Eq "user_id" (VInt u)].
Proof.
  intros Hu. unfold cart_items_query. simpl.
  destruct (Z.eqb_spec u 0); [contradiction|reflexivity].
Qed.

(** ** Favorites *)




(** ** The response of the unified endpoint *)

(** The response of the unified endpoint when the action succeeded, the
    product exists and is presentable, and the pair has no cart row. *)
Lemma unified_product_api_presentable (env : Env) (action : string)
    (product_id user_id quantity : Z) (st s1 : store) (message : string) (p : row) :
  perform_action env action product_id user_id quantity st = (s1, Ok message) →
  find (has_id product_id) (products (db s1)) = Some p →
  presentable env p →
  find (is_cart_row user_id product_id) (cart_items (db s1)) = None →
  ∃ resp,
    (unified_product_api env action product_id user_id quantity st).2 = Ok resp
    ∧ body_field resp "message" = Some (VStr message)
    ∧ data_field resp "in_cart" = Some (VBool false)
    ∧ data_field resp "cart_quantity" = Some (VInt 0).
Proof.
  intros Hact Hfind (p' & likes & Hfmt & Hlikes) Hrow.
  pose proof (unified_product_api_cases env _ _ _ _ _ _ _ Hact) as Hcases.
  cbn zeta in Hcases. rewrite Hfind, Hfmt, Hlikes in Hcases.
  destruct Hcases as (n & -> & _ & Hzero).
  rewrite (existsb_cart_row_None _ _ _ Hrow) in *.
  rewrite (Hzero eq_refl). eexists. repeat split; reflexivity.
Qed.

Lemma unified_product_api_missing (env : Env) (action : string)
    (product_id user_id quantity : Z) (st s1 : store) (message : string) :
  perform_action env action product_id user_id quantity st = (s1, Ok message) →
  find (has_id product_id) (products (db s1)) = None →
  (unified_product_api env action product_id user_id quantity st).2
  = Raise (HTTPException 404 "상품을 찾을 수 없습니다").
Proof.
  intros Hact Hfind.
  pose proof (unified_product_api_cases env _ _ _ _ _ _ _ Hact) as Hcases.
  cbn zeta in Hcases. by rewrite Hfind in Hcases.
Qed.

Lemma presentable_sample : presentable Sample.env (Sample.product 3 "9").
Proof. eexists _, 9. split; reflexivity. Qed.

(** C9: in a response of the unified endpoint, [in_cart] is true exactly
    when [cart_quantity] is positive, and exactly when the pair has a row
    with [quantity > 0]; when every row of the pair holds quantity 0, or
    the pair has no row, the response says [in_cart = false] and
    [cart_quantity = 0]. *)
Theorem in_cart_iff_quantity_positive (env : Env) (action : string)
    (product_id user_id quantity : Z) (st st' : store) (resp : Response) :
  unified_product_api env action product_id user_id quantity st = (st', Ok resp) →
  ∃ (in_cart : bool) (cart_quantity : Z),
    data_field resp "in_cart" = Some (VBool in_cart)
    ∧ data_field resp "cart_quantity" = Some (VInt cart_quantity)
    ∧ (in_cart = true ↔ 0 < cart_quantity)
    ∧ (in_cart = true ↔
         ∃ r, In r (cart_items (db st'))
              ∧ is_cart_row user_id product_id r = true ∧ in_cart_row r = true)
    ∧ ((∀ r, In r (cart_items (db st')) → is_cart_row user_id product_id r = true →
             Sql.column "quantity" r = VInt 0) →
       in_cart = false ∧ cart_quantity = 0).
Proof.
  intros Hrun.
  destruct (perform_action env action product_id user_id quantity st)
    as [s1 r] eqn:Hact.
  pose proof (unified_product_api_cases env _ _ _ _ _ _ _ Hact) as Hcases.
  pose proof (unified_product_api_db env action product_id user_id quantity st) as Hdb.
  rewrite Hrun, Hact in Hdb. cbn [fst snd] in Hdb, Hcases. rewrite Hrun in Hcases.
  cbn [snd] in Hcases.
  destruct r as [message|e]; [|discriminate Hcases].
  destruct (find (has_id product_id) (products (db s1))) as [product|];
    [|discriminate Hcases].
  destruct (format_product env product) as [product'|e]; [|discriminate Hcases].
  destruct (Py.int (Py.get product' "likes" (VInt 0))) as [likes|e];
    [|discriminate Hcases].
  destruct Hcases as (n & [= ->] & Hpos & Hzero).
  rewrite Hdb.
  eexists _, n. split; [reflexivity|]. split; [reflexivity|].
  split; [exact Hpos|]. split.
  - rewrite existsb_exists. split.
    + intros (r & Hin & [Hrow Hqty]%andb_true_iff). by exists r.
    + intros (r & Hin & Hrow & Hqty). exists r. by rewrite Hrow, Hqty.
  - intros Hall.
    assert (existsb (λ r, is_cart_row user_id product_id r && in_cart_row r)
              (cart_items (db s1)) = false) as Hnone.
    { apply not_true_is_false. rewrite existsb_exists.
      intros (r & Hin & [Hrow Hqty]%andb_true_iff).
      unfold in_cart_row in Hqty. by rewrite (Hall r Hin Hrow) in Hqty. }
    split; [assumption|by apply Hzero].
Qed.

Lemma in_cart_iff_quantity_positive_witness :
  ∃ resp,
    (unified_product_api Sample.env "get" 3 7 1 Sample.shop_with_cart).2 = Ok resp
    ∧ data_field resp "in_cart" = Some (VBool false)
    ∧ data_field resp "cart_quantity" = Some (VInt 0).
Proof.
  destruct (unified_product_api Sample.env "get" 3 7 1 Sample.shop_with_cart)
    as [st' [resp|e]] eqn:Hrun; [|by vm_compute in Hrun].
  destruct (in_cart_iff_quantity_positive Sample.env "get" 3 7 1
              Sample.shop_with_cart st' resp Hrun)
    as (in_cart & n & Hin & Hn & _ & _ & Hzero).
  assert (db st' = db Sample.shop_with_cart) as Hdb
    by (by injection Hrun as <- _).
  destruct Hzero as [-> ->].
  { rewrite Hdb. intros r [<-|[<-|[]]]; [reflexivity|discriminate]. }
  by exists resp.
Defined.

(** ** The cart *)

Lemma perform_cart_add_existing (env : Env) (product_id user_id quantity : Z)
    (st : store) (r0 : row) (current_qty : value) (new_qty : Z) :
  find (is_cart_row user_id product_id) (cart_items (db st)) = Some r0 →
  r0 !! "quantity" = Some current_qty →
  Py.add_int current_qty quantity = Ok new_qty →
  db (perform_action env "cart-add" product_id user_id quantity st).1
  = {| products := products (db st);
       cart_items :=
         (λ r, if is_cart_row user_id product_id r
               then <["quantity" := VInt new_qty]> r else r)
           <$> cart_items (db st) |}.
Proof.
  intros Hfind Hqty Hadd.
  unfold perform_action. cbn [String.eqb Ascii.eqb Bool.eqb].
  rewrite bind_execute.
  unfold run. build_request. cbn [rows_of fst snd].
  rewrite (List.filter_ext _ _ (selected_cart_row env user_id product_id)).
  destruct (filter_find_Some _ _ _ Hfind) as [rest ->].
  cbn [fmap list_fmap project].
  rewrite (bind_lift_ok _ current_qty) by (unfold Py.getitem; by rewrite Hqty).
  rewrite (bind_lift_ok _ new_qty) by assumption.
  rewrite bind_execute. cbn [ret fst].
  unfold run. build_request. cbn [rows_of set_rows fst snd db products cart_items].
  f_equal. apply list_fmap_ext. intros _ r _.
  rewrite selected_cart_row, patch1. reflexivity.
Qed.

Lemma perform_cart_add_absent (env : Env) (product_id user_id quantity : Z)
    (st : store) :
  find (is_cart_row user_id product_id) (cart_items (db st)) = None →
  db (perform_action env "cart-add" product_id user_id quantity st).1
  = {| products := products (db st);
       cart_items :=
         cart_items (db st)
         ++ [list_to_map [("user_id", VInt user_id); ("product_id", VInt product_id);
                          ("quantity", VInt quantity); ("selected_options", VStr "")]
             ∪ generated env CartItems (cart_items (db st))] |}.
Proof.
  intros Hfind.
  unfold perform_action. cbn [String.eqb Ascii.eqb Bool.eqb].
  rewrite bind_execute.
  unfold run. build_request. cbn [rows_of fst snd].
  rewrite (List.filter_ext _ _ (selected_cart_row env user_id product_id)).
  rewrite (filter_find_None _ _ Hfind).
  cbn [fmap list_fmap].
  rewrite bind_execute. cbn [ret fst].
  unfold run. build_request. cbn [rows_of set_rows fst snd db products cart_items].
  reflexivity.
Qed.

(** C2: cart-add on a pair that has a row (the first one holding the
    integer quantity [c]) writes [c + quantity] to the rows of the pair and
    touches nothing else; on a pair without a row it appends one row with
    the requested quantity; and adding [quantity] then [quantity2] to a pair
    without a row leaves exactly one row for the pair, holding
    [quantity + quantity2]. *)
Theorem cart_add (env : Env) (product_id user_id quantity : Z) (st : store) :
  let st' := (unified_product_api env "cart-add" product_id user_id quantity st).1 in
  let new_row :=
    list_to_map [("user_id", VInt user_id); ("product_id", VInt product_id);
                 ("quantity", VInt quantity); ("selected_options", VStr "")]
    ∪ generated env CartItems (cart_items (db st)) in
  products (db st') = products (db st)
  ∧ (∀ r0 c,
       find (is_cart_row user_id product_id) (cart_items (db st)) = Some r0 →
       r0 !! "quantity" = Some (VInt c) →
       cart_items (db st')
       = (λ r, if is_cart_row user_id product_id r
               then <["quantity" := VInt (c + quantity)]> r else r)
           <$> cart_items (db st))
  ∧ (find (is_cart_row user_id product_id) (cart_items (db st)) = None →
       cart_items (db st') = (cart_items (db st) ++ [new_row])%list
       ∧ new_row !! "quantity" = Some (VInt quantity)
       ∧ ∀ quantity2,
           let st'' := (unified_product_api env "cart-add" product_id user_id
                          quantity2 st').1 in
           cart_items (db st'')
           = (cart_items (db st)
              ++ [<["quantity" := VInt (quantity + quantity2)]> new_row])%list
           ∧ List.filter (is_cart_row user_id product_id) (cart_items (db st''))
             = [<["quantity" := VInt (quantity + quantity2)]> new_row]).
Proof.
  intros st' new_row.
  destruct (find (is_cart_row user_id product_id) (cart_items (db st)))
    as [r0|] eqn:Hfind.
  - split; [|split; [|discriminate]].
    + subst st'. rewrite unified_product_api_db.
      unfold perform_action. cbn [String.eqb Ascii.eqb Bool.eqb].
      rewrite bind_execute.
      unfold run at 1 2. build_request. cbn [rows_of fst snd].
      rewrite (List.filter_ext _ _ (selected_cart_row env user_id product_id)).
      destruct (filter_find_Some _ _ _ Hfind) as [rest ->].
      cbn [fmap list_fmap project].
      unfold bind at 1, lift. destruct (Py.getitem r0 "quantity"); [|reflexivity].
      unfold bind at 1. destruct (Py.add_int a quantity); [|reflexivity].
      rewrite bind_execute. reflexivity.
    + intros r1 c [= <-] Hqty. subst st'. rewrite unified_product_api_db.
      by erewrite perform_cart_add_existing.
  - assert (db st' = {| products := products (db st);
                        cart_items := cart_items (db st) ++ [new_row] |}) as Hst'.
    { subst st'. rewrite unified_product_api_db.
      by apply perform_cart_add_absent. }
    rewrite Hst'. cbn [products cart_items].
    split; [reflexivity|]. split; [discriminate|]. intros _.
    split; [reflexivity|].
    assert (new_row !! "quantity" = Some (VInt quantity)) as Hqty
      by (subst new_row; by apply lookup_union_Some_l).
    split; [assumption|].
    intros quantity2.
    set (st'' := (unified_product_api env "cart-add" product_id user_id
                    quantity2 st').1).
    assert (db st'' = {| products := products (db st);
              cart_items := cart_items (db st)
                ++ [<["quantity" := VInt (quantity + quantity2)]> new_row] |})
      as ->.
    { subst st''. rewrite unified_product_api_db.
      erewrite perform_cart_add_existing; rewrite ?Hst'; cbn [products cart_items].
      - f_equal. rewrite fmap_app, fmap_find_None by assumption.
        cbn [fmap list_fmap]. subst new_row. by rewrite is_cart_row_new.
      - apply find_app_None; [assumption|apply is_cart_row_new].
      - exact Hqty.
      - reflexivity. }
    cbn [cart_items]. split; [reflexivity|].
    rewrite List.filter_app, (filter_find_None _ _ Hfind). cbn [List.filter app].
    subst new_row. by rewrite is_cart_row_set_quantity, is_cart_row_new.
Qed.

Lemma cart_add_witness :
  (∃ r, List.filter (is_cart_row 7 3)
          (cart_items (db (unified_product_api Sample.env "cart-add" 3 7 3
             (unified_product_api Sample.env "cart-add" 3 7 2 Sample.shop).1).1))
        = [r] ∧ r !! "quantity" = Some (VInt 5))
  ∧ List.filter (is_cart_row 7 4)
      (cart_items (db (unified_product_api Sample.env "cart-add" 4 7 1
                         Sample.shop_with_cart).1))
    = [Sample.cart_row 2 7 4 3].
Proof.
  split.
  - destruct (cart_add Sample.env 3 7 2 Sample.shop) as (_ & _ & Habsent).
    destruct (Habsent eq_refl) as (_ & _ & Hsecond).
    destruct (Hsecond 3) as [_ ->].
    eexists. split; [reflexivity|]. apply lookup_insert_eq.
  - destruct (cart_add Sample.env 4 7 1 Sample.shop_with_cart) as (_ & Hexisting & _).
    rewrite (Hexisting (Sample.cart_row 2 7 4 2) 2 eq_refl eq_refl).
    vm_compute. reflexivity.
Defined.

Lemma perform_cart_update (env : Env) (product_id user_id quantity : Z) (st : store) :
  ∃ s1 message,
    perform_action env "cart-update" product_id user_id quantity st = (s1, Ok message)
    ∧ db s1 = {| products := products (db st);
                 cart_items :=
                   (λ r, if is_cart_row user_id product_id r
                         then <["quantity" := VInt quantity]> r else r)
                     <$> cart_items (db st) |}.
Proof.
  unfold perform_action. cbn [String.eqb Ascii.eqb Bool.eqb].
  rewrite bind_execute. eexists _, _. split; [reflexivity|].
  unfold run. build_request. cbn [rows_of set_rows fst snd db products cart_items].
  f_equal. apply list_fmap_ext. intros _ r _.
  rewrite selected_cart_row, patch1. reflexivity.
Qed.

(** The clock is read for the envelope only. *)
Lemma perform_action_at_time (t : string) (env : Env) (action : string)
    (product_id user_id quantity : Z) :
  perform_action (at_time t env) action product_id user_id quantity
  = perform_action env action product_id user_id quantity.
Proof. reflexivity. Qed.

Lemma presentable_at_time (t : string) (env : Env) (p : row) :
  presentable (at_time t env) p ↔ presentable env p.
Proof. reflexivity. Qed.

(** What the unified endpoint answers once its action is done, when the
    pair has no cart row left: it depends on the product alone. *)
Lemma unified_product_api_no_row (env : Env) (action : string)
    (product_id user_id quantity : Z) (st s1 : store) (message : string) :
  perform_action env action product_id user_id quantity st = (s1, Ok message) →
  find (is_cart_row user_id product_id) (cart_items (db s1)) = None →
  let out := unified_product_api env action product_id user_id quantity st in
  (∀ p, find (has_id product_id) (products (db s1)) = Some p →
        presentable env p →
        ∃ resp, out.2 = Ok resp
                ∧ data_field resp "in_cart" = Some (VBool false)
                ∧ data_field resp "cart_quantity" = Some (VInt 0))
  ∧ (∀ p, find (has_id product_id) (products (db s1)) = Some p →
          ¬ presentable env p →
          ∃ e, python_error e ∧ out.2 = Raise (HTTPException 500 (exc_str env e)))
  ∧ (find (has_id product_id) (products (db s1)) = None →
     out.2 = Raise (HTTPException 404 "상품을 찾을 수 없습니다")).
Proof.
  intros Hact Hrow out. subst out.
  split; [|split].
  - intros p Hfind Hp.
    destruct (unified_product_api_presentable env _ _ _ _ _ _ _ p Hact Hfind Hp Hrow)
      as (resp & Hresp & _ & Hin & Hqty).
    by exists resp.
  - intros p Hfind Hp.
    pose proof (unified_product_api_cases env _ _ _ _ _ _ _ Hact) as Hcases.
    cbn zeta in Hcases. rewrite Hfind in Hcases.
    destruct (format_product env p) as [p'|e] eqn:Hfmt.
    + destruct (Py.int (Py.get p' "likes" (VInt 0))) as [likes|e] eqn:Hlikes.
      * destruct Hp. by exists p', likes.
      * exists e. pose proof (int_raises _ _ Hlikes) as He.
        split; [assumption|]. by rewrite Hcases, as_http_python_error.
    + exists e. pose proof (format_product_raises _ _ _ Hfmt) as He.
      split; [assumption|]. by rewrite Hcases, as_http_python_error.
  - intros Hfind. by eapply unified_product_api_missing.
Qed.

(** C4, as the code has it: cart-update on a pair without a cart row
    leaves both tables as they were.  Whether the call answers depends on
    the product, which the handler reads after the update: it answers
    (with [in_cart = false] and [cart_quantity = 0]) when the product
    exists and is presentable, that is, its row formats and its [likes]
    read as an integer; it raises 500 when the product exists and is not
    presentable; it raises 404 when no product has that id. *)
Theorem cart_update_absent (env : Env) (product_id user_id quantity : Z) (st : store) :
  find (is_cart_row user_id product_id) (cart_items (db st)) = None →
  let out := unified_product_api env "cart-update" product_id user_id quantity st in
  db out.1 = db st
  ∧ (∀ p, find (has_id product_id) (products (db st)) = Some p →
          presentable env p →
          ∃ resp, out.2 = Ok resp
                  ∧ data_field resp "in_cart" = Some (VBool false)
                  ∧ data_field resp "cart_quantity" = Some (VInt 0))
  ∧ (∀ p, find (has_id product_id) (products (db st)) = Some p →
          ¬ presentable env p →
          ∃ e, python_error e ∧ out.2 = Raise (HTTPException 500 (exc_str env e)))
  ∧ (find (has_id product_id) (products (db st)) = None →
     out.2 = Raise (HTTPException 404 "상품을 찾을 수 없습니다")).
Proof.
  intros Hrow out. subst out.
  destruct (perform_cart_update env product_id user_id quantity st)
    as (s1 & message & Hact & Hdb).
  rewrite fmap_find_None, tables_eta in Hdb by assumption.
  split; [by rewrite unified_product_api_db, Hact|].
  pose proof (unified_product_api_no_row env _ _ _ _ _ _ _ Hact) as Hout.
  rewrite Hdb in Hout. by apply Hout.
Qed.

Lemma cart_update_absent_witness :
  db (unified_product_api Sample.env "cart-update" 3 1 5 Sample.shop).1
  = db Sample.shop
  ∧ ∃ resp, (unified_product_api Sample.env "cart-update" 3 1 5 Sample.shop).2 = Ok resp.
Proof.
  destruct (cart_update_absent Sample.env 3 1 5 Sample.shop eq_refl)
    as (Hdb & Hok & _).
  split; [exact Hdb|].
  destruct (Hok (Sample.product 3 "9") eq_refl presentable_sample)
    as (resp & Hresp & _).
  by exists resp.
Defined.

(** C4 as stated fails: when no product has the id, cart-update on a pair
    without a cart row raises 404. *)
Lemma cart_update_absent_raises_404 :
  find (is_cart_row 1 99) (cart_items (db Sample.shop)) = None
  ∧ (unified_product_api Sample.env "cart-update" 99 1 5 Sample.shop).2
    = Raise (HTTPException 404 "상품을 찾을 수 없습니다").
Proof. split; reflexivity. Qed.

(** Nor is a product that formats enough: with likes that are no number,
    the update is answered with 500. *)
Example cart_update_absent_raises_500 :
  let shop := {| db := {| products := [Sample.product 3 "many"]; cart_items := [] |};
                 log := [] |} in
  (∃ p', format_product Sample.env (Sample.product 3 "many") = Ok p')
  ∧ (unified_product_api Sample.env "cart-update" 3 1 5 shop).2
    = Raise (HTTPException 500 (exc_str Sample.env ValueError)).
Proof. split; [eexists|]; reflexivity. Qed.

Lemma perform_cart_remove (env : Env) (product_id user_id quantity : Z) (st : store) :
  ∃ s1,
    perform_action env "cart-remove" product_id user_id quantity st
    = (s1, Ok "장바구니에서 삭제되었습니다")
    ∧ db s1 = {| products := products (db st);
                 cart_items :=
                   List.filter (λ r, negb (is_cart_row user_id product_id r))
                               (cart_items (db st)) |}.
Proof.
  unfold perform_action. cbn [String.eqb Ascii.eqb Bool.eqb].
  rewrite bind_execute. eexists. split; [reflexivity|].
  unfold run. build_request. cbn [rows_of set_rows fst snd db products cart_items].
  f_equal. apply List.filter_ext. intros r. by rewrite selected_cart_row.
Qed.

(** C5, as the code has it: a second cart-remove, whenever it is made,
    leaves the tables as the first left them, with no row for the pair.
    It answers when the product exists and is presentable (its row
    formats and its [likes] read as an integer), raises 500 when the
    product exists and is not presentable, and raises 404 when no product
    has that id. *)
Theorem cart_remove_twice (env : Env) (t : string)
    (product_id user_id quantity quantity2 : Z) (st : store) :
  let first := unified_product_api env "cart-remove" product_id user_id quantity st in
  let second := unified_product_api (at_time t env) "cart-remove" product_id user_id
                  quantity2 first.1 in
  db second.1 = db first.1
  ∧ products (db first.1) = products (db st)
  ∧ cart_items (db first.1)
    = List.filter (λ r, negb (is_cart_row user_id product_id r)) (cart_items (db st))
  ∧ List.filter (is_cart_row user_id product_id) (cart_items (db first.1)) = []
  ∧ (∀ p, find (has_id product_id) (products (db st)) = Some p →
          presentable env p →
          ∃ resp, second.2 = Ok resp
                  ∧ data_field resp "in_cart" = Some (VBool false)
                  ∧ data_field resp "cart_quantity" = Some (VInt 0))
  ∧ (∀ p, find (has_id product_id) (products (db st)) = Some p →
          ¬ presentable env p →
          ∃ e, python_error e ∧ second.2 = Raise (HTTPException 500 (exc_str env e)))
  ∧ (find (has_id product_id) (products (db st)) = None →
     second.2 = Raise (HTTPException 404 "상품을 찾을 수 없습니다")).
Proof.
  intros first second.
  destruct (perform_cart_remove env product_id user_id quantity st)
    as (s1 & Hact1 & Hdb1).
  assert (db first.1 = db s1) as Hfirst
    by (subst first; by rewrite unified_product_api_db, Hact1).
  destruct (perform_cart_remove (at_time t env) product_id user_id quantity2 first.1)
    as (s2 & Hact2 & Hdb2).
  assert (db second.1 = db s2) as Hsecond
    by (subst second; by rewrite unified_product_api_db, Hact2).
  assert (db s2 = db s1) as Hsame.
  { rewrite Hdb2, Hfirst, Hdb1. cbn [products cart_items].
    by rewrite filter_filter_same. }
  assert (find (is_cart_row user_id product_id) (cart_items (db s1)) = None) as Hgone
    by (rewrite Hdb1; apply find_filter_negb).
  assert (products (db s1) = products (db st)) as Hproducts by (by rewrite Hdb1).
  split; [by rewrite Hsecond, Hsame, Hfirst|].
  split; [by rewrite Hfirst, Hdb1|].
  split; [by rewrite Hfirst, Hdb1|].
  split; [rewrite Hfirst; by apply filter_find_None|].
  pose proof (unified_product_api_no_row (at_time t env) _ _ _ _ _ _ _ Hact2) as Hout.
  rewrite Hsame, Hproducts in Hout. by apply Hout.
Qed.

Lemma cart_remove_twice_witness :
  ∃ resp,
    (unified_product_api (at_time "2024-01-01T00:00:01" Sample.env) "cart-remove" 3 7 1
       (unified_product_api Sample.env "cart-remove" 3 7 1 Sample.shop_with_cart).1).2
    = Ok resp.
Proof.
  destruct (cart_remove_twice Sample.env "2024-01-01T00:00:01" 3 7 1 1
              Sample.shop_with_cart)
    as (_ & _ & _ & _ & Hok & _).
  destruct (Hok (Sample.product 3 "9") eq_refl presentable_sample) as (resp & Hresp & _).
  by exists resp.
Defined.

(** C5 as stated fails: when no product has the id, the second cart-remove
    (like the first) raises 404. *)
Lemma cart_remove_twice_raises_404 :
  (unified_product_api (at_time "2024-01-01T00:00:01" Sample.env) "cart-remove" 99 7 1
     (unified_product_api Sample.env "cart-remove" 99 7 1 Sample.shop_with_cart).1).2
  = Raise (HTTPException 404 "상품을 찾을 수 없습니다").
Proof. reflexivity. Qed.

(** The two answers of a pair of calls differ by their date. *)
Example cart_remove_twice_dates :
  ∃ first second : Response,
    (unified_product_api Sample.env "cart-remove" 3 7 1 Sample.shop_with_cart).2
    = Ok first
    ∧ (unified_product_api (at_time "2024-01-01T00:00:01" Sample.env) "cart-remove" 3 7 1
         (unified_product_api Sample.env "cart-remove" 3 7 1 Sample.shop_with_cart).1).2
      = Ok second
    ∧ first ≠ second
    ∧ body_field first "data" = body_field second "data".
Proof.
  eexists _, _. split; [reflexivity|]. split; [reflexivity|].
  split; [|reflexivity]. intros H. apply (f_equal content) in H. vm_compute in H.
  discriminate H.
Qed.

(** ** Ranking *)

(** What the ranking returns: the first twenty products in the order of
    the [likes] column, highest first, formatted. *)
Lemma get_products_ranking_result (env : Env) (st : store) :
  (get_products_ranking env st).2
  = match format_product_data env
            (take 20 (Sql.order_by "likes" true (products (db st)))) with
    | Ok formatted =>
        Ok (create_standard_response env (VList (VObj <$> formatted)) "Success")
    | Raise e => Raise (HTTPException 500 (exc_str env e))
    end.
Proof.
  unfold get_products_ranking, reraise_500.
  rewrite bind_execute.
  unfold run. build_request. cbn [rows_of fst snd project].
  rewrite filter_no_condition, list_fmap_id.
  destruct (format_product_data env _) as [formatted|e];
    [by rewrite (bind_lift_ok _ formatted)|by rewrite (bind_lift_raise _ e)].
Qed.

(** C3, on the code: the [likes] column holds text (the favorite toggle
    writes [str(new_likes)]), and the store orders text character by
    character.  With 9 likes on product 3 and 10 on product 4, the ranking
    lists product 3 first. *)
Theorem ranking_orders_likes_as_text :
  ∃ (resp : Response) (first second : row),
    (get_products_ranking Sample.env Sample.shop).2 = Ok resp
    ∧ body_field resp "data" = Some (VList [VObj first; VObj second])
    ∧ first !! "id" = Some (VInt 3) ∧ first !! "likes" = Some (VStr "9")
    ∧ second !! "id" = Some (VInt 4) ∧ second !! "likes" = Some (VStr "10")
    ∧ Py.int (VStr "9") = Ok 9 ∧ Py.int (VStr "10") = Ok 10.
Proof.
  eexists _, _, _. split; [reflexivity|]. split; [reflexivity|].
  repeat split; reflexivity.
Qed.

(** The same after the program's own write: both products start with 9
    likes, product 4 is made a favorite and now has 10, and still ranks
    below product 3. *)
Lemma ranking_after_favorite :
  ∃ (resp : Response) (first second : row),
    (get_products_ranking Sample.env
       (unified_product_api Sample.env "favorite" 4 1 1 Sample.shop_even).1).2 = Ok resp
    ∧ body_field resp "data" = Some (VList [VObj first; VObj second])
    ∧ first !! "id" = Some (VInt 3) ∧ first !! "likes" = Some (VStr "9")
    ∧ second !! "id" = Some (VInt 4) ∧ second !! "likes" = Some (VStr "10").
Proof.
  eexists _, _, _. split; [vm_compute; reflexivity|]. split; [reflexivity|].
  repeat split; reflexivity.
Qed.

(** ** The unified endpoint: other actions and failures *)

Lemma perform_unknown_action (env : Env) (action : string)
    (product_id user_id quantity : Z) (st : store) :
  known_action action = false →
  perform_action env action product_id user_id quantity st
  = (st, Raise (HTTPException 400 ("지원하지 않는 액션: " +:+ action))).
Proof.
  unfold known_action. cbn [existsb].
  intros H. repeat (apply orb_false_iff in H as [? H]).
  unfold perform_action, raise.
  by repeat match goal with Heq : String.eqb _ _ = false |- _ => rewrite Heq; clear Heq end.
Qed.

(** X1: an action other than get, favorite, cart-add, cart-remove and
    cart-update is refused with 400, and the store is not touched: no
    request is sent. *)
Theorem unknown_action_rejected (env : Env) (action : string)
    (product_id user_id quantity : Z) (st : store) :
  known_action action = false →
  unified_product_api env action product_id user_id quantity st
  = (st, Raise (HTTPException 400 ("지원하지 않는 액션: " +:+ action))).
Proof.
  intros Hact%(perform_unknown_action env action product_id user_id quantity st).
  unfold unified_product_api.
  by rewrite (reraise_http_raise env _ _ _ _ (bind_raise _ _ _ _ _ Hact)).
Qed.

Lemma unknown_action_rejected_witness :
  unified_product_api Sample.env "cart-clear" 3 7 1 Sample.shop_with_cart
  = (Sample.shop_with_cart,
     Raise (HTTPException 400 "지원하지 않는 액션: cart-clear")).
Proof. apply (unknown_action_rejected Sample.env "cart-clear"). reflexivity. Defined.

(** X2: the action get writes nothing.  It answers 404 when no product
    has the id; when one has it and is presentable, it answers with that
    product formatted, its flag and its like count. *)
Theorem get_action_reads_only (env : Env) (product_id user_id quantity : Z)
    (st : store) :
  let out := unified_product_api env "get" product_id user_id quantity st in
  db out.1 = db st
  ∧ writes out.1 = writes st
  ∧ (find (has_id product_id) (products (db st)) = None →
     out.2 = Raise (HTTPException 404 "상품을 찾을 수 없습니다"))
  ∧ (∀ p p' likes,
       find (has_id product_id) (products (db st)) = Some p →
       format_product env p = Ok p' →
       Py.int (Py.get p' "likes" (VInt 0)) = Ok likes →
       ∃ resp, out.2 = Ok resp
               ∧ body_field resp "message" = Some (VStr "상품 정보를 조회했습니다")
               ∧ data_field resp "product" = Some (VObj p')
               ∧ data_field resp "is_favorite"
                 = Some (Py.get p' "is_favorite" (VBool false))
               ∧ data_field resp "likes" = Some (VInt likes)).
Proof.
  intros out. subst out.
  assert (perform_action env "get" product_id user_id quantity st
          = (st, Ok "상품 정보를 조회했습니다")) as Hact by reflexivity.
  pose proof (unified_product_api_cases env _ _ _ _ _ _ _ Hact) as Hcases.
  cbn zeta in Hcases.
  split; [by rewrite unified_product_api_db, Hact|].
  split; [by rewrite unified_product_api_writes, Hact|].
  split.
  - intros Hfind. by rewrite Hfind in Hcases.
  - intros p p' likes Hfind Hfmt Hlikes. rewrite Hfind, Hfmt, Hlikes in Hcases.
    destruct Hcases as (n & -> & _). eexists. repeat split; reflexivity.
Qed.

Lemma get_action_reads_only_witness :
  ∃ resp, (unified_product_api Sample.env "get" 3 7 1 Sample.shop).2 = Ok resp
          ∧ data_field resp "likes" = Some (VInt 9).
Proof.
  destruct (get_action_reads_only Sample.env 3 7 1 Sample.shop) as (_ & _ & _ & Hok).
  destruct (Hok (Sample.product 3 "9") _ 9 eq_refl eq_refl eq_refl)
    as (resp & Hresp & _ & _ & _ & Hlikes).
  by exists resp.
Defined.

(** X3: a favorite toggle on an id no product has answers 404 after one
    read, and writes nothing. *)
Theorem favorite_missing_product (env : Env) (product_id user_id quantity : Z)
    (st : store) :
  find (has_id product_id) (products (db st)) = None →
  let out := unified_product_api env "favorite" product_id user_id quantity st in
  out.2 = Raise (HTTPException 404 "상품을 찾을 수 없습니다")
  ∧ db out.1 = db st
  ∧ log out.1 = (log st ++ [Products |> Query.select (Columns ["is_favorite"; "likes"])
                              |> Query.eq "id" (VInt product_id)])%list.
Proof.
  intros Hfind out. subst out.
  assert (perform_action env "favorite" product_id user_id quantity st
          = ({| db := db st;
                log := log st ++ [Products |> Query.select (Columns ["is_favorite"; "likes"])
                                    |> Query.eq "id" (VInt product_id)] |},
             Raise (HTTPException 404 "상품을 찾을 수 없습니다"))) as Hact.
  { unfold perform_action. cbn [String.eqb Ascii.eqb Bool.eqb].
    rewrite bind_execute. unfold run. build_request. cbn [rows_of fst snd].
    rewrite (List.filter_ext _ _ (selected_id env product_id)).
    by rewrite (filter_find_None _ _ Hfind). }
  unfold unified_product_api.
  rewrite (reraise_http_raise env _ _ _ _ (bind_raise _ _ _ _ _ Hact)).
  repeat split.
Qed.

Lemma favorite_missing_product_witness :
  (unified_product_api Sample.env "favorite" 99 1 1 Sample.shop).2
  = Raise (HTTPException 404 "상품을 찾을 수 없습니다").
Proof. apply (favorite_missing_product Sample.env 99 1 1 Sample.shop). reflexivity. Defined.





(** X4: a favorite toggle on a product whose like count [int] cannot read
    answers 500 with the text of that error, and writes nothing. *)
Theorem favorite_unreadable_likes (env : Env) (product_id user_id quantity : Z)
    (st : store) (r0 : row) (fav likes : value) (e : exn) :
  find (has_id product_id) (products (db st)) = Some r0 →
  r0 !! "is_favorite" = Some fav →
  r0 !! "likes" = Some likes →
  Py.int (Py.or likes (VStr "0")) = Raise e →
  let out := unified_product_api env "favorite" product_id user_id quantity st in
  out.2 = Raise (HTTPException 500 (exc_str env e))
  ∧ db out.1 = db st
  ∧ writes out.1 = writes st.
Proof.
  intros Hfind Hfav Hlikes He out. subst out.
  assert (∃ s1, perform_action env "favorite" product_id user_id quantity st
                = (s1, Raise e) ∧ db s1 = db st ∧ writes s1 = writes st)
    as (s1 & Hact & Hdb & Hwrites).
  { unfold perform_action. cbn [String.eqb Ascii.eqb Bool.eqb].
    rewrite bind_execute. unfold run. build_request. cbn [rows_of fst snd].
    rewrite (List.filter_ext _ _ (selected_id env product_id)).
    destruct (filter_find_Some _ _ _ Hfind) as [rest ->].
    cbn [fmap list_fmap].
    rewrite (bind_lift_ok _ fav)
      by (unfold Py.getitem; rewrite project_columns_lookup, Hfav;
          [reflexivity|repeat constructor]).
    rewrite (bind_lift_ok _ likes)
      by (unfold Py.getitem; rewrite project_columns_lookup, Hlikes;
          [reflexivity|repeat constructor]).
    rewrite (bind_lift_raise _ e) by assumption.
    eexists. split; [reflexivity|]. split; [reflexivity|].
    unfold writes. cbn [log]. rewrite List.filter_app. apply app_nil_r. }
  rewrite unified_product_api_db, unified_product_api_writes, Hact.
  split; [|by split].
  unfold unified_product_api.
  rewrite (reraise_http_raise env _ _ _ _ (bind_raise _ _ _ _ _ Hact)).
  cbn [snd]. f_equal. apply as_http_python_error. by eapply int_raises.
Qed.

Lemma favorite_unreadable_likes_witness :
  let st := {| db := {| products := [Sample.product 3 "many"]; cart_items := [] |};
               log := [] |} in
  db (unified_product_api Sample.env "favorite" 3 1 1 st).1 = db st.
Proof.
  intros st.
  apply (favorite_unreadable_likes Sample.env 3 1 1 st (Sample.product 3 "many")
           (VBool false) (VStr "many") ValueError eq_refl eq_refl eq_refl eq_refl).
Defined.






(** A favorite with 0 likes: two toggles leave it a favorite with 1 like. *)
Example favorite_twice_gains_a_like :
  let loved : row := <["is_favorite" := VBool true]> (Sample.product 3 "0") in
  let st := {| db := {| products := [loved]; cart_items := [] |}; log := [] |} in
  products (db (unified_product_api Sample.env "favorite" 3 1 1
                  (unified_product_api Sample.env "favorite" 3 1 1 st).1).1)
  = [toggled true 1 loved].
Proof. reflexivity. Qed.

(** ** The cart: composition *)

Lemma cart_state_result (env : Env) (product_id user_id : Z) (s : store) :
  (cart_state env product_id user_id s).2
  = Ok (cart_report user_id product_id (cart_items (db s))).
Proof.
  unfold cart_state, cart_report. rewrite bind_execute.
  unfold run. build_request. cbn [rows_of fst snd].
  rewrite (List.filter_ext _ _ (selected_in_cart env user_id product_id)).
  destruct (find _ (cart_items (db s))) as [r|] eqn:Hfind.
  - destruct (filter_find_Some _ _ _ Hfind) as [rest ->].
    cbn [fmap list_fmap project].
    apply find_some in Hfind as [_ [_ Hin]%andb_true_iff].
    pose proof Hin as (z & Hz & _)%in_cart_row_quantity.
    rewrite (bind_lift_ok _ (VInt z)) by (unfold Py.getitem; by rewrite Hz).
    unfold Sql.column. rewrite Hz. reflexivity.
  - by rewrite (filter_find_None _ _ Hfind).
Qed.

(** The response of the unified endpoint when nothing fails. *)
Lemma unified_product_api_response (env : Env) (action : string)
    (product_id user_id quantity : Z) (st s1 : store) (message : string)
    (p p' : row) (likes : Z) :
  perform_action env action product_id user_id quantity st = (s1, Ok message) →
  find (has_id product_id) (products (db s1)) = Some p →
  format_product env p = Ok p' →
  Py.int (Py.get p' "likes" (VInt 0)) = Ok likes →
  (unified_product_api env action product_id user_id quantity st).2
  = Ok (create_standard_response env
          (consolidated p' (cart_report user_id product_id (cart_items (db s1))) likes)
          message).
Proof.
  intros Hact Hfind Hfmt Hlikes.
  unfold unified_product_api. rewrite reraise_http_result.
  rewrite (bind_ok _ _ _ _ _ Hact), bind_execute.
  unfold run. build_request. cbn [rows_of fst snd].
  rewrite (List.filter_ext _ _ (selected_id env product_id)).
  destruct (filter_find_Some _ _ _ Hfind) as [rest ->].
  cbn [fmap list_fmap project].
  rewrite format_product_data_one, Hfmt.
  rewrite (bind_lift_ok _ [p']) by reflexivity.
  match goal with |- context [bind (cart_state env product_id user_id) _ ?s] =>
    pose proof (cart_state_result env product_id user_id s) as Hcart;
    destruct (cart_state env product_id user_id s) as [s2 cart] eqn:Hstate
  end.
  cbn [snd db] in Hcart. subst cart.
  rewrite (bind_ok _ _ _ _ _ Hstate).
  destruct (cart_report user_id product_id (cart_items (db s1))) as [in_cart qty].
  rewrite (bind_lift_ok _ likes) by assumption.
  reflexivity.
Qed.

Lemma filter_negb_find_None {A} (f : A → bool) (l : list A) :
  find f l = None → List.filter (λ x, negb (f x)) l = l.
Proof.
  induction l as [|x l IH]; [reflexivity|]. cbn [find List.filter].
  destruct (f x); [discriminate|]. intros H. cbn [negb]. by rewrite IH.
Qed.

(** X7: on a pair without a cart row, cart-add followed by cart-remove
    leaves the tables as they were. *)
Theorem cart_add_then_remove (env : Env) (product_id user_id quantity quantity2 : Z)
    (st : store) :
  find (is_cart_row user_id product_id) (cart_items (db st)) = None →
  let st1 := (unified_product_api env "cart-add" product_id user_id quantity st).1 in
  let st2 := (unified_product_api env "cart-remove" product_id user_id quantity2 st1).1 in
  List.length (cart_items (db st1)) = S (List.length (cart_items (db st)))
  ∧ db st2 = db st.
Proof.
  intros Hfind st1 st2.
  assert (db st1 = _) as Hst1
    by (subst st1; rewrite unified_product_api_db;
        by apply perform_cart_add_absent).
  destruct (perform_cart_remove env product_id user_id quantity2 st1)
    as (s2 & Hact & Hdb).
  assert (db st2 = db s2) as ->
    by (subst st2; by rewrite unified_product_api_db, Hact).
  rewrite Hdb, Hst1. cbn [products cart_items].
  split; [rewrite length_app; cbn; lia|].
  rewrite List.filter_app, filter_negb_find_None by assumption.
  cbn [List.filter]. rewrite is_cart_row_new. cbn [negb].
  rewrite app_nil_r. by destruct (db st).
Qed.

Lemma cart_add_then_remove_witness :
  db (unified_product_api Sample.env "cart-remove" 3 7 1
        (unified_product_api Sample.env "cart-add" 3 7 2 Sample.shop).1).1
  = db Sample.shop.
Proof. apply (cart_add_then_remove Sample.env 3 7 2 1 Sample.shop). reflexivity. Defined.

Lemma in_cart_row_set_quantity (q : Z) (r : row) :
  in_cart_row (<["quantity" := VInt q]> r) = (0 <? q).
Proof. unfold in_cart_row, Sql.column. by rewrite lookup_insert_eq. Qed.

Lemma cart_report_updated (user_id product_id quantity : Z) (rows : list row) (r0 : row) :
  find (is_cart_row user_id product_id) rows = Some r0 →
  cart_report user_id product_id
    ((λ r, if is_cart_row user_id product_id r
           then <["quantity" := VInt quantity]> r else r) <$> rows)
  = if 0 <? quantity then (true, VInt quantity) else (false, VInt 0).
Proof.
  unfold cart_report. induction rows as [|r rows IH]; [discriminate|].
  cbn [find fmap list_fmap].
  destruct (is_cart_row user_id product_id r) eqn:Hr.
  - intros _. rewrite is_cart_row_set_quantity, Hr, in_cart_row_set_quantity.
    cbn [andb]. destruct (0 <? quantity) eqn:Hq.
    + unfold Sql.column. by rewrite lookup_insert_eq.
    + clear IH. induction rows as [|r' rows IH]; [reflexivity|].
      cbn [find fmap list_fmap].
      destruct (is_cart_row user_id product_id r') eqn:Hr'.
      * by rewrite is_cart_row_set_quantity, Hr', in_cart_row_set_quantity, Hq.
      * by rewrite Hr'.
  - intros Hfind. rewrite Hr. cbn [andb]. by apply IH.
Qed.

(** X8: cart-update on a pair that has rows sets their quantity to the
    requested value, whatever it is, and touches no other row.  With a
    presentable product the response reports the new quantity when it is
    positive; a quantity of 0 or less takes the product out of the cart
    ([in_cart = false], [cart_quantity = 0]) while the rows stay. *)
Theorem cart_update_existing (env : Env) (product_id user_id quantity : Z)
    (st : store) (r0 : row) :
  find (is_cart_row user_id product_id) (cart_items (db st)) = Some r0 →
  let out := unified_product_api env "cart-update" product_id user_id quantity st in
  products (db out.1) = products (db st)
  ∧ cart_items (db out.1)
    = (λ r, if is_cart_row user_id product_id r
            then <["quantity" := VInt quantity]> r else r) <$> cart_items (db st)
  ∧ (∀ p, find (has_id product_id) (products (db st)) = Some p →
          presentable env p →
          ∃ resp, out.2 = Ok resp
                  ∧ data_field resp "in_cart" = Some (VBool (0 <? quantity))
                  ∧ data_field resp "cart_quantity"
                    = Some (VInt (if 0 <? quantity then quantity else 0))).
Proof.
  intros Hrow out. subst out.
  destruct (perform_cart_update env product_id user_id quantity st)
    as (s1 & message & Hact & Hdb).
  rewrite unified_product_api_db, Hact. cbn [fst]. rewrite Hdb.
  split; [reflexivity|]. split; [reflexivity|].
  intros p Hfind (p' & likes & Hfmt & Hlikes).
  rewrite (unified_product_api_response env _ _ _ _ _ _ _ p p' likes Hact);
    [|by rewrite Hdb|assumption..].
  rewrite Hdb. cbn [cart_items]. rewrite (cart_report_updated _ _ _ _ r0 Hrow).
  eexists. split; [reflexivity|].
  destruct (0 <? quantity); split; reflexivity.
Qed.

Lemma cart_update_existing_witness :
  ∃ resp,
    (unified_product_api Sample.env "cart-update" 4 7 0 Sample.shop_with_cart).2 = Ok resp
    ∧ data_field resp "in_cart" = Some (VBool false)
    ∧ List.length (cart_items (db (unified_product_api Sample.env "cart-update" 4 7 0
                                     Sample.shop_with_cart).1)) = 2%nat.
Proof.
  destruct (cart_update_existing Sample.env 4 7 0 Sample.shop_with_cart
              (Sample.cart_row 2 7 4 2) eq_refl) as (_ & Hcart & Hresp).
  destruct (Hresp (Sample.product 4 "10") eq_refl) as (resp & Hok & Hin & _).
  { eexists _, 10. split; reflexivity. }
  exists resp. split; [exact Hok|]. split; [exact Hin|]. by rewrite Hcart.
Defined.

(** ** What the unified endpoint never does *)

Section Raises.

Context {P : exn → Prop}.

Lemma raises_only_ret {A} (a : A) : raises_only P (ret a).
Proof. intros s e. discriminate. Qed.

Lemma raises_only_raise {A} (e : exn) : P e → raises_only P (@raise A e).
Proof. intros He s e' [= <-]. exact He. Qed.

Lemma raises_only_lift {A} (r : result A) :
  (∀ e, r = Raise e → P e) → raises_only P (lift r).
Proof. intros Hr s e. cbn. apply Hr. Qed.

Lemma raises_only_execute (env : Env) (q : request) : raises_only P (execute env q).
Proof. intros s e. unfold execute. destruct (run env (db s) q). discriminate. Qed.

Lemma raises_only_bind {A B} (m : M A) (k : A → M B) :
  raises_only P m → (∀ a, raises_only P (k a)) → raises_only P (bind m k).
Proof.
  intros Hm Hk s e. unfold bind. specialize (Hm s).
  destruct (m s) as [s' [a|e']]; [apply Hk|]. cbn. intros [= <-]. by apply Hm.
Qed.

End Raises.

Lemma python_error_missing_or_python (e : exn) : python_error e → missing_or_python e.
Proof. by destruct e. Qed.

Ltac raises_basic_step :=
  first
    [ apply raises_only_ret
    | apply raises_only_execute
    | apply raises_only_raise; reflexivity
    | apply raises_only_lift; intros ? ?;
      apply python_error_missing_or_python;
      first [ by eapply getitem_raises | by eapply int_raises
            | by eapply add_int_raises | by eapply format_product_data_raises ]
    | apply raises_only_bind; [|intros ?]
    | match goal with
      | |- raises_only _ (match ?x with _ => _ end) => destruct x
      end ].

Lemma cart_state_raises (env : Env) (product_id user_id : Z) :
  raises_only missing_or_python (cart_state env product_id user_id).
Proof. unfold cart_state. repeat raises_basic_step. Qed.

Ltac raises_step := first [ apply cart_state_raises | raises_basic_step ].

Lemma perform_action_raises (env : Env) (action : string)
    (product_id user_id quantity : Z) :
  known_action action = true →
  raises_only missing_or_python (perform_action env action product_id user_id quantity).
Proof.
  intros Hknown. unfold perform_action.
  destruct (String.eqb action "favorite") eqn:H1; [repeat raises_step|].
  destruct (String.eqb action "cart-add") eqn:H2; [repeat raises_step|].
  destruct (String.eqb action "cart-remove") eqn:H3; [repeat raises_step|].
  destruct (String.eqb action "cart-update") eqn:H4; [repeat raises_step|].
  destruct (String.eqb action "get") eqn:H5; [repeat raises_step|].
  unfold known_action in Hknown. cbn [existsb] in Hknown.
  by rewrite H1, H2, H3, H4, H5 in Hknown.
Qed.

(** X9: whatever its input and the store, a call to the unified endpoint
    that fails raises an [HTTPException] with status 400, 404 or 500, never
    another exception; and the status is 400 exactly when the action is
    not one of the five it knows. *)
Theorem unified_product_api_statuses (env : Env) (action : string)
    (product_id user_id quantity : Z) (st : store) (e : exn) :
  (unified_product_api env action product_id user_id quantity st).2 = Raise e →
  ∃ status detail,
    e = HTTPException status detail
    ∧ (status = 400 ∨ status = 404 ∨ status = 500)
    ∧ (status = 400 ↔ known_action action = false).
Proof.
  destruct (known_action action) eqn:Hknown.
  - unfold unified_product_api. rewrite reraise_http_result.
    match goal with |- context [(?m st).2] =>
      assert (raises_only missing_or_python m) as Hm
    end.
    { apply raises_only_bind; [by apply perform_action_raises|]. intros message.
      repeat raises_step. }
    specialize (Hm st).
    match goal with |- context [(?m st).2] => destruct (m st).2 as [resp|e0] end;
      [discriminate|].
    intros [= <-]. specialize (Hm e0 eq_refl).
    destruct e0 as [c d| | | | |]; cbn in *;
      eexists _, _; (split; [reflexivity|]); (split; [lia|]); split; (discriminate || lia).
  - pose proof (perform_unknown_action env action product_id user_id quantity st Hknown)
      as Hact.
    unfold unified_product_api.
    rewrite (reraise_http_raise env _ _ _ _ (bind_raise _ _ _ _ _ Hact)).
    intros [= <-]. eexists _, _. split; [reflexivity|]. split; [lia|]. done.
Qed.

Lemma unified_product_api_statuses_witness :
  ∃ status detail,
    HTTPException 404 "상품을 찾을 수 없습니다" = HTTPException status detail
    ∧ (status = 400 ∨ status = 404 ∨ status = 500)
    ∧ (status = 400 ↔ known_action "favorite" = false).
Proof.
  exact (unified_product_api_statuses Sample.env "favorite" 99 1 1 Sample.shop _ eq_refl).
Defined.

Section Writes.

Variable env : Env.

Lemma writes_at_most_ret {A} (a : A) : writes_at_most 0 (ret a).
Proof. intros s. cbn. lia. Qed.

Lemma writes_at_most_raise {A} (e : exn) : writes_at_most 0 (@raise A e).
Proof. intros s. cbn. lia. Qed.

Lemma writes_at_most_lift {A} (r : result A) : writes_at_most 0 (lift r).
Proof. intros s. cbn. lia. Qed.

Lemma writes_at_most_select (q : request) (c : columns) :
  req_verb q = Select c → writes_at_most 0 (execute env q).
Proof. intros Hq s. rewrite (writes_select env q c s Hq). lia. Qed.

Lemma writes_at_most_execute (q : request) : writes_at_most 1 (execute env q).
Proof.
  intros s. unfold execute, writes. destruct (run env (db s) q). cbn [fst log].
  rewrite List.filter_app, length_app. cbn [List.filter].
  destruct (is_write q); cbn; lia.
Qed.

Lemma writes_at_most_bind {A B} (a b : nat) (m : M A) (k : A → M B) :
  writes_at_most a m → (∀ x, writes_at_most b (k x)) →
  writes_at_most (a + b) (bind m k).
Proof.
  intros Hm Hk s. unfold bind. specialize (Hm s).
  destruct (m s) as [s' [x|e]]; cbn [fst] in *; [|lia].
  specialize (Hk x s'). lia.
Qed.

Lemma writes_at_most_weaken {A} (a b : nat) (m : M A) :
  (a ≤ b)%nat → writes_at_most a m → writes_at_most b m.
Proof. intros Hab Hm s. specialize (Hm s). lia. Qed.

Ltac reads_step :=
  first
    [ apply writes_at_most_ret
    | apply writes_at_most_raise
    | apply writes_at_most_lift
    | eapply writes_at_most_select; reflexivity
    | apply (writes_at_most_bind 0 0); [|intros ?]
    | match goal with
      | |- writes_at_most _ (match ?x with _ => _ end) => destruct x
      end ].

Ltac one_write :=
  first
    [ apply (writes_at_most_weaken 0 1); [lia|solve [repeat reads_step]]
    | apply (writes_at_most_bind 1 0);
      [apply writes_at_most_execute|intros ?; solve [repeat reads_step]]
    | apply (writes_at_most_bind 0 1); [solve [repeat reads_step]|intros ?; one_write]
    | match goal with
      | |- writes_at_most _ (match ?x with _ => _ end) => destruct x; one_write
      end ].

Lemma perform_action_writes (action : string) (product_id user_id quantity : Z) :
  writes_at_most 1 (perform_action env action product_id user_id quantity).
Proof.
  unfold perform_action.
  repeat match goal with
         | |- writes_at_most _ (if ?b then _ else _) => destruct b
         end; one_write.
Qed.

End Writes.

(** X10: a call to the unified endpoint sends the store at most one write
    (an update, an insert or a delete), whatever the action and however the
    call ends. *)
Theorem unified_product_api_one_write (env : Env) (action : string)
    (product_id user_id quantity : Z) (st : store) :
  let st' := (unified_product_api env action product_id user_id quantity st).1 in
  (List.length (writes st) ≤ List.length (writes st') ≤ List.length (writes st) + 1)%nat.
Proof.
  intros st'. subst st'. rewrite unified_product_api_writes.
  apply perform_action_writes.
Qed.

(** ** Formatting: lists of rows *)

Lemma format_product_data_Forall2 (env : Env) (products formatted : list row) :
  format_product_data env products = Ok formatted
  ↔ Forall2 (λ p p', format_product env p = Ok p') products formatted.
Proof.
  revert formatted. induction products as [|p l IH]; intros formatted.
  - cbn [format_product_data]. split.
    + intros [= <-]. constructor.
    + intros ->%Forall2_nil_inv_l. reflexivity.
  - cbn [format_product_data]. unfold rbind. split.
    + destruct (format_product env p) as [p'|e] eqn:Hp; [|discriminate].
      destruct (format_product_data env l) as [l'|e]; [|discriminate].
      intros [= <-]. constructor; [assumption|]. by apply IH.
    + intros (p' & l' & Hp & Hl & ->)%Forall2_cons_inv_l.
      rewrite Hp. apply IH in Hl. by rewrite Hl.
Qed.

Lemma format_product_data_first_error (env : Env) (good rest : list row)
    (bad : row) (e : exn) :
  Forall (λ p, ∃ p', format_product env p = Ok p') good →
  format_product env bad = Raise e →
  format_product_data env (good ++ bad :: rest) = Raise e.
Proof.
  intros Hgood Hbad. induction Hgood as [|p good [p' Hp] _ IH].
  - cbn [app format_product_data]. unfold rbind. by rewrite Hbad.
  - cbn [app format_product_data]. unfold rbind. by rewrite Hp, IH.
Qed.


(** X11: [format_product_data] succeeds exactly when every row of its
    input formats, and then returns the rows formatted one by one, in the
    order of the input; when some row does not, it raises the error of the
    first such row and returns nothing. *)
Theorem format_product_data_all_or_nothing (env : Env) (products : list row) :
  (∀ formatted,
     format_product_data env products = Ok formatted
     ↔ Forall2 (λ p p', format_product env p = Ok p') products formatted)
  ∧ (∀ good bad rest e,
       products = (good ++ bad :: rest)%list →
       Forall (λ p, ∃ p', format_product env p = Ok p') good →
       format_product env bad = Raise e →
       format_product_data env products = Raise e).
Proof.
  split.
  - intros formatted. apply format_product_data_Forall2.
  - intros good bad rest e -> Hgood Hbad.
    by apply format_product_data_first_error.
Qed.

Lemma format_product_data_all_or_nothing_witness :
  format_product_data Sample.env
    [Sample.product 3 "9"; <["price" := VStr "free"]> (Sample.product 4 "10");
     Sample.product 5 "1"]
  = Raise ValueError.
Proof.
  destruct (format_product_data_all_or_nothing Sample.env
              [Sample.product 3 "9"; <["price" := VStr "free"]> (Sample.product 4 "10");
               Sample.product 5 "1"]) as [_ Hbad].
  apply (Hbad [Sample.product 3 "9"] (<["price" := VStr "free"]> (Sample.product 4 "10"))
           [Sample.product 5 "1"]); [reflexivity| |reflexivity].
  repeat constructor. eexists. reflexivity.
Defined.

(** ** Formatting: the thousands separator *)

Lemma without_commas_app (s t : string) :
  without_commas (s +:+ t) = without_commas s +:+ without_commas t.
Proof.
  induction s as [|c s IH]; [reflexivity|].
  change (String c s +:+ t) with (String c (s +:+ t)). cbn [without_commas].
  rewrite IH. by destruct (Ascii.eqb c ",").
Qed.

Lemma without_commas_list (l : list ascii) :
  without_commas (string_of_list_ascii l)
  = string_of_list_ascii (List.filter (λ c, negb (Ascii.eqb c ",")) l).
Proof.
  induction l as [|c l IH]; [reflexivity|]. cbn [string_of_list_ascii without_commas List.filter].
  rewrite IH. by destruct (Ascii.eqb c ",").
Qed.

Lemma filter_group_rev (k : nat) (ds : list ascii) :
  List.filter (λ c, negb (Ascii.eqb c ",")) (Py.group_rev k ds)
  = List.filter (λ c, negb (Ascii.eqb c ",")) ds.
Proof.
  revert k. induction ds as [|d ds IH]; intros k; [reflexivity|].
  cbn [Py.group_rev]. destruct (k =? 3)%nat.
  - cbn [List.filter Ascii.eqb Bool.eqb negb]. cbn. rewrite IH. reflexivity.
  - cbn [List.filter]. rewrite IH. reflexivity.
Qed.

Lemma filter_rev {A} (f : A → bool) (l : list A) :
  List.filter f (rev l) = rev (List.filter f l).
Proof.
  induction l as [|x l IH]; [reflexivity|]. cbn [rev List.filter].
  rewrite List.filter_app, IH. cbn [List.filter].
  destruct (f x); [reflexivity|]. by rewrite app_nil_r.
Qed.

Lemma filter_plain (s : string) :
  all_chars plain s = true →
  List.filter (λ c, negb (Ascii.eqb c ",")) (list_ascii_of_string s)
  = list_ascii_of_string s.
Proof.
  induction s as [|c s IH]; [reflexivity|].
  cbn [all_chars list_ascii_of_string List.filter].
  intros [Hc Hs]%andb_true_iff. rewrite (IH Hs).
  assert (Ascii.eqb c "," = false) as ->; [|reflexivity].
  destruct c as [[] [] [] [] [] [] [] []]; try reflexivity; discriminate Hc.
Qed.

Lemma without_commas_group (s : string) :
  all_chars plain s = true → without_commas (Py.group s) = s.
Proof.
  intros Hs. unfold Py.group.
  rewrite without_commas_list, filter_rev, filter_group_rev, filter_rev, rev_involutive.
  rewrite filter_plain by assumption. apply string_of_list_ascii_of_string.
Qed.

Lemma str_plain (z : Z) : all_chars plain (Py.str z) = true.
Proof.
  destruct z as [|p|p]; [reflexivity|..];
    unfold Py.str, pretty, pretty_Z, pretty, pretty_positive, pretty, pretty_N;
    rewrite decide_False by discriminate.
  - by apply pretty_N_go_plain.
  - change ("-" +:+ pretty_N_go (N.pos p) "")
      with (String "-" (pretty_N_go (N.pos p) "")).
    cbn [all_chars]. by rewrite pretty_N_go_plain.
Qed.

Lemma format_comma_without_commas (z : Z) :
  without_commas (Py.format_comma z) = Py.str z.
Proof.
  destruct z as [|p|p].
  - reflexivity.
  - unfold Py.format_comma. apply without_commas_group, str_plain.
  - unfold Py.format_comma.
    change ("-" +:+ Py.group (Py.str (Z.pos p)))
      with (String "-" (Py.group (Py.str (Z.pos p)))).
    cbn [without_commas Ascii.eqb Bool.eqb].
    rewrite without_commas_group by apply str_plain. reflexivity.
Qed.

Lemma format_product_inv (env : Env) (p p' : row) :
  format_product env p = Ok p' →
  ∃ id price_field price discount_field discount,
    p !! "id" = Some id
    ∧ p !! "price" = Some price_field ∧ Py.int price_field = Ok price
    ∧ p !! "discount" = Some discount_field ∧ Py.int discount_field = Ok discount
    ∧ p' = <["api_urls" := VObj (api_urls env id)]>
             (<["discount" := VStr (Py.str discount +:+ "%")]>
                (<["price" := VStr (Py.format_comma price +:+ "원")]> p)).
Proof.
  unfold format_product, Py.getitem, rbind.
  destruct (p !! "id") as [id|]; [|discriminate].
  destruct (p !! "price") as [price_field|]; [|discriminate].
  destruct (Py.int price_field) as [price|] eqn:Hprice; [|discriminate].
  rewrite lookup_insert_ne by discriminate.
  destruct (p !! "discount") as [discount_field|]; [|discriminate].
  destruct (Py.int discount_field) as [discount|] eqn:Hdiscount; [|discriminate].
  intros [= <-]. by eexists _, _, _, _, _.
Qed.

(** X12: the formatted price still determines the price.  In a row that
    formatted, the price is a text ending in the currency sign; without
    that sign and the commas it is [str] of the integer price, which [int]
    reads back; the discount is [str] of the integer discount followed by
    the percent sign. *)
Theorem format_product_price_round_trip (env : Env) (p p' : row) :
  format_product env p = Ok p' →
  ∃ (price discount : Z) (text : string) (price_field discount_field : value),
    p !! "price" = Some price_field ∧ Py.int price_field = Ok price
    ∧ p !! "discount" = Some discount_field ∧ Py.int discount_field = Ok discount
    ∧ p' !! "price" = Some (VStr (text +:+ "원"))
    ∧ without_commas text = Py.str price
    ∧ Py.int_of_str (without_commas text) = Some price
    ∧ p' !! "discount" = Some (VStr (Py.str discount +:+ "%")).
Proof.
  intros (id & price_field & price & discount_field & discount
          & _ & Hp & Hprice & Hd & Hdiscount & ->)%format_product_inv.
  exists price, discount, (Py.format_comma price), price_field, discount_field.
  repeat split; try assumption.
  - by rewrite lookup_insert_ne, lookup_insert_ne, lookup_insert_eq.
  - apply format_comma_without_commas.
  - rewrite format_comma_without_commas. apply int_of_str_str.
  - by rewrite lookup_insert_ne, lookup_insert_eq.
Qed.

Lemma format_product_price_round_trip_witness :
  ∃ text, without_commas text = "1234567"
          ∧ Py.int_of_str (without_commas text) = Some 1234567.
Proof.
  edestruct (format_product_price_round_trip Sample.env
               (<["price" := VStr " 1_234_567 "]> (Sample.product 3 "9")))
    as (price & discount & text & pf & df & Hpf & Hprice & _ & _ & _ & Htext & Hint & _);
    [reflexivity|].
  injection Hpf as <-. injection Hprice as <-.
  by exists text.
Defined.

(** ** Formatting twice *)

(** The bytes of a whitespace character after its first continue a
    UTF-8 sequence. *)
Lemma ws2_continuation (c1 c2 : ascii) :
  Py.ws2 c1 c2 = true → Py.continuation c2 = true.
Proof.
  unfold Py.ws2, Py.continuation.
  rewrite !andb_true_iff, orb_true_iff, !N.eqb_eq, N.leb_le, N.ltb_lt. lia.
Qed.

Lemma ws3_continuation (c1 c2 c3 : ascii) :
  Py.ws3 c1 c2 c3 = true → Py.continuation c2 = true ∧ Py.continuation c3 = true.
Proof.
  unfold Py.ws3, Py.continuation.
  rewrite !orb_true_iff, !andb_true_iff, !orb_true_iff, !andb_true_iff,
    !N.eqb_eq, !N.leb_le, !N.ltb_lt.
  lia.
Qed.

Lemma ws2_first_byte (c1 c2 : ascii) :
  Py.continuation c2 = false → Py.ws2 c1 c2 = false.
Proof.
  intros H. destruct (Py.ws2 c1 c2) eqn:E; [|reflexivity].
  apply ws2_continuation in E. congruence.
Qed.

Lemma ws3_first_byte_2 (c1 c2 c3 : ascii) :
  Py.continuation c2 = false → Py.ws3 c1 c2 c3 = false.
Proof.
  intros H. destruct (Py.ws3 c1 c2 c3) eqn:E; [|reflexivity].
  apply ws3_continuation in E as [E _]. congruence.
Qed.

Lemma ws3_first_byte_3 (c1 c2 c3 : ascii) :
  Py.continuation c3 = false → Py.ws3 c1 c2 c3 = false.
Proof.
  intros H. destruct (Py.ws3 c1 c2 c3) eqn:E; [|reflexivity].
  apply ws3_continuation in E as [_ E]. congruence.
Qed.

(** A text that [int] refuses from a certain character on is refused
    whatever comes before: the first byte of a character continues no
    sequence, so the characters before it are read as they stand. *)
Lemma to_ascii_app_None (s w : string) (c : ascii) :
  Py.continuation c = false →
  Py.to_ascii (String c w) = None →
  Py.to_ascii (s +:+ String c w) = None.
Proof.
  intros Hc Hw. induction s as [s IH] using (induction_ltof1 _ String.length).
  unfold ltof in IH.
  destruct s as [|c1 r1]; [exact Hw|].
  change (String c1 r1 +:+ String c w) with (String c1 (r1 +:+ String c w)).
  cbn [Py.to_ascii].
  destruct (Py.code c1 <? 127)%N; [by rewrite IH by (simpl; lia)|].
  destruct r1 as [|c2 r2].
  { change ("" +:+ String c w) with (String c w). lazy beta iota.
    rewrite ws2_first_byte, Hc, andb_false_r by assumption.
    destruct (Py.code c1 <? 224)%N; [reflexivity|].
    destruct w as [|c3 r3]; [reflexivity|].
    rewrite ws3_first_byte_2 by assumption. cbn [andb].
    destruct (Py.code c1 <? 240)%N; [reflexivity|by destruct r3]. }
  change (String c2 r2 +:+ String c w) with (String c2 (r2 +:+ String c w)).
  lazy beta iota.
  destruct (Py.ws2 c1 c2); [by rewrite IH by (simpl; lia)|].
  destruct (Py.code c1 <? 224)%N.
  { destruct (_ && _); [|reflexivity].
    destruct (Py.ascii_digit _); [|reflexivity].
    cbn [mbind option_bind]. by rewrite IH by (simpl; lia). }
  destruct r2 as [|c3 r3].
  { change ("" +:+ String c w) with (String c w). lazy beta iota.
    rewrite ws3_first_byte_3, Hc, andb_false_r by assumption.
    destruct (Py.code c1 <? 240)%N; [reflexivity|]. by destruct w. }
  change (String c3 r3 +:+ String c w) with (String c3 (r3 +:+ String c w)).
  lazy beta iota.
  destruct (Py.ws3 c1 c2 c3); [by rewrite IH by (simpl; lia)|].
  destruct (Py.code c1 <? 240)%N.
  { destruct (_ && _); [|reflexivity].
    destruct (Py.ascii_digit _); [|reflexivity].
    cbn [mbind option_bind]. by rewrite IH by (simpl; lia). }
  destruct r3 as [|c4 r4].
  { change ("" +:+ String c w) with (String c w). lazy beta iota.
    by rewrite Hc, andb_false_r. }
  change (String c4 r4 +:+ String c w) with (String c4 (r4 +:+ String c w)).
  lazy beta iota.
  destruct (_ && _); [|reflexivity].
  destruct (Py.ascii_digit _); [|reflexivity].
  cbn [mbind option_bind]. by rewrite IH by (simpl; lia).
Qed.

(** The currency sign is neither whitespace nor a digit: [int] refuses a
    formatted price, whatever its digits. *)
Lemma int_formatted_price (text : string) :
  Py.int (VStr (text +:+ "원")) = Raise ValueError.
Proof.
  unfold Py.int, Py.int_of_str.
  by rewrite (to_ascii_app_None text _ "236").
Qed.

Lemma format_product_twice (env : Env) (p p' : row) :
  format_product env p = Ok p' → format_product env p' = Raise ValueError.
Proof.
  intros (id & price_field & price & discount_field & discount
          & Hid & _ & _ & _ & _ & ->)%format_product_inv.
  unfold format_product, Py.getitem, rbind.
  rewrite !(lookup_insert_ne _ _ "id") by discriminate. rewrite Hid.
  rewrite (lookup_insert_ne _ "api_urls" "price") by discriminate.
  rewrite (lookup_insert_ne _ "discount" "price") by discriminate.
  rewrite lookup_insert_eq. by rewrite int_formatted_price.
Qed.

(** X13: [format_product_data] cannot be applied to its own result: a
    formatted price is no longer a number for [int], so formatting a
    non-empty list of rows that were already formatted raises
    [ValueError]. *)
Theorem format_product_data_twice (env : Env) (products formatted : list row) :
  format_product_data env products = Ok formatted →
  products ≠ [] →
  format_product_data env formatted = Raise ValueError.
Proof.
  intros Hfmt%format_product_data_Forall2 Hne.
  destruct Hfmt as [|p p' l l' Hp _]; [done|].
  cbn [format_product_data]. unfold rbind.
  by rewrite (format_product_twice env p p' Hp).
Qed.

Lemma format_product_data_twice_witness :
  ∃ formatted,
    format_product_data Sample.env [Sample.product 3 "9"] = Ok formatted
    ∧ format_product_data Sample.env formatted = Raise ValueError.
Proof.
  destruct (format_product_data Sample.env [Sample.product 3 "9"])
    as [formatted|] eqn:Hfmt; [|discriminate Hfmt].
  exists formatted. split; [reflexivity|].
  by apply (format_product_data_twice Sample.env [Sample.product 3 "9"]).
Defined.

(** ** The store's ordering *)

Lemma place_Permutation (after : row → row → bool) (x : row) (l : list row) :
  Sql.place after x l ≡ₚ x :: l.
Proof.
  induction l as [|y l IH]; [reflexivity|]. cbn [Sql.place].
  destruct (after x y); [|reflexivity].
  rewrite IH. apply Permutation_swap.
Qed.

Lemma order_by_Permutation (c : string) (desc : bool) (l : list row) :
  Sql.order_by c desc l ≡ₚ l.
Proof.
  unfold Sql.order_by. induction l as [|x l IH]; [reflexivity|].
  cbn [foldr]. rewrite place_Permutation. by rewrite IH.
Qed.

Lemma order_by_length (c : string) (desc : bool) (l : list row) :
  List.length (Sql.order_by c desc l) = List.length l.
Proof. apply Permutation_length, order_by_Permutation. Qed.

Lemma order_by_In (c : string) (desc : bool) (l : list row) (x : row) :
  In x (Sql.order_by c desc l) ↔ In x l.
Proof.
  rewrite <- !list_elem_of_In. by rewrite order_by_Permutation.
Qed.

(** ** The listing endpoints only read *)

Section Listing.

Variable env : Env.

Context {X : Type} (f : store → X).

Hypothesis f_select :
  ∀ q c s, req_verb q = Select c → f (execute env q s).1 = f s.

Hypothesis f_range :
  ∀ q c first last s,
    req_verb q = Select c → f (execute_range env q first last s).1 = f s.

Ltac preserves_step :=
  first
    [ apply preserves_ret
    | apply preserves_raise
    | apply preserves_lift
    | eapply (preserves_select env f f_select); reflexivity
    | apply preserves_bind; [|intros ?]
    | match goal with
      | |- preserves _ (match ?x with _ => _ end) => destruct x
      | |- preserves _ (if ?x then _ else _) => destruct x
      end ].

Lemma preserves_reraise_500 {A} (m : M A) :
  preserves f m → preserves f (reraise_500 env m).
Proof. intros Hm s. rewrite reraise_500_store. apply Hm. Qed.

Lemma preserves_reraise_http {A} (m : M A) :
  preserves f m → preserves f (reraise_http env m).
Proof. intros Hm s. rewrite reraise_http_store. apply Hm. Qed.

Lemma preserves_get_products (offset limit : Z) (category : option string) :
  preserves f (get_products env offset limit category).
Proof.
  apply preserves_reraise_500, preserves_bind; [|intros ?; repeat preserves_step].
  intros s. eapply f_range. unfold products_query.
  destruct category as [c|]; [destruct (_ && _)|]; reflexivity.
Qed.

Lemma preserves_get_all_products : preserves f (get_all_products env).
Proof. apply preserves_reraise_500. repeat preserves_step. Qed.

Lemma preserves_get_product (product_id : Z) : preserves f (get_product env product_id).
Proof. apply preserves_reraise_http. repeat preserves_step. Qed.

Lemma preserves_get_user_cart_and_favorites (user_id : Z) :
  preserves f (get_user_cart_and_favorites env user_id).
Proof. apply preserves_reraise_500. repeat preserves_step. Qed.

Lemma preserves_get_favorite_products : preserves f (get_favorite_products env).
Proof. apply preserves_reraise_500. repeat preserves_step. Qed.

Lemma preserves_get_cart_items (user_id : option Z) :
  preserves f (get_cart_items env user_id).
Proof.
  apply preserves_reraise_500, preserves_bind; [|intros ?; repeat preserves_step].
  eapply (preserves_select env f f_select). unfold cart_items_query.
  destruct user_id as [u|]; [destruct (Py.truthy_opt _)|]; reflexivity.
Qed.

Lemma preserves_get_recent_viewed_products (user_id limit : Z) :
  preserves f (get_recent_viewed_products env user_id limit).
Proof. apply preserves_reraise_500. repeat preserves_step. Qed.

Lemma preserves_get_popular_search_terms (limit : Z) :
  preserves f (get_popular_search_terms env limit).
Proof. apply preserves_reraise_500. repeat preserves_step. Qed.

Lemma preserves_search_products (q : string) : preserves f (search_products env q).
Proof. apply preserves_reraise_500. unfold search_products. repeat preserves_step. Qed.

Lemma preserves_get_products_ranking : preserves f (get_products_ranking env).
Proof. apply preserves_reraise_500. repeat preserves_step. Qed.

End Listing.

Lemma db_range (env : Env) (q : request) (c : columns) (first last : Z) (s : store) :
  req_verb q = Select c → db (execute_range env q first last s).1 = db s.
Proof. intros Hq. unfold execute_range, run. rewrite Hq. reflexivity. Qed.

Lemma writes_range (env : Env) (q : request) (c : columns) (first last : Z) (s : store) :
  req_verb q = Select c → writes (execute_range env q first last s).1 = writes s.
Proof.
  intros Hq. unfold execute_range, run, writes. rewrite Hq. cbn [fst log].
  rewrite List.filter_app. cbn [List.filter]. unfold is_write at 2. rewrite Hq.
  apply app_nil_r.
Qed.

(** X14: none of the listing endpoints changes a table or sends the store
    a write, whatever its parameters and however it ends: every request
    they send is a [select]. *)
Theorem listing_endpoints_read_only (env : Env) :
  (∀ offset limit category, reads_only (get_products env offset limit category))
  ∧ reads_only (get_all_products env)
  ∧ (∀ product_id, reads_only (get_product env product_id))
  ∧ (∀ user_id, reads_only (get_user_cart_and_favorites env user_id))
  ∧ reads_only (get_favorite_products env)
  ∧ (∀ user_id, reads_only (get_cart_items env user_id))
  ∧ (∀ user_id limit, reads_only (get_recent_viewed_products env user_id limit))
  ∧ (∀ limit, reads_only (get_popular_search_terms env limit))
  ∧ (∀ q, reads_only (search_products env q))
  ∧ reads_only (get_products_ranking env).
Proof.
  pose proof (db_select env) as Hd. pose proof (writes_select env) as Hw.
  pose proof (db_range env) as Hdr. pose proof (writes_range env) as Hwr.
  unfold reads_only.
  split; [intros; split; by apply preserves_get_products|].
  split; [split; by apply preserves_get_all_products|].
  split; [intros; split; by apply preserves_get_product|].
  split; [intros; split; by apply preserves_get_user_cart_and_favorites|].
  split; [split; by apply preserves_get_favorite_products|].
  split; [intros; split; by apply preserves_get_cart_items|].
  split; [intros; split; by apply preserves_get_recent_viewed_products|].
  split; [intros; split; by apply preserves_get_popular_search_terms|].
  split; [intros; split; by apply preserves_search_products|].
  split; by apply preserves_get_products_ranking.
Qed.

(** ** The listing endpoints: what they return *)

Section ListingResults.

Variable env : Env.

Lemma reraise_500_result {A} (m : M A) (s : store) :
  (reraise_500 env m s).2
  = match (m s).2 with
    | Ok a => Ok a
    | Raise e => Raise (HTTPException 500 (exc_str env e))
    end.
Proof. unfold reraise_500. by destruct (m s) as [s' [a|e]]. Qed.

Lemma bind_format_result (rows : list row) (s : store) :
  match (bind (lift (format_product_data env rows))
              (λ formatted, ret (create_standard_response env
                                   (VList (VObj <$> formatted)) "Success")) s).2 with
  | Ok a => Ok a
  | Raise e => Raise (HTTPException 500 (exc_str env e))
  end = listing env rows.
Proof.
  unfold listing. destruct (format_product_data env rows) as [formatted|e] eqn:H.
  - by rewrite (bind_lift_ok _ formatted).
  - by rewrite (bind_lift_raise _ e).
Qed.



Lemma selected_favorite (r : row) :
  selected env [Eq "is_favorite" (VBool true)] r = is_favorite_row r.
Proof. unfold selected, is_favorite_row. simpl. apply andb_true_r. Qed.

Lemma get_favorite_products_result (st : store) :
  (get_favorite_products env st).2
  = listing env (Sql.order_by "created_at" true
                   (List.filter is_favorite_row (products (db st)))).
Proof.
  unfold get_favorite_products. rewrite reraise_500_result, bind_execute.
  unfold run. build_request. cbn [rows_of fst snd project].
  rewrite (List.filter_ext _ _ selected_favorite), list_fmap_id.
  apply bind_format_result.
Qed.

Lemma get_products_ranking_listing (st : store) :
  (get_products_ranking env st).2
  = listing env (take 20 (Sql.order_by "likes" true (products (db st)))).
Proof. apply get_products_ranking_result. Qed.

Lemma listing_Ok (rows : list row) (resp : Response) :
  listing env rows = Ok resp →
  ∃ formatted,
    Forall2 (λ p p', format_product env p = Ok p') rows formatted
    ∧ resp = create_standard_response env (VList (VObj <$> formatted)) "Success".
Proof.
  unfold listing.
  destruct (format_product_data env rows) as [formatted|e] eqn:H; [|discriminate].
  intros [= <-]. exists formatted. split; [|reflexivity].
  by apply format_product_data_Forall2.
Qed.


End ListingResults.






(** X16: [GET /products/{id}] answers 404 when no product has the id.
    When one has it, formats, and carries the two names the log line
    reads, the answer is that row formatted; a row that formats but lacks
    [brand_name] is answered with 500. *)
Theorem get_product_found_or_404 (env : Env) (product_id : Z) (st : store) :
  (find (has_id product_id) (products (db st)) = None →
   (get_product env product_id st).2
   = Raise (HTTPException 404 "상품을 찾을 수 없습니다"))
  ∧ (∀ p p', find (has_id product_id) (products (db st)) = Some p →
             format_product env p = Ok p' →
             is_Some (p !! "brand_name") → is_Some (p !! "product_name") →
             (get_product env product_id st).2
             = Ok (create_standard_response env (VObj p') "Success"))
  ∧ (∀ p p', find (has_id product_id) (products (db st)) = Some p →
             format_product env p = Ok p' →
             p !! "brand_name" = None →
             (get_product env product_id st).2
             = Raise (HTTPException 500 (exc_str env (KeyError "brand_name")))).
Proof.
  assert (∀ p p' k, format_product env p = Ok p' →
                    k = "brand_name" ∨ k = "product_name" → p' !! k = p !! k) as Hkeep.
  { intros p p' k (id & pf & price & df & discount & _ & _ & _ & _ & _ & ->)%format_product_inv
      [-> | ->]; by rewrite !lookup_insert_ne. }
  unfold get_product. rewrite reraise_http_result, bind_execute.
  unfold run. build_request. cbn [rows_of fst snd].
  rewrite (List.filter_ext _ _ (selected_id env product_id)).
  split; [|split].
  - intros Hfind. by rewrite (filter_find_None _ _ Hfind).
  - intros p p' Hfind Hfmt [brand Hbrand] [name Hname].
    destruct (filter_find_Some _ _ _ Hfind) as [rest ->].
    cbn [fmap list_fmap project].
    rewrite format_product_data_one, Hfmt.
    rewrite (bind_lift_ok _ [p']) by reflexivity. cbn [hd].
    rewrite (bind_lift_ok _ brand)
      by (unfold Py.getitem; rewrite (Hkeep p p') by auto; by rewrite Hbrand).
    rewrite (bind_lift_ok _ name)
      by (unfold Py.getitem; rewrite (Hkeep p p') by auto; by rewrite Hname).
    reflexivity.
  - intros p p' Hfind Hfmt Hbrand.
    destruct (filter_find_Some _ _ _ Hfind) as [rest ->].
    cbn [fmap list_fmap project].
    rewrite format_product_data_one, Hfmt.
    rewrite (bind_lift_ok _ [p']) by reflexivity. cbn [hd].
    rewrite (bind_lift_raise _ (KeyError "brand_name"))
      by (unfold Py.getitem; rewrite (Hkeep p p') by auto; by rewrite Hbrand).
    reflexivity.
Qed.

Lemma get_product_found_or_404_witness :
  (get_product Sample.env 4 Sample.shop).2
  = Ok (create_standard_response Sample.env (VObj (formatted_sample 4 "10")) "Success")
  ∧ (get_product Sample.env 5 Sample.shop).2
    = Raise (HTTPException 404 "상품을 찾을 수 없습니다").
Proof.
  destruct (get_product_found_or_404 Sample.env 4 Sample.shop) as (_ & Hfound & _).
  destruct (get_product_found_or_404 Sample.env 5 Sample.shop) as (Hmissing & _).
  split; [|by apply Hmissing].
  apply (Hfound (Sample.product 4 "10")); [reflexivity|reflexivity|by eexists..].
Defined.

Lemma format_product_keeps (env : Env) (p p' : row) (k : string) :
  format_product env p = Ok p' →
  k ≠ "price" → k ≠ "discount" → k ≠ "api_urls" → p' !! k = p !! k.
Proof.
  intros (id & pf & price & df & discount & _ & _ & _ & _ & _ & ->)%format_product_inv
    H1 H2 H3.
  by rewrite !lookup_insert_ne.
Qed.

Lemma is_favorite_row_lookup (r : row) :
  is_favorite_row r = true → r !! "is_favorite" = Some (VBool true).
Proof.
  unfold is_favorite_row, Sql.column.
  destruct (r !! "is_favorite") as [[| [] | | | |]|]; try discriminate. done.
Qed.

Lemma Forall2_image {A B} (R : A → B → Prop) (Q : B → Prop) (l : list A) (k : list B) :
  Forall2 R l k → (∀ x y, In x l → R x y → Q y) → Forall Q k.
Proof.
  induction 1 as [|x y l k Hxy _ IH]; intros HQ; constructor.
  - apply (HQ x y); [by left|assumption].
  - apply IH. intros x' y' Hin. apply HQ. by right.
Qed.

(** X17: [GET /products-favorites] lists favorites only, and all of them.
    When it answers, every product of the answer carries
    [is_favorite = true], and there are as many as there are rows with
    that flag in the table. *)
Theorem get_favorite_products_only_favorites (env : Env) (st : store) (resp : Response) :
  (get_favorite_products env st).2 = Ok resp →
  ∃ formatted : list row,
    body_field resp "data" = Some (VList (VObj <$> formatted))
    ∧ Forall (λ p', p' !! "is_favorite" = Some (VBool true)) formatted
    ∧ List.length formatted
      = List.length (List.filter is_favorite_row (products (db st))).
Proof.
  rewrite get_favorite_products_result.
  intros (formatted & Hfmt & ->)%listing_Ok.
  exists formatted. split; [reflexivity|]. split.
  - apply (Forall2_image _ _ _ _ Hfmt).
    intros p p' [_ Hfav]%order_by_In%List.filter_In Hpp'.
    rewrite (format_product_keeps env p p') by done.
    by apply is_favorite_row_lookup.
  - rewrite <- (Forall2_length _ _ _ Hfmt). apply order_by_length.
Qed.

Lemma get_favorite_products_only_favorites_witness :
  let st := (unified_product_api Sample.env "favorite" 4 1 1 Sample.shop).1 in
  ∃ resp formatted,
    (get_favorite_products Sample.env st).2 = Ok resp
    ∧ body_field resp "data" = Some (VList (VObj <$> formatted))
    ∧ List.length formatted = 1%nat.
Proof.
  intros st.
  destruct (get_favorite_products Sample.env st).2 as [resp|] eqn:Hresp;
    [|by vm_compute in Hresp].
  destruct (get_favorite_products_only_favorites Sample.env st resp Hresp)
    as (formatted & Hdata & _ & Hlen).
  exists resp, formatted. split; [reflexivity|]. split; [exact Hdata|].
  rewrite Hlen. vm_compute. reflexivity.
Defined.

Lemma popular_terms_length : List.length popular_terms = 10%nat.
Proof. unfold popular_terms. by rewrite length_fmap. Qed.

(** X18: [GET /popular-search-terms] never touches the store.  It answers
    with the first [limit] of its ten terms: all ten when [limit] is 10 or
    more, none when it is 0, and, [limit] being a slice bound, all but the
    last [-limit] when it is negative. *)
Theorem get_popular_search_terms_slice (env : Env) (limit : Z) (st : store) :
  ∃ result : list row,
    get_popular_search_terms env limit st
    = (st, Ok (create_standard_response env (VList (VObj <$> result)) "Success"))
    ∧ result `prefix_of` popular_terms
    ∧ Z.of_nat (List.length result)
      = if 0 <=? limit then Z.min limit 10 else Z.max 0 (10 + limit).
Proof.
  exists (slice_to limit popular_terms). split; [reflexivity|].
  unfold slice_to. destruct (Z.leb_spec 0 limit).
  - split; [apply prefix_take|]. rewrite length_take, popular_terms_length. lia.
  - split; [apply prefix_take|]. rewrite length_take, popular_terms_length. lia.
Qed.

(** X19: [GET /products-ranking] answers with twenty products when the
    table has that many, and with all of them otherwise. *)
Theorem get_products_ranking_size (env : Env) (st : store) (resp : Response) :
  (get_products_ranking env st).2 = Ok resp →
  ∃ formatted : list row,
    body_field resp "data" = Some (VList (VObj <$> formatted))
    ∧ List.length formatted = Nat.min 20 (List.length (products (db st))).
Proof.
  rewrite get_products_ranking_listing.
  intros (formatted & Hfmt & ->)%listing_Ok.
  exists formatted. split; [reflexivity|].
  rewrite <- (Forall2_length _ _ _ Hfmt), length_take. by rewrite order_by_length.
Qed.

Lemma get_products_ranking_size_witness :
  ∃ resp formatted,
    (get_products_ranking Sample.env Sample.shop).2 = Ok resp
    ∧ body_field resp "data" = Some (VList (VObj <$> formatted))
    ∧ List.length formatted = 2%nat.
Proof.
  destruct (get_products_ranking Sample.env Sample.shop).2 as [resp|] eqn:Hresp;
    [|by vm_compute in Hresp].
  destruct (get_products_ranking_size Sample.env Sample.shop resp Hresp)
    as (formatted & Hdata & Hlen).
  exists resp, formatted. split; [reflexivity|]. split; [exact Hdata|].
  rewrite Hlen. reflexivity.
Defined.



(** ** The cart listings *)

Section CartListings.

Variable env : Env.

Lemma cart_entry_fields (item entry : row) :
  cart_entry env item = Ok (Some entry) →
  entry !! "quantity" = item !! "quantity"
  ∧ entry !! "user_id" = item !! "user_id"
  ∧ entry !! "cart_item_id" = item !! "id"
  ∧ ∃ p p', item !! "products" = Some (VObj p) ∧ format_product env p = Ok p'
            ∧ entry !! "product" = Some (VObj p').
Proof.
  unfold cart_entry, Py.getitem, Py.get, rbind.
  destruct (item !! "products") as [v|]; [|discriminate].
  destruct (Py.truthy v); [|discriminate].
  destruct v as [| | | | |p]; try discriminate.
  rewrite format_product_data_one.
  destruct (format_product env p) as [p'|e] eqn:Hp; [|discriminate].
  destruct (item !! "id") as [id|]; [|discriminate].
  destruct (item !! "quantity") as [quantity|]; [|discriminate].
  destruct (item !! "user_id") as [user_id|]; [|discriminate].
  intros [= <-]. repeat split; try reflexivity. by exists p, p'.
Qed.

Lemma cart_entries_items (data entries : list row) :
  cart_entries env data = Ok entries →
  Forall (λ entry, ∃ item, In item data ∧ cart_entry env item = Ok (Some entry)) entries
  ∧ (List.length entries ≤ List.length data)%nat.
Proof.
  revert entries. induction data as [|item data IH]; intros entries.
  - intros [= <-]. split; [constructor|reflexivity].
  - cbn [cart_entries]. unfold rbind.
    destruct (cart_entry env item) as [entry|e] eqn:Hitem; [|discriminate].
    destruct (cart_entries env data) as [rest|e]; [|discriminate].
    destruct (IH rest eq_refl) as [Hrest Hlen].
    assert (Forall (λ entry, ∃ item', In item' (item :: data)
                                      ∧ cart_entry env item' = Ok (Some entry)) rest)
      as Hrest'.
    { eapply Forall_impl; [exact Hrest|]. intros x (i & Hi & Hx). exists i.
      split; [by right|assumption]. }
    intros [= <-]. destruct entry as [entry|].
    + split; [|cbn; lia]. constructor; [|assumption].
      exists item. split; [by left|assumption].
    + split; [assumption|cbn; lia].
Qed.

Lemma selected_user_in_cart (u : Z) (r : row) :
  selected env [Gt "quantity" 0; Eq "user_id" (VInt u)] r
  = in_cart_row r && is_user_row u r.
Proof.
  unfold selected, in_cart_row, is_user_row. simpl.
  rewrite andb_true_r. by destruct (Sql.column "quantity" r).
Qed.

Lemma is_user_row_lookup (u : Z) (r : row) :
  is_user_row u r = true → r !! "user_id" = Some (VInt u).
Proof.
  unfold is_user_row, Sql.column.
  destruct (r !! "user_id") as [[| |z| | |]|]; try discriminate. cbn.
  by intros ->%Z.eqb_eq.
Qed.

(** The rows [GET /cart-items] reads, before the products are embedded. *)
Lemma get_cart_items_rows (user_id : option Z) (st : store) :
  ∃ rows,
    (run env (db st) (cart_items_query user_id)).2
    = project (db st) AllWithProducts <$> rows
    ∧ Forall (λ r, in_cart_row r = true
                   ∧ ∀ u, user_id = Some u → u ≠ 0 → is_user_row u r = true) rows
    ∧ (List.length rows ≤ List.length (List.filter in_cart_row (cart_items (db st))))%nat.
Proof.
  unfold cart_items_query.
  destruct user_id as [u|]; [cbn [Py.truthy_opt Py.truthy]; destruct (Z.eqb_spec u 0)|].
  - subst u. eexists. split; [reflexivity|]. cbn [negb]. build_request.
    cbn [rows_of]. rewrite (List.filter_ext _ _ (selected_gt_quantity env)).
    split; [|by rewrite order_by_length].
    apply List.Forall_forall. intros r [_ Hr]%order_by_In%List.filter_In.
    split; [assumption|]. by intros ? [= <-].
  - eexists. split; [reflexivity|]. cbn [negb]. build_request.
    cbn [rows_of]. rewrite (List.filter_ext _ _ (selected_user_in_cart u)).
    split.
    + apply List.Forall_forall.
      intros r [_ [Hq Hu]%andb_true_iff]%order_by_In%List.filter_In.
      split; [assumption|]. by intros ? [= <-].
    + rewrite order_by_length. clear.
      induction (cart_items (db st)) as [|r l IH]; [reflexivity|].
      cbn [List.filter]. destruct (in_cart_row r); cbn [andb].
      * destruct (is_user_row u r); cbn; lia.
      * assumption.
  - eexists. split; [reflexivity|]. build_request.
    cbn [rows_of]. rewrite (List.filter_ext _ _ (selected_gt_quantity env)).
    split; [|by rewrite order_by_length].
    apply List.Forall_forall. intros r [_ Hr]%order_by_In%List.filter_In.
    split; [assumption|]. discriminate.
Qed.

End CartListings.

(** X21: when [GET /cart-items] answers, every entry of the answer comes
    from a cart row with [quantity > 0] and reports that quantity; with a
    [user_id] other than 0, every entry is of that user; and there are no
    more entries than rows in the cart (rows whose product is gone are
    left out without a word). *)
Theorem get_cart_items_entries (env : Env) (user_id : option Z) (st : store)
    (resp : Response) :
  (get_cart_items env user_id st).2 = Ok resp →
  ∃ entries : list row,
    body_field resp "data" = Some (VList (VObj <$> entries))
    ∧ Forall (λ entry, ∃ z, entry !! "quantity" = Some (VInt z) ∧ 0 < z) entries
    ∧ (∀ u, user_id = Some u → u ≠ 0 →
            Forall (λ entry, entry !! "user_id" = Some (VInt u)) entries)
    ∧ (List.length entries
       ≤ List.length (List.filter in_cart_row (cart_items (db st))))%nat.
Proof.
  unfold get_cart_items. rewrite reraise_500_result, bind_execute.
  destruct (get_cart_items_rows env user_id st) as (rows & -> & Hrows & Hlen).
  destruct (cart_entries env (project (db st) AllWithProducts <$> rows))
    as [entries|e] eqn:Hentries;
    [rewrite (bind_lift_ok _ entries) by reflexivity
    |by rewrite (bind_lift_raise _ e)].
  intros [= <-]. exists entries. split; [reflexivity|].
  apply cart_entries_items in Hentries as [Hitems Hle].
  rewrite length_fmap in Hle.
  assert (∀ entry, entry ∈ entries →
            ∃ r, r ∈ rows ∧ entry !! "quantity" = r !! "quantity"
                 ∧ entry !! "user_id" = r !! "user_id") as Hfrom.
  { intros entry Hentry. rewrite Forall_forall in Hitems.
    destruct (Hitems entry Hentry) as (item & Hitem & Hfields).
    apply list_elem_of_In, list_elem_of_fmap in Hitem as (r & -> & Hr).
    apply cart_entry_fields in Hfields as (Hq & Hu & _).
    exists r. split; [assumption|]. cbn [project] in Hq, Hu.
    by rewrite lookup_insert_ne in Hq, Hu. }
  rewrite Forall_forall in Hrows.
  split; [|split; [|lia]].
  - apply Forall_forall. intros entry (r & Hr & -> & _)%Hfrom.
    destruct (Hrows r Hr) as [Hq _]. by apply in_cart_row_quantity.
  - intros u Hu Hne. apply Forall_forall. intros entry (r & Hr & _ & ->)%Hfrom.
    destruct (Hrows r Hr) as [_ Huser]. by apply is_user_row_lookup, Huser.
Qed.

Lemma get_cart_items_entries_witness :
  ∃ resp entries,
    (get_cart_items Sample.env (Some 7) Sample.shop_with_cart).2 = Ok resp
    ∧ body_field resp "data" = Some (VList (VObj <$> entries))
    ∧ Forall (λ entry, entry !! "user_id" = Some (VInt 7)) entries.
Proof.
  destruct (get_cart_items Sample.env (Some 7) Sample.shop_with_cart).2
    as [resp|] eqn:Hresp; [|by vm_compute in Hresp].
  destruct (get_cart_items_entries Sample.env (Some 7) Sample.shop_with_cart resp Hresp)
    as (entries & Hdata & _ & Huser & _).
  exists resp, entries. split; [reflexivity|]. split; [exact Hdata|].
  by apply Huser.
Defined.

(** ** [GET /cart-items] without a user *)

Lemma filter_Permutation {A} (f : A → bool) (l l' : list A) :
  l ≡ₚ l' → List.filter f l ≡ₚ List.filter f l'.
Proof.
  induction 1 as [|x l l' _ IH|x y l|l l' l'' _ IH _ IH'].
  - reflexivity.
  - cbn [List.filter]. destruct (f x); [by constructor|assumption].
  - cbn [List.filter]. destruct (f x), (f y); try reflexivity. constructor.
  - by etrans.
Qed.

Lemma filter_filter_and {A} (f g : A → bool) (l : list A) :
  List.filter g (List.filter f l) = List.filter (λ x, f x && g x) l.
Proof.
  induction l as [|x l IH]; [reflexivity|]. cbn [List.filter].
  destruct (f x); cbn [List.filter andb]; [|assumption].
  destruct (g x); by rewrite IH.
Qed.

Section CartEntries.

Variable env : Env.
Variable d : tables.

(** The loop of [get_cart_items] on one row of the answer. *)
Lemma cart_entry_project (r : row) :
  match cart_entry env (project d AllWithProducts r) with
  | Ok (Some entry) => has_product d r = true ∧ cart_entry_of env d r entry
  | Ok None => has_product d r = false
  | Raise e => has_product d r = true ∧ ∀ entry, ¬ cart_entry_of env d r entry
  end.
Proof.
  unfold cart_entry, has_product, cart_entry_of, Py.get, Py.getitem, rbind.
  cbn [project]. rewrite lookup_insert_eq.
  rewrite !lookup_insert_ne by discriminate.
  destruct (Py.truthy (embed_product d r)) eqn:Htruthy; [|reflexivity].
  destruct (embed_product d r) as [| | | | |p] eqn:Hembed;
    try (split; [reflexivity|]; by intros ? (? & ? & ? & ? & ? & _ & _ & _ & ? & _)).
  rewrite format_product_data_one.
  destruct (format_product env p) as [p'|e] eqn:Hp.
  2:{ split; [reflexivity|].
      intros ? (? & ? & ? & q & q' & _ & _ & _ & [= <-] & Hq & _). congruence. }
  destruct (r !! "id") as [id|] eqn:Hid.
  2:{ split; [reflexivity|]. by intros ? (? & ? & ? & ? & ? & ? & _). }
  destruct (r !! "quantity") as [quantity|] eqn:Hquantity.
  2:{ split; [reflexivity|]. by intros ? (? & ? & ? & ? & ? & _ & ? & _). }
  destruct (r !! "user_id") as [user_id|] eqn:Huser.
  2:{ split; [reflexivity|]. by intros ? (? & ? & ? & ? & ? & _ & _ & ? & _). }
  split; [reflexivity|]. by exists id, quantity, user_id, p, p'.
Qed.

Lemma cart_entries_project (rows entries : list row) :
  cart_entries env (project d AllWithProducts <$> rows) = Ok entries →
  Forall2 (cart_entry_of env d) (List.filter (has_product d) rows) entries.
Proof.
  revert entries. induction rows as [|r rows IH]; intros entries.
  - intros [= <-]. constructor.
  - cbn [fmap list_fmap cart_entries List.filter]. unfold rbind.
    pose proof (cart_entry_project r) as Hr.
    destruct (cart_entry env (project d AllWithProducts r)) as [[entry|]|e];
      [| |discriminate].
    + destruct Hr as [-> Hentry].
      destruct (cart_entries env _) as [rest|e]; [|discriminate].
      intros [= <-]. constructor; [assumption|by apply IH].
    + rewrite Hr. destruct (cart_entries env _) as [rest|e]; [|discriminate].
      intros [= <-]. by apply IH.
Qed.

Lemma cart_entries_project_Ok (rows : list row) :
  (∀ r, r ∈ rows → has_product d r = true → ∃ entry, cart_entry_of env d r entry) →
  ∃ entries, cart_entries env (project d AllWithProducts <$> rows) = Ok entries.
Proof.
  induction rows as [|r rows IH]; intros Hall; [by exists []|].
  cbn [fmap list_fmap cart_entries]. unfold rbind.
  destruct IH as [rest ->]; [intros r' Hr'; apply Hall; by right|].
  pose proof (cart_entry_project r) as Hr.
  destruct (cart_entry env (project d AllWithProducts r)) as [[entry|]|e]; [eauto..|].
  destruct Hr as [Hlive Hnone].
  destruct (Hall r) as [entry Hentry]; [by left|assumption|].
  by destruct (Hnone entry).
Qed.

End CartEntries.

(** What [GET /cart-items] returns for the rows the store selected. *)
Lemma get_cart_items_result (env : Env) (user_id : option Z) (st : store) :
  (get_cart_items env user_id st).2
  = match cart_entries env (run env (db st) (cart_items_query user_id)).2 with
    | Ok entries =>
        Ok (create_standard_response env (VList (VObj <$> entries)) "Success")
    | Raise e => Raise (HTTPException 500 (exc_str env e))
    end.
Proof.
  unfold get_cart_items. rewrite reraise_500_result, bind_execute.
  destruct (cart_entries env _) as [entries|e];
    [by rewrite (bind_lift_ok _ entries)|by rewrite (bind_lift_raise _ e)].
Qed.

(** C10: with [user_id = 0] the handler does what it does without a
    [user_id].  It sends the store one request, which filters on
    [quantity > 0] and on nothing else, and changes no table.  When it
    answers, its entries are those of the cart rows with [quantity > 0]
    whose product exists, of every user, each row giving one entry; and
    it answers whenever each of these rows has an entry, that is, carries
    an id and a user and has a product that formats. *)
Theorem get_cart_items_user_0 (env : Env) (st : store) :
  get_cart_items env (Some 0) st = get_cart_items env None st
  ∧ log (get_cart_items env (Some 0) st).1
    = (log st ++ [CartItems |> Query.select AllWithProducts
                    |> Query.gt "quantity" 0
                    |> Query.order "created_at" true])%list
  ∧ db (get_cart_items env (Some 0) st).1 = db st
  ∧ (∀ resp, (get_cart_items env (Some 0) st).2 = Ok resp →
       ∃ rows entries : list row,
         body_field resp "data" = Some (VList (VObj <$> entries))
         ∧ rows ≡ₚ List.filter (λ r, in_cart_row r && has_product (db st) r)
                               (cart_items (db st))
         ∧ Forall2 (cart_entry_of env (db st)) rows entries)
  ∧ ((∀ r, r ∈ cart_items (db st) → in_cart_row r = true →
           has_product (db st) r = true →
           ∃ entry, cart_entry_of env (db st) r entry) →
     ∃ resp, (get_cart_items env (Some 0) st).2 = Ok resp).
Proof.
  split; [reflexivity|].
  assert ((run env (db st) (cart_items_query (Some 0))).2
          = project (db st) AllWithProducts
              <$> Sql.order_by "created_at" true
                    (List.filter in_cart_row (cart_items (db st)))) as Hrun.
  { unfold run. simpl.
    by rewrite (List.filter_ext _ _ (selected_gt_quantity env)). }
  split; [|split; [|split]].
  - unfold get_cart_items. rewrite reraise_500_store.
    rewrite bind_execute. cbn [Py.truthy_opt].
    unfold bind, lift. by destruct (cart_entries env _).
  - unfold get_cart_items. rewrite reraise_500_store.
    rewrite bind_execute.
    unfold bind, lift. by destruct (cart_entries env _).
  - intros resp. rewrite get_cart_items_result, Hrun.
    destruct (cart_entries env _) as [entries|e] eqn:Hentries; [|discriminate].
    intros [= <-].
    eexists _, entries. split; [reflexivity|].
    split; [|by apply cart_entries_project].
    rewrite <- filter_filter_and.
    apply filter_Permutation, order_by_Permutation.
  - intros Hall. rewrite get_cart_items_result, Hrun.
    destruct (cart_entries_project_Ok env (db st)
                (Sql.order_by "created_at" true
                   (List.filter in_cart_row (cart_items (db st))))) as [entries ->].
    + intros r [Hr Hq]%list_elem_of_In%order_by_In%List.filter_In.
      apply Hall; [by apply list_elem_of_In|assumption].
    + eauto.
Qed.

Lemma get_cart_items_user_0_witness :
  ∃ resp, (get_cart_items Sample.env (Some 0) Sample.shop_with_cart).2 = Ok resp.
Proof.
  apply (get_cart_items_user_0 Sample.env Sample.shop_with_cart).
  intros r Hr%list_elem_of_In Hq _.
  destruct Hr as [<-|[<-|[]]]; [discriminate Hq|].
  unfold cart_entry_of. eexists _, _, _, _, _, _.
  repeat split; reflexivity.
Defined.

(** The rows of user 7 are listed for [user_id = 0]. *)
Example get_cart_items_user_0_lists_user_7 :
  ∃ (resp : Response) (entry : row),
    (get_cart_items Sample.env (Some 0) Sample.shop_with_cart).2 = Ok resp
    ∧ body_field resp "data" = Some (VList [VObj entry])
    ∧ entry !! "user_id" = Some (VInt 7)
    ∧ entry !! "quantity" = Some (VInt 2).
Proof. eexists _, _. repeat split; reflexivity. Qed.

(** ** [GET /user/cart-and-favorites] *)

Lemma user_cart_entry_fields (env : Env) (item entry : row) :
  user_cart_entry env item = Ok (Some entry) →
  entry !! "quantity" = item !! "quantity"
  ∧ entry !! "cart_item_id" = item !! "id".
Proof.
  unfold user_cart_entry, Py.getitem, Py.get, rbind.
  destruct (item !! "products") as [v|]; [|discriminate].
  destruct (Py.truthy v); [|discriminate].
  destruct v as [| | | | |p]; try discriminate.
  rewrite format_product_data_one.
  destruct (format_product env p) as [p'|e] eqn:Hp; [|discriminate].
  destruct (item !! "id") as [id|]; [|discriminate].
  destruct (item !! "quantity") as [quantity|]; [|discriminate].
  intros [= <-]. by split.
Qed.

Lemma user_cart_entries_items (env : Env) (data entries : list row) :
  user_cart_entries env data = Ok entries →
  Forall (λ entry, ∃ item, item ∈ data ∧ user_cart_entry env item = Ok (Some entry))
         entries.
Proof.
  revert entries. induction data as [|item data IH]; intros entries.
  - intros [= <-]. constructor.
  - cbn [user_cart_entries]. unfold rbind.
    destruct (user_cart_entry env item) as [entry|e] eqn:Hitem; [|discriminate].
    destruct (user_cart_entries env data) as [rest|e]; [|discriminate].
    assert (Forall (λ entry, ∃ item', item' ∈ item :: data
                             ∧ user_cart_entry env item' = Ok (Some entry)) rest)
      as Hrest.
    { eapply Forall_impl; [exact (IH rest eq_refl)|]. intros x (i & Hi & Hx).
      exists i. split; [by right|assumption]. }
    intros [= <-]. destruct entry as [entry|]; [|assumption].
    constructor; [|assumption]. exists item. split; [by left|assumption].
Qed.

Lemma selected_user_cart (env : Env) (u : Z) (r : row) :
  selected env [Eq "user_id" (VInt u); Gt "quantity" 0] r
  = is_user_row u r && in_cart_row r.
Proof.
  unfold selected, in_cart_row, is_user_row. simpl.
  by destruct (Sql.column "quantity" r); rewrite ?andb_true_r.
Qed.

(** X22: when [GET /user/cart-and-favorites] answers, the two counts are
    the lengths of the two lists, every cart entry reports a quantity
    above 0, and the favorites are the products flagged [is_favorite],
    each one formatted, in the order the store returned them: they are the
    same products for every [user_id]. *)
Theorem get_user_cart_and_favorites_answer (env : Env) (user_id : Z) (st : store)
    (resp : Response) :
  (get_user_cart_and_favorites env user_id st).2 = Ok resp →
  ∃ (data : row) (entries favorites favorite_rows : list row),
    body_field resp "data" = Some (VObj data)
    ∧ data !! "user_id" = Some (VInt user_id)
    ∧ data !! "cart_items" = Some (VList (VObj <$> entries))
    ∧ data !! "favorites" = Some (VList (VObj <$> favorites))
    ∧ data !! "cart_count" = Some (VInt (Z.of_nat (List.length entries)))
    ∧ data !! "favorites_count" = Some (VInt (Z.of_nat (List.length favorites)))
    ∧ Forall (λ entry, ∃ z, entry !! "quantity" = Some (VInt z) ∧ 0 < z) entries
    ∧ favorite_rows ≡ₚ List.filter is_favorite_row (products (db st))
    ∧ Forall2 (λ p p', format_product env p = Ok p') favorite_rows favorites.
Proof.
  unfold get_user_cart_and_favorites.
  rewrite reraise_500_result, bind_execute, bind_execute.
  unfold run. build_request. cbn [rows_of fst snd db project].
  rewrite (List.filter_ext _ _ (selected_user_cart env user_id)).
  rewrite (List.filter_ext _ _ (selected_favorite env)), list_fmap_id.
  set (rows := List.filter _ (cart_items (db st))).
  destruct (user_cart_entries env (project (db st) AllWithProducts <$> rows))
    as [entries|e] eqn:Hentries;
    [rewrite (bind_lift_ok _ entries) by reflexivity
    |by rewrite (bind_lift_raise _ e)].
  destruct (format_product_data env (List.filter is_favorite_row (products (db st))))
    as [favorites|e] eqn:Hfavorites;
    [rewrite (bind_lift_ok _ favorites) by reflexivity
    |by rewrite (bind_lift_raise _ e)].
  intros [= <-].
  eexists _, entries, favorites, (List.filter is_favorite_row (products (db st))).
  split; [reflexivity|]. do 5 (split; [reflexivity|]).
  split; [|split; [reflexivity|by apply format_product_data_Forall2]].
  apply user_cart_entries_items in Hentries.
  eapply Forall_impl; [exact Hentries|]. intros entry (item & Hitem & Hentry).
  apply list_elem_of_fmap in Hitem as (r & -> & Hr).
  apply user_cart_entry_fields in Hentry as [-> _].
  cbn [project]. rewrite lookup_insert_ne by done.
  apply in_cart_row_quantity.
  apply list_elem_of_In, List.filter_In in Hr as [_ [_ Hq]%andb_true_iff].
  exact Hq.
Qed.

Lemma get_user_cart_and_favorites_answer_witness :
  ∃ (resp : Response) (data : row) (entries : list row),
    (get_user_cart_and_favorites Sample.env 7 Sample.shop_with_cart).2 = Ok resp
    ∧ body_field resp "data" = Some (VObj data)
    ∧ data !! "cart_items" = Some (VList (VObj <$> entries))
    ∧ data !! "cart_count" = Some (VInt (Z.of_nat (List.length entries)))
    ∧ Forall (λ entry, ∃ z, entry !! "quantity" = Some (VInt z) ∧ 0 < z) entries.
Proof.
  destruct (get_user_cart_and_favorites Sample.env 7 Sample.shop_with_cart).2
    as [resp|] eqn:Hresp; [|by vm_compute in Hresp].
  destruct (get_user_cart_and_favorites_answer Sample.env 7 Sample.shop_with_cart
              resp Hresp)
    as (data & entries & favorites & favorite_rows
        & Hdata & _ & Hcart & _ & Hcount & _ & Hqty & _).
  exists resp, data, entries. split; [reflexivity|]. split; [exact Hdata|].
  split; [exact Hcart|]. split; [exact Hcount|exact Hqty].
Defined.

(** ** [GET /products-recent-views] *)

Section RecentViews.

Variable env : Env.

Lemma selected_view (u : Z) (r : row) :
  selected env [Eq "user_id" (VInt u); Eq "quantity" (VInt 0)] r
  = is_user_row u r && is_view_row r.
Proof. unfold selected, is_user_row, is_view_row. simpl. by rewrite andb_true_r. Qed.

(** The rows the handler reads first: the newest [limit] view rows of
    the user, each with its product embedded. *)
Lemma get_recent_viewed_products_result (user_id limit : Z) (st : store) :
  (get_recent_viewed_products env user_id limit st).2
  = match viewed_products env
            (project (db st) AllWithProducts
               <$> take (Z.to_nat limit)
                     (Sql.order_by "updated_at" true
                        (List.filter (λ r, is_user_row user_id r && is_view_row r)
                                     (cart_items (db st))))) with
    | Raise e => Raise (HTTPException 500 (exc_str env e))
    | Ok [] =>
        listing env (take (Z.to_nat limit)
                       (Sql.order_by "created_at" true (products (db st))))
    | Ok products =>
        Ok (create_standard_response env (VList (VObj <$> products)) "Success")
    end.
Proof.
  unfold get_recent_viewed_products. rewrite reraise_500_result, bind_execute.
  unfold run, limit_int. build_request. cbn [rows_of fst snd db].
  rewrite (List.filter_ext _ _ (selected_view user_id)).
  destruct (viewed_products env _) as [[|viewed rest]|e];
    [|reflexivity|reflexivity].
  rewrite (bind_lift_ok _ []) by reflexivity.
  cbn [fmap list_fmap Py.truthy negb].
  unfold listing, bind, execute, lift, ret, run. build_request.
  cbn [rows_of fst snd db project].
  rewrite filter_no_condition, list_fmap_id.
  by destruct (format_product_data env _).
Qed.


Lemma viewed_products_all (data : list row) :
  Forall (λ item, item !! "products" = Some VNull
                  ∨ ∃ p p', item !! "products" = Some (VObj p)
                            ∧ format_product env p = Ok p') data →
  ∃ products,
    viewed_products env data = Ok products
    ∧ ∀ item p p', item ∈ data → item !! "products" = Some (VObj p) →
                   format_product env p = Ok p' → p' ∈ products.
Proof.
  induction 1 as [|item data Hitem _ (products & IH & Hin)].
  - exists []. split; [reflexivity|]. by intros ??? ?%elem_of_nil.
  - cbn [viewed_products]. unfold viewed_product.
    destruct Hitem as [Hitem|(p & p' & Hitem & Hp)]; rewrite Hitem.
    + exists products. cbn. rewrite IH. split; [reflexivity|].
      intros item' q q' [->|Hi]%elem_of_cons Hq; [congruence|]. by eapply Hin.
    + assert (Py.truthy (VObj p) = true) as ->.
      { cbn. apply negb_true_iff, bool_decide_eq_false. intros ->.
        apply format_product_inv in Hp as (id & ? & ? & ? & ? & Hid & _).
        by rewrite lookup_empty in Hid. }
      unfold rbind at 2. rewrite format_product_data_one, Hp. cbn. rewrite IH.
      exists (p' :: products). split; [reflexivity|].
      intros item' q q' [->|Hi]%elem_of_cons Hq Hq'.
      * rewrite Hitem in Hq. injection Hq as <-. rewrite Hp in Hq'.
        injection Hq' as <-. by left.
      * right. by eapply Hin.
Qed.

End RecentViews.



Lemma is_cart_row_columns (user_id product_id : Z) (r : row) :
  is_cart_row user_id product_id r = true →
  Sql.column "user_id" r = VInt user_id ∧ Sql.column "product_id" r = VInt product_id.
Proof.
  unfold is_cart_row. intros [Hu Hp]%andb_true_iff. split.
  - destruct (Sql.column "user_id" r); try discriminate.
    by apply Z.eqb_eq in Hu as ->.
  - destruct (Sql.column "product_id" r); try discriminate.
    by apply Z.eqb_eq in Hp as ->.
Qed.

Lemma embed_product_cases (d : tables) (r : row) :
  embed_product d r = VNull
  ∨ ∃ p, embed_product d r = VObj p ∧ p ∈ products d.
Proof.
  unfold embed_product.
  destruct (find _ (products d)) as [p|] eqn:Hfind; [right|by left].
  exists p. split; [reflexivity|].
  by apply List.find_some in Hfind as [?%list_elem_of_In _].
Qed.

(** X24: a cart-update to quantity 0 turns the cart rows of the pair into
    view rows.  When every product of the shop formats and [limit] is at
    least the size of the cart table, [/products-recent-views] then
    answers for that user with a list that holds the product. *)
Theorem cart_update_zero_then_recent_views (env : Env)
    (product_id user_id limit : Z) (st : store) (r0 p p' : row) :
  find (is_cart_row user_id product_id) (cart_items (db st)) = Some r0 →
  find (has_id product_id) (products (db st)) = Some p →
  format_product env p = Ok p' →
  (∀ q, q ∈ products (db st) → ∃ q', format_product env q = Ok q') →
  Z.of_nat (List.length (cart_items (db st))) ≤ limit →
  let st1 := (unified_product_api env "cart-update" product_id user_id 0 st).1 in
  ∃ (resp : Response) (viewed : list row),
    (get_recent_viewed_products env user_id limit st1).2 = Ok resp
    ∧ body_field resp "data" = Some (VList (VObj <$> viewed))
    ∧ p' ∈ viewed.
Proof.
  intros Hrow Hproduct Hp Hall Hlimit st1.
  destruct (perform_cart_update env product_id user_id 0 st)
    as (s1 & message & Hact & Hdb).
  assert (db st1 = db s1) as Hst1.
  { subst st1. by rewrite unified_product_api_db, Hact. }
  rewrite get_recent_viewed_products_result, Hst1, Hdb.
  cbn [cart_items products].
  set (cart' := (λ r, if is_cart_row user_id product_id r
                      then <["quantity" := VInt 0]> r else r) <$> cart_items (db st)).
  set (d' := {| products := products (db st); cart_items := cart' |}).
  set (views := List.filter _ cart').
  rewrite take_ge.
  2:{ rewrite order_by_length. subst views.
      pose proof (List.filter_length_le
                    (λ r, is_user_row user_id r && is_view_row r) cart') as Hle.
      subst cart'. rewrite length_fmap in Hle. lia. }
  destruct (viewed_products_all env
              (project d' AllWithProducts <$> Sql.order_by "updated_at" true views))
    as (viewed & -> & Hin).
  { apply Forall_fmap, List.Forall_forall. intros r _. cbn [compose project].
    rewrite lookup_insert_eq.
    destruct (embed_product_cases d' r) as [->|(q & -> & Hq)]; [by left|right].
    destruct (Hall q Hq) as [q' Hq']. by exists q, q'. }
  assert (p' ∈ viewed) as Hviewed.
  { apply List.find_some in Hrow as [Hr0 Hpair].
    destruct (is_cart_row_columns _ _ _ Hpair) as [Hu Hpid].
    set (r1 := <["quantity" := VInt 0]> r0).
    assert (Sql.column "user_id" r1 = VInt user_id) as Hu1.
    { unfold Sql.column, r1. by rewrite lookup_insert_ne. }
    assert (Sql.column "product_id" r1 = VInt product_id) as Hp1.
    { unfold Sql.column, r1. by rewrite lookup_insert_ne. }
    apply (Hin (project d' AllWithProducts r1) p); [| |assumption].
    - apply list_elem_of_fmap. exists r1. split; [reflexivity|].
      apply list_elem_of_In, order_by_In, List.filter_In. split.
      + apply list_elem_of_In, list_elem_of_fmap. exists r0.
        rewrite Hpair. split; [reflexivity|by apply list_elem_of_In].
      + unfold is_user_row, is_view_row. rewrite Hu1.
        unfold Sql.column, r1. rewrite lookup_insert_eq. cbn.
        by rewrite Z.eqb_refl.
    - cbn [project]. rewrite lookup_insert_eq. f_equal.
      unfold embed_product. rewrite Hp1. cbn [products d'].
      unfold has_id in Hproduct. by rewrite Hproduct. }
  destruct viewed as [|first rest]; [by apply elem_of_nil in Hviewed|].
  eexists _, (first :: rest). split; [reflexivity|]. split; [reflexivity|assumption].
Qed.

Lemma cart_update_zero_then_recent_views_witness :
  ∃ (resp : Response) (viewed : list row),
    (get_recent_viewed_products Sample.env 7 50
       (unified_product_api Sample.env "cart-update" 4 7 0 Sample.shop_with_cart).1).2
    = Ok resp
    ∧ body_field resp "data" = Some (VList (VObj <$> viewed))
    ∧ formatted_sample 4 "10" ∈ viewed.
Proof.
  apply (cart_update_zero_then_recent_views Sample.env 4 7 50 Sample.shop_with_cart
           (Sample.cart_row 2 7 4 2) (Sample.product 4 "10")).
  - reflexivity.
  - reflexivity.
  - reflexivity.
  - intros q Hq. apply list_elem_of_In in Hq. cbn in Hq.
    destruct Hq as [<-|[<-|[]]]; eexists; reflexivity.
  - cbn. lia.
Defined.

(** ** Whitespace around a search query *)

Lemma ws2_bytes (c1 c2 : ascii) :
  Py.ws2 c1 c2 = true → (Py.code c1 = 194 ∧ 133 ≤ Py.code c2 ≤ 160)%N.
Proof.
  unfold Py.ws2.
  rewrite andb_true_iff, orb_true_iff, !N.eqb_eq. lia.
Qed.

Lemma ws3_bytes (c1 c2 c3 : ascii) :
  Py.ws3 c1 c2 c3 = true →
  (225 ≤ Py.code c1 ≤ 227 ∧ 128 ≤ Py.code c2 ≤ 154 ∧ 128 ≤ Py.code c3 ≤ 175)%N.
Proof.
  unfold Py.ws3.
  rewrite !orb_true_iff, !andb_true_iff, !orb_true_iff, !andb_true_iff,
    !N.eqb_eq, !N.leb_le.
  lia.
Qed.

Lemma ws1_bytes (c : ascii) : Py.ws1 c = true → (Py.code c ≤ 32)%N.
Proof.
  unfold Py.ws1. rewrite orb_true_iff, !andb_true_iff, !N.leb_le. lia.
Qed.

(** A whitespace string starts with the first byte of a whitespace
    character, which is the second or third byte of none. *)
Lemma all_ws_first (c : ascii) (r : string) :
  Py.all_ws (String c r) = true → (Py.code c ≤ 32 ∨ 194 ≤ Py.code c)%N.
Proof.
  cbn [Py.all_ws].
  destruct (Py.ws1 c) eqn:H1; [intros _; apply ws1_bytes in H1; lia|].
  destruct r as [|c2 r2]; [discriminate|].
  destruct (Py.ws2 c c2) eqn:H2; [intros _; apply ws2_bytes in H2; lia|].
  destruct r2 as [|c3 r3]; [discriminate|].
  destruct (Py.ws3 c c2 c3) eqn:H3; [intros _; apply ws3_bytes in H3; lia|].
  discriminate.
Qed.

Lemma ws2_first (c1 c2 : ascii) (r : string) :
  Py.all_ws (String c2 r) = true → Py.ws2 c1 c2 = false.
Proof.
  intros H%all_ws_first. destruct (Py.ws2 c1 c2) eqn:H2; [|reflexivity].
  apply ws2_bytes in H2. lia.
Qed.

Lemma ws3_first_2 (c1 c2 c3 : ascii) (r : string) :
  Py.all_ws (String c2 r) = true → Py.ws3 c1 c2 c3 = false.
Proof.
  intros H%all_ws_first. destruct (Py.ws3 c1 c2 c3) eqn:H3; [|reflexivity].
  apply ws3_bytes in H3. lia.
Qed.

Lemma ws3_first_3 (c1 c2 c3 : ascii) (r : string) :
  Py.all_ws (String c3 r) = true → Py.ws3 c1 c2 c3 = false.
Proof.
  intros H%all_ws_first. destruct (Py.ws3 c1 c2 c3) eqn:H3; [|reflexivity].
  apply ws3_bytes in H3. lia.
Qed.

Lemma append_cons (c : ascii) (r w : string) :
  String c r +:+ w = String c (r +:+ w).
Proof. reflexivity. Qed.

Lemma append_empty_r (s : string) : s +:+ "" = s.
Proof. induction s as [|c r IH]; [reflexivity|]. by rewrite append_cons, IH. Qed.

(** Whitespace after [t] does not make [t] whitespace. *)
Lemma all_ws_app_ws (t w : string) :
  Py.all_ws w = true → Py.all_ws (t +:+ w) = Py.all_ws t.
Proof.
  intros Hw. induction t as [t IH] using (induction_ltof1 _ String.length).
  unfold ltof in IH.
  destruct t as [|c1 r1]; [exact Hw|].
  rewrite append_cons. cbn [Py.all_ws].
  destruct (Py.ws1 c1) eqn:H1; [apply IH; simpl; lia|].
  destruct r1 as [|c2 r2].
  { change ("" +:+ w) with w. destruct w as [|w1 w']; [reflexivity|].
    rewrite (ws2_first c1 w1 w' Hw).
    destruct w' as [|w2 w'']; [reflexivity|].
    by rewrite (ws3_first_2 c1 w1 w2 _ Hw). }
  rewrite append_cons.
  destruct (Py.ws2 c1 c2) eqn:H2; [apply IH; simpl; lia|].
  destruct r2 as [|c3 r3].
  { change ("" +:+ w) with w. destruct w as [|w1 w']; [reflexivity|].
    by rewrite (ws3_first_3 c1 c2 w1 w' Hw). }
  rewrite append_cons.
  destruct (Py.ws3 c1 c2 c3) eqn:H3; [apply IH; simpl; lia|reflexivity].
Qed.

Lemma lstrip_app_ws (t w : string) :
  Py.all_ws w = true → Py.all_ws t = false →
  Py.lstrip (t +:+ w) = Py.lstrip t +:+ w.
Proof.
  intros Hw. induction t as [t IH] using (induction_ltof1 _ String.length).
  unfold ltof in IH.
  destruct t as [|c1 r1]; [discriminate|].
  rewrite append_cons. cbn [Py.all_ws Py.lstrip].
  destruct (Py.ws1 c1) eqn:H1; [apply IH; simpl; lia|].
  destruct r1 as [|c2 r2].
  { intros _. change ("" +:+ w) with w. destruct w as [|w1 w']; [reflexivity|].
    rewrite (ws2_first c1 w1 w' Hw).
    destruct w' as [|w2 w'']; [reflexivity|].
    by rewrite (ws3_first_2 c1 w1 w2 _ Hw). }
  rewrite append_cons.
  destruct (Py.ws2 c1 c2) eqn:H2; [apply IH; simpl; lia|].
  destruct r2 as [|c3 r3].
  { intros _. change ("" +:+ w) with w. destruct w as [|w1 w']; [reflexivity|].
    by rewrite (ws3_first_3 c1 c2 w1 w' Hw). }
  rewrite append_cons.
  destruct (Py.ws3 c1 c2 c3) eqn:H3; [apply IH; simpl; lia|reflexivity].
Qed.

Lemma lstrip_ws_app (w s : string) :
  Py.all_ws w = true → Py.lstrip (w +:+ s) = Py.lstrip s.
Proof.
  induction w as [w IH] using (induction_ltof1 _ String.length).
  unfold ltof in IH.
  destruct w as [|c1 r1]; [reflexivity|].
  rewrite append_cons. cbn [Py.all_ws Py.lstrip].
  destruct (Py.ws1 c1); [apply IH; simpl; lia|].
  destruct r1 as [|c2 r2]; [discriminate|]. rewrite append_cons.
  destruct (Py.ws2 c1 c2); [apply IH; simpl; lia|].
  destruct r2 as [|c3 r3]; [discriminate|]. rewrite append_cons.
  destruct (Py.ws3 c1 c2 c3); [apply IH; simpl; lia|discriminate].
Qed.

Lemma rstrip_all_ws (w : string) : Py.all_ws w = true → Py.rstrip w = "".
Proof. destruct w as [|c r]; [reflexivity|]. cbn [Py.rstrip]. by intros ->. Qed.

Lemma rstrip_app_ws (s w : string) :
  Py.all_ws w = true → Py.rstrip (s +:+ w) = Py.rstrip s.
Proof.
  intros Hw. induction s as [|c r IH]; [by apply rstrip_all_ws|].
  rewrite append_cons. cbn [Py.rstrip].
  rewrite <- append_cons, (all_ws_app_ws _ w Hw), IH. reflexivity.
Qed.

(** [strip] drops the whitespace on both sides, and only that. *)
Lemma strip_surrounding (w1 q w2 : string) :
  Py.all_ws w1 = true → Py.all_ws w2 = true →
  Py.strip (w1 +:+ q +:+ w2) = Py.strip q.
Proof.
  intros H1 H2. unfold Py.strip. rewrite (lstrip_ws_app w1 _ H1).
  destruct (Py.all_ws q) eqn:Hq.
  - rewrite (lstrip_all_ws (q +:+ w2)) by (by rewrite all_ws_app_ws).
    by rewrite (lstrip_all_ws q).
  - rewrite (lstrip_app_ws q w2 H2 Hq). by apply rstrip_app_ws.
Qed.

(** X25: whitespace around a search query is ignored.  For strings [w1]
    and [w2] made of whitespace characters, a search for [w1 q w2] sends
    the request of a search for [q] and gives its answer. *)
Theorem search_products_ignores_surrounding_whitespace (env : Env)
    (w1 q w2 : string) (st : store) :
  Py.all_ws w1 = true → Py.all_ws w2 = true →
  search_products env (w1 +:+ q +:+ w2) st = search_products env q st.
Proof.
  intros H1 H2. unfold search_products.
  by rewrite !str_or_empty, (strip_surrounding w1 q w2 H1 H2).
Qed.

Lemma search_products_ignores_surrounding_whitespace_witness :
  search_products Sample.env "  shoe " Sample.shop
  = search_products Sample.env "shoe" Sample.shop.
Proof.
  exact (search_products_ignores_surrounding_whitespace Sample.env "  " "shoe" " "
           Sample.shop eq_refl eq_refl).
Defined.
